(** * CampaignX manager (campaign/models.py)

    A shallow embedding of the campaign aggregate of WeVoteServer: the
    Django model classes become records, the tables of the database become
    lists of rows inside a [Store], the methods of [CampaignXManager]
    become functions that take the store and return their Python result
    (together with the new store when they write).  Python exceptions are
    values of [exn] carried by the [result] type, so that every
    [try]/[except] of the source is visible in the embedding. *)

From Stdlib Require Import List String Ascii ZArith Bool Arith Lia Permutation Sorted
  DecimalString.
Import ListNotations.
Local Open Scope string_scope.

Set Implicit Arguments.

(** ** Python exceptions and the [try]/[except] statement *)

Inductive exn : Type :=
| DatabaseError (msg : string)          (* any failure of the store layer *)
| DoesNotExist                          (* Model.DoesNotExist *)
| MultipleObjectsReturned               (* Model.MultipleObjectsReturned *)
| KeyError (key : string)
| TypeError (msg : string)
| ValueError (msg : string).

(** [str(e)] *)
Definition str_exn (e : exn) : string :=
  match e with
  | DatabaseError msg => msg
  | DoesNotExist => "matching query does not exist."
  | MultipleObjectsReturned => "get() returned more than one object"
  | KeyError key => "'" ++ key ++ "'"
  | TypeError msg => msg
  | ValueError msg => msg
  end.

Inductive result (A : Type) : Type :=
| Ok (a : A)
| Raise (e : exn).
Arguments Ok {A} a.
Arguments Raise {A} e.

Definition bind {A B} (m : result A) (k : A -> result B) : result B :=
  match m with
  | Ok a => k a
  | Raise e => Raise e
  end.

Notation "x <- m ;; k" := (bind m (fun x => k))
  (at level 61, m at next level, right associativity).
Notation "' pat <- m ;; k" := (bind m (fun x => match x with pat => k end))
  (at level 61, pat pattern, m at next level, right associativity).

(** [try: body  except Exception as e: handler]: the body and the handler
    both leave the variables of the function set, and nothing escapes. *)
Definition try_catch {A} (body : result A) (handler : exn -> A) : A :=
  match body with
  | Ok a => a
  | Raise e => handler e
  end.

(** [try: body  except SomeModel as e: handler], where [SomeModel] is a
    Django model class ([CampaignXOwner], [OrganizationTeamMember],
    [CampaignXSupporter]) and not an exception class.  When an exception
    reaches such a clause, Python 3 refuses the match and raises
    [TypeError] in its place; the handler never runs. *)
Definition catching_a_model_class : string :=
  "catching classes that do not inherit from BaseException is not allowed".

Definition try_except_model_class {A} (body : result A)
  (handler : exn -> result A) : result A :=
  match body with
  | Ok a => Ok a
  | Raise _ => Raise (TypeError catching_a_model_class)
  end.

(** [try: body  except Model.DoesNotExist: h1  except Exception as e: h2] and
    the like are written with a [match] on the exception where they occur. *)

(** ** Strings: case-insensitive comparison

    The [__iexact] lookups of the ORM compare after folding case; the
    embedding folds the ASCII letters, as the database does for the
    identifiers and slugs stored here. *)

Definition upper_ascii (c : ascii) : ascii :=
  let n := nat_of_ascii c in
  if (97 <=? n)%nat && (n <=? 122)%nat then ascii_of_nat (n - 32) else c.

Fixpoint upper (s : string) : string :=
  match s with
  | EmptyString => EmptyString
  | String c s' => String (upper_ascii c) (upper s')
  end.

Definition iexact (a b : string) : bool := String.eqb (upper a) (upper b).

(** A nullable column: SQL comparisons with NULL never hold. *)
Definition col_exact (col : option string) (v : string) : bool :=
  match col with
  | Some s => String.eqb s v
  | None => false
  end.

Definition col_iexact (col : option string) (v : string) : bool :=
  match col with
  | Some s => iexact s v
  | None => false
  end.

(** [column__in=values]: the values come from a [values_list] over a nullable
    column and may hold [None]; NULL matches nothing. *)
Definition col_in (col : option string) (values : list (option string)) : bool :=
  match col with
  | Some s =>
      existsb (fun v => match v with Some t => String.eqb s t | None => false end)
              values
  | None => false
  end.

Definition option_string_eq_dec (a b : option string) : {a = b} + {a <> b}.
Proof. decide equality. apply string_dec. Defined.

(** [values_list(column, flat=True).distinct()] *)
Definition distinct (l : list (option string)) : list (option string) :=
  nodup option_string_eq_dec l.

(** [list(set(a) | set(b))] *)
Definition set_union (a b : list (option string)) : list (option string) :=
  nodup option_string_eq_dec (a ++ b)%list.

(** [x in l] for a list of identifiers *)
Definition py_in (x : option string) (l : list (option string)) : bool :=
  if in_dec option_string_eq_dec x l then true else false.

(** [len(s)] of a string, as a Python integer *)
Definition py_len (s : string) : Z := Z.of_nat (String.length s).

(** [str(n)] of a non-negative integer *)
Definition str_nat (n : nat) : string := NilZero.string_of_uint (Nat.to_uint n).

(** ** The model classes

    One record per Django model, one field per column the manager reads or
    writes; [id] is the automatic primary key.  A column declared
    [null=True] is an [option]. *)

Module CampaignX.
Record t : Type := mk {
  id : nat;
  we_vote_id : option string;
  campaign_description : option string;
  campaign_title : option string;   (* null=False: [save] refuses [None] *)
  final_election_date_as_integer : option Z;
  in_draft_mode : bool;
  is_ok_to_promote_on_we_vote : bool;
  is_blocked_by_we_vote : bool;
  is_in_team_review_mode : bool;
  is_not_promoted_by_we_vote : bool;
  is_still_active : bool;
  is_victorious : bool;
  politician_starter_list_serialized : option string;
  seo_friendly_path : option string;
  started_by_voter_we_vote_id : option string;
  supporters_count : Z;
  supporters_count_minimum_ignored : bool;
  supporters_count_victory_goal : Z;
  we_vote_hosted_campaign_photo_original_url : option string;
  we_vote_hosted_campaign_photo_large_url : option string;
  we_vote_hosted_campaign_photo_medium_url : option string;
  we_vote_hosted_campaign_photo_small_url : option string
}.
End CampaignX.

Module CampaignXOwner.
Record t : Type := mk {
  id : nat;
  campaignx_we_vote_id : option string;
  feature_this_profile_image : bool;
  order_in_list : option Z;
  organization_name : string;
  organization_we_vote_id : option string;
  visible_to_public : bool;
  voter_we_vote_id : option string;
  we_vote_hosted_profile_image_url_medium : option string;
  we_vote_hosted_profile_image_url_tiny : option string
}.
End CampaignXOwner.

Module CampaignXSEOFriendlyPath.
Record t : Type := mk {
  id : nat;
  campaignx_we_vote_id : option string;
  campaign_title : string;
  base_pathname_string : option string;
  pathname_modifier : option string;
  final_pathname_string : option string
}.
End CampaignXSEOFriendlyPath.

Module CampaignXSupporter.
Record t : Type := mk {
  id : nat;
  campaign_supported : bool;
  campaignx_we_vote_id : string;
  is_subscribed_by_email : bool;
  voter_we_vote_id : string;
  organization_we_vote_id : option string;
  supporter_name : option string;
  supporter_endorsement : option string;
  we_vote_hosted_profile_image_url_medium : option string;
  we_vote_hosted_profile_image_url_tiny : option string;
  visibility_blocked_by_we_vote : bool;
  visible_to_public : bool
}.
End CampaignXSupporter.

(** [organization.models.OrganizationTeamMember] is declared outside this
    module; the record keeps the columns the queries below name. *)
Module OrganizationTeamMember.
Record t : Type := mk {
  id : nat;
  organization_we_vote_id : option string;
  voter_we_vote_id : option string;
  can_edit_campaignx_owned_by_organization : bool;
  can_moderate_campaignx_owned_by_organization : bool;
  can_send_updates_for_campaignx_owned_by_organization : bool
}.
End OrganizationTeamMember.

(** ** Python values

    The values that travel in the dictionaries of the source: the
    [update_values] patches and the result dictionaries. *)

Inductive pyval : Type :=
| PNone
| PBool (b : bool)
| PInt (n : Z)
| PStr (s : string)
| PCampaignX (c : CampaignX.t)
| PSupporter (s : CampaignXSupporter.t).

(** Python truthiness, as in [if value:] *)
Definition truthy (v : pyval) : bool :=
  match v with
  | PNone => false
  | PBool b => b
  | PInt n => negb (n =? 0)%Z
  | PStr s => negb (String.eqb s "")
  | PCampaignX _ => true
  | PSupporter _ => true
  end.

Definition py_opt_str (o : option string) : pyval :=
  match o with
  | Some s => PStr s
  | None => PNone
  end.

(** A dictionary with string keys, in the order of its literal. *)
Definition dict : Type := list (string * pyval).

Fixpoint dict_find (key : string) (d : dict) : option pyval :=
  match d with
  | [] => None
  | (k, v) :: d' => if String.eqb k key then Some v else dict_find key d'
  end.

(** [d[key]] *)
Definition dict_get (d : dict) (key : string) : result pyval :=
  match dict_find key d with
  | Some v => Ok v
  | None => Raise (KeyError key)
  end.

(** [str(value)] *)
Definition py_str (v : pyval) : string :=
  match v with
  | PNone => "None"
  | PBool true => "True"
  | PBool false => "False"
  | PInt n => NilZero.string_of_int (Z.to_int n)
  | PStr s => s
  | PCampaignX _ => "CampaignX object"
  | PSupporter _ => "CampaignXSupporter object"
  end.

(** A value assigned to a text column: [None] is NULL, any other value is
    stored as its [str]. *)
Definition as_text (v : pyval) : option string :=
  match v with
  | PNone => None
  | _ => Some (py_str v)
  end.

(** A value assigned to an integer column; what is no integer is refused
    when the row is written. *)
Definition as_integer (v : pyval) : result Z :=
  match v with
  | PInt n => Ok n
  | PBool b => Ok (if b then 1 else 0)%Z
  | _ => Raise (ValueError "Field 'supporters_count' expected a number")
  end.

(** [s.strip().lower()].  A [string] stands for a Python [str] whose
    characters have code points below 256, one [ascii] per character.

    [str.lower] moves the capitals to the code point 32 above: A to Z
    (65 to 90) and the capitals of the upper half, 192 to 222 without the
    multiplication sign 215; every other character below 256 is its own
    lower case. *)
Definition lower_char (c : ascii) : ascii :=
  let n := nat_of_ascii c in
  if ((65 <=? n)%nat && (n <=? 90)%nat)
     || ((192 <=? n)%nat && (n <=? 214)%nat)
     || ((216 <=? n)%nat && (n <=? 222)%nat)
  then ascii_of_nat (n + 32) else c.

Fixpoint lower (s : string) : string :=
  match s with
  | EmptyString => EmptyString
  | String c s' => String (lower_char c) (lower s')
  end.

(** [str.isspace], which [str.strip()] removes at both ends: the space, the
    controls 9 to 13 and 28 to 31, the next-line control 133 and the
    no-break space 160. *)
Definition is_space (c : ascii) : bool :=
  let n := nat_of_ascii c in
  (n =? 32)%nat
  || ((9 <=? n)%nat && (n <=? 13)%nat)
  || ((28 <=? n)%nat && (n <=? 31)%nat)
  || (n =? 133)%nat
  || (n =? 160)%nat.

Fixpoint lstrip (s : string) : string :=
  match s with
  | EmptyString => EmptyString
  | String c s' => if is_space c then lstrip s' else s
  end.

Fixpoint rstrip (s : string) : string :=
  match s with
  | EmptyString => EmptyString
  | String c s' =>
      match rstrip s' with
      | EmptyString => if is_space c then EmptyString else String c EmptyString
      | t => String c t
      end
  end.

Definition strip (s : string) : string := rstrip (lstrip s).

(** ** The store

    The tables, the state of the database connection ([db_error] holds the
    error text while the store layer is failing), the counter behind
    [fetch_next_we_vote_id_campaignx_integer] and the number of strings drawn
    so far from the random generator. *)

Record Store : Type := mkStore {
  campaignx_rows : list CampaignX.t;
  owner_rows : list CampaignXOwner.t;
  seo_friendly_path_rows : list CampaignXSEOFriendlyPath.t;
  supporter_rows : list CampaignXSupporter.t;
  team_member_rows : list OrganizationTeamMember.t;
  db_error : option string;
  we_vote_id_last_campaignx_integer : nat;
  random_strings_drawn : nat
}.

Definition set_campaignx_rows (st : Store) rows : Store :=
  mkStore rows (owner_rows st) (seo_friendly_path_rows st) (supporter_rows st)
          (team_member_rows st) (db_error st)
          (we_vote_id_last_campaignx_integer st) (random_strings_drawn st).

Definition set_seo_friendly_path_rows (st : Store) rows : Store :=
  mkStore (campaignx_rows st) (owner_rows st) rows (supporter_rows st)
          (team_member_rows st) (db_error st)
          (we_vote_id_last_campaignx_integer st) (random_strings_drawn st).

Definition set_supporter_rows (st : Store) rows : Store :=
  mkStore (campaignx_rows st) (owner_rows st) (seo_friendly_path_rows st) rows
          (team_member_rows st) (db_error st)
          (we_vote_id_last_campaignx_integer st) (random_strings_drawn st).

Definition set_we_vote_id_last_campaignx_integer (st : Store) n : Store :=
  mkStore (campaignx_rows st) (owner_rows st) (seo_friendly_path_rows st)
          (supporter_rows st) (team_member_rows st) (db_error st)
          n (random_strings_drawn st).

Definition set_random_strings_drawn (st : Store) n : Store :=
  mkStore (campaignx_rows st) (owner_rows st) (seo_friendly_path_rows st)
          (supporter_rows st) (team_member_rows st) (db_error st)
          (we_vote_id_last_campaignx_integer st) n.

(** ** The ORM *)

(** Every query and every write reaches the database: it raises while the
    store layer is failing. *)
Definition db_run {A} (st : Store) (x : A) : result A :=
  match db_error st with
  | Some msg => Raise (DatabaseError msg)
  | None => Ok x
  end.

(** [Model.objects.get(...)] over the rows the lookup matches *)
Definition objects_get {R} (matching : list R) : result R :=
  match matching with
  | [] => Raise DoesNotExist
  | [r] => Ok r
  | _ :: _ :: _ => Raise MultipleObjectsReturned
  end.

Section PrimaryKey.
Variable R : Type.
Variable pk : R -> nat.

(** the key of the next row the table creates *)
Definition next_id (rows : list R) : nat :=
  S (fold_right (fun r m => Nat.max (pk r) m) 0%nat rows).

(** [instance.save()]: the row with this key is rewritten; an instance the
    table does not hold is inserted. *)
Definition save_row (x : R) (rows : list R) : list R :=
  if existsb (fun r => Nat.eqb (pk r) (pk x)) rows
  then map (fun r => if Nat.eqb (pk r) (pk x) then x else r) rows
  else (rows ++ [x])%list.

(** [instance.delete()] *)
Definition delete_row (x : R) (rows : list R) : list R :=
  filter (fun r => negb (Nat.eqb (pk r) (pk x))) rows.
End PrimaryKey.

(** The order of the rows of an ordered query.  [ORDER BY] settles the order
    of rows that differ on its keys; rows that tie on them come in an order
    the database chooses (the order of an index scan, of a sort that is not
    stable), and nothing else is known of it: [ordered_scan keys rows] is
    the order in which the database reads the selected rows before it
    sorts them on the keys, some rearrangement of them.  A query without
    [ORDER BY] reads the table in the order the store lists it. *)
Class Database : Type := {
  ordered_scan : forall R : Type, list (R -> Z) -> list R -> list R;
  ordered_scan_permutation :
    forall (R : Type) (keys : list (R -> Z)) (rows : list R),
      Permutation (ordered_scan keys rows) rows
}.

(** A [QuerySet]: the rows selected so far, in the order the table yields
    them, the ordering requested and the bound of a slice.  An ordering is a
    list of sort keys, ascending; [order_by('-column')] is the key that
    negates the column.  A query set is lazy: the database is reached when
    it is counted, listed, measured or iterated. *)
Record QuerySet (R : Type) : Type := mkQuerySet {
  qs_rows : list R;
  qs_ordering : list (R -> Z);
  qs_stop : option nat
}.

Section QuerySets.
Context {DB : Database}.
Variable R : Type.

(** [Model.objects.all()]: none of the models declares a default ordering *)
Definition objects_all (rows : list R) : QuerySet R := mkQuerySet rows [] None.

(** [queryset.filter(...)] *)
Definition qs_filter (p : R -> bool) (qs : QuerySet R) : QuerySet R :=
  mkQuerySet (filter p (qs_rows qs)) (qs_ordering qs) (qs_stop qs).

(** [queryset.order_by(key)].  Django: each [order_by] call clears any
    previous ordering of the query set. *)
Definition order_by (key : R -> Z) (qs : QuerySet R) : QuerySet R :=
  mkQuerySet (qs_rows qs) [key] (qs_stop qs).

(** [queryset[:limit]]: a negative bound is refused *)
Definition qs_slice (limit : Z) (qs : QuerySet R) : result (QuerySet R) :=
  if (limit <? 0)%Z then Raise (ValueError "Negative indexing is not supported.")
  else Ok (mkQuerySet (qs_rows qs) (qs_ordering qs) (Some (Z.to_nat limit))).

Fixpoint keys_le (keys : list (R -> Z)) (a b : R) : bool :=
  match keys with
  | [] => true
  | k :: keys' =>
      if (k a <? k b)%Z then true
      else if (k b <? k a)%Z then false
      else keys_le keys' a b
  end.

Fixpoint insert_sorted (keys : list (R -> Z)) (x : R) (l : list R) : list R :=
  match l with
  | [] => [x]
  | y :: l' =>
      if keys_le keys x y then x :: y :: l' else y :: insert_sorted keys x l'
  end.

(** an insertion sort: rows with equal keys stay in the order of [l] *)
Fixpoint sort_by_keys (keys : list (R -> Z)) (l : list R) : list R :=
  match l with
  | [] => []
  | x :: l' => insert_sorted keys x (sort_by_keys keys l')
  end.

(** [ORDER BY keys]: the rows sorted on the keys, the rows that tie in the
    order in which the database reads them; without an ordering, the rows as
    the table yields them. *)
Definition sort_rows (keys : list (R -> Z)) (l : list R) : list R :=
  match keys with
  | [] => l
  | _ :: _ => sort_by_keys keys (ordered_scan keys l)
  end.

(** the rows a query set stands for *)
Definition qs_result (qs : QuerySet R) : list R :=
  let rows := sort_rows (qs_ordering qs) (qs_rows qs) in
  match qs_stop qs with
  | Some n => firstn n rows
  | None => rows
  end.

(** [list(queryset)], and every other evaluation of it *)
Definition qs_list (st : Store) (qs : QuerySet R) : result (list R) :=
  db_run st (qs_result qs).

(** [queryset.count()] *)
Definition qs_count (st : Store) (qs : QuerySet R) : result Z :=
  db_run st (Z.of_nat (List.length (qs_result qs))).
End QuerySets.

Definition desc_bool (b : bool) : Z := if b then (-1)%Z else 0%Z.

(** ** Collaborators outside this module

    [wevote_functions.functions], [django.utils.text], the voter and
    organization directories and the politician side of the campaign are not
    part of this module.  The manager is embedded over any implementation of
    them; of [positive_value_exists] the development uses what its callers
    here rely on: it is false on [None], on the empty string and on
    integers that are not positive, and it is the identity on booleans. *)

Record Organization : Type := mkOrganization {
  org_organization_name : option string;
  org_we_vote_hosted_profile_image_url_medium : option string;
  org_we_vote_hosted_profile_image_url_tiny : option string
}.

Class Helpers : Type := {
  positive_value_exists : pyval -> bool;
  positive_value_exists_None : positive_value_exists PNone = false;
  positive_value_exists_bool :
    forall b, positive_value_exists (PBool b) = b;
  positive_value_exists_int :
    forall n, positive_value_exists (PInt n) = (0 <? n)%Z;
  positive_value_exists_empty : positive_value_exists (PStr "") = false;
  (** [django.utils.text.slugify] *)
  slugify : string -> result string;
  (** the n-th string [generate_random_string(string_length=4,
      chars=string.ascii_lowercase + string.digits,
      remove_confusing_digits=True)] yields *)
  generate_random_string : nat -> string;
  (** [fetch_site_unique_id_prefix()] *)
  fetch_site_unique_id_prefix : string;
  (** [VoterManager().retrieve_voter_by_we_vote_id(id, read_only=True)]:
      [Some linked] when [voter_found], with the voter's
      [linked_organization_we_vote_id] *)
  retrieve_voter_by_we_vote_id : string -> option (option string);
  (** [OrganizationManager().retrieve_organization(we_vote_id=id,
      read_only=True)]: [Some organization] when [organization_found] *)
  retrieve_organization : string -> option Organization;
  (** [json.loads] of the serialized delete list followed by
      [remove_campaignx_politicians_from_delete_list]: the new store and the
      status *)
  remove_campaignx_politicians_from_delete_list :
    Store -> option string -> pyval -> result (Store * string);
  (** [json.loads] of the serialized starter list followed by
      [update_or_create_campaignx_politicians_from_starter]: the new store
      and [results['success']] *)
  update_or_create_campaignx_politicians_from_starter :
    Store -> option string -> pyval -> result (Store * bool)
}.

(** [type(e)], as [format] prints it *)
Definition type_exn (e : exn) : string :=
  match e with
  | DatabaseError _ => "<class 'django.db.utils.DatabaseError'>"
  | DoesNotExist => "<class 'django.core.exceptions.ObjectDoesNotExist'>"
  | MultipleObjectsReturned =>
      "<class 'django.core.exceptions.MultipleObjectsReturned'>"
  | KeyError _ => "<class 'KeyError'>"
  | TypeError _ => "<class 'TypeError'>"
  | ValueError _ => "<class 'ValueError'>"
  end.

(** ['... {error} [type: {error_type}] '.format(error=str(e), error_type=type(e))] *)
Definition format_error (tag : string) (e : exn) : string :=
  tag ++ " " ++ str_exn e ++ " [type: " ++ type_exn e ++ "] ".

(** ** Result dictionaries embedded as records *)

Module SeoPathResults.
Record t : Type := mk {
  seo_friendly_path : string;
  seo_friendly_path_created : bool;
  seo_friendly_path_found : bool;
  status : string;
  success : bool
}.
End SeoPathResults.

(** Control flow of a loop body: [return results] or go on. *)
Inductive flow (A B : Type) : Type :=
| Return (r : A)
| Continue (v : B).
Arguments Return {A B} r.
Arguments Continue {A B} v.

(** The local variables of [generate_seo_friendly_path] that its loops
    update; [store] carries the count of random strings drawn. *)
Module PathVars.
Record t : Type := mk {
  final_pathname_string : string;
  pathname_modifier : option string;
  owned_by_another_campaignx : bool;
  status : string;
  continue_retrieving : bool;
  pathname_modifiers_already_reviewed_list : list string;
  store : Store
}.
End PathVars.

(** [CampaignXSEOFriendlyPath.objects.create(...)];
    [final_pathname_string] is declared [unique=True]. *)
Definition create_seo_friendly_path (st : Store)
  (base_pathname_string campaign_title campaignx_we_vote_id
     final_pathname_string : string) (pathname_modifier : option string)
  : result (CampaignXSEOFriendlyPath.t * Store) :=
  rows <- db_run st (seo_friendly_path_rows st) ;;
  if existsb (fun p => col_exact (CampaignXSEOFriendlyPath.final_pathname_string p)
                                 final_pathname_string) rows
  then Raise (DatabaseError "duplicate key value violates unique constraint")
  else
    let row := CampaignXSEOFriendlyPath.mk
                 (next_id CampaignXSEOFriendlyPath.id rows)
                 (Some campaignx_we_vote_id) campaign_title
                 (Some base_pathname_string) pathname_modifier
                 (Some final_pathname_string) in
    Ok (row, set_seo_friendly_path_rows st (rows ++ [row])%list).

(** Assignments to the attributes of a campaign object. *)
Module SetCampaignX.
Import CampaignX.

Definition we_vote_id' (x : option string) (c : t) : t :=
  mk (id c) x (campaign_description c) (campaign_title c)
     (final_election_date_as_integer c) (in_draft_mode c)
     (is_ok_to_promote_on_we_vote c) (is_blocked_by_we_vote c)
     (is_in_team_review_mode c) (is_not_promoted_by_we_vote c)
     (is_still_active c) (is_victorious c)
     (politician_starter_list_serialized c) (seo_friendly_path c)
     (started_by_voter_we_vote_id c) (supporters_count c)
     (supporters_count_minimum_ignored c) (supporters_count_victory_goal c)
     (we_vote_hosted_campaign_photo_original_url c)
     (we_vote_hosted_campaign_photo_large_url c)
     (we_vote_hosted_campaign_photo_medium_url c)
     (we_vote_hosted_campaign_photo_small_url c).

Definition campaign_description' (x : option string) (c : t) : t :=
  mk (id c) (we_vote_id c) x (campaign_title c)
     (final_election_date_as_integer c) (in_draft_mode c)
     (is_ok_to_promote_on_we_vote c) (is_blocked_by_we_vote c)
     (is_in_team_review_mode c) (is_not_promoted_by_we_vote c)
     (is_still_active c) (is_victorious c)
     (politician_starter_list_serialized c) (seo_friendly_path c)
     (started_by_voter_we_vote_id c) (supporters_count c)
     (supporters_count_minimum_ignored c) (supporters_count_victory_goal c)
     (we_vote_hosted_campaign_photo_original_url c)
     (we_vote_hosted_campaign_photo_large_url c)
     (we_vote_hosted_campaign_photo_medium_url c)
     (we_vote_hosted_campaign_photo_small_url c).

Definition campaign_title' (x : option string) (c : t) : t :=
  mk (id c) (we_vote_id c) (campaign_description c) x
     (final_election_date_as_integer c) (in_draft_mode c)
     (is_ok_to_promote_on_we_vote c) (is_blocked_by_we_vote c)
     (is_in_team_review_mode c) (is_not_promoted_by_we_vote c)
     (is_still_active c) (is_victorious c)
     (politician_starter_list_serialized c) (seo_friendly_path c)
     (started_by_voter_we_vote_id c) (supporters_count c)
     (supporters_count_minimum_ignored c) (supporters_count_victory_goal c)
     (we_vote_hosted_campaign_photo_original_url c)
     (we_vote_hosted_campaign_photo_large_url c)
     (we_vote_hosted_campaign_photo_medium_url c)
     (we_vote_hosted_campaign_photo_small_url c).

Definition in_draft_mode' (x : bool) (c : t) : t :=
  mk (id c) (we_vote_id c) (campaign_description c) (campaign_title c)
     (final_election_date_as_integer c) x
     (is_ok_to_promote_on_we_vote c) (is_blocked_by_we_vote c)
     (is_in_team_review_mode c) (is_not_promoted_by_we_vote c)
     (is_still_active c) (is_victorious c)
     (politician_starter_list_serialized c) (seo_friendly_path c)
     (started_by_voter_we_vote_id c) (supporters_count c)
     (supporters_count_minimum_ignored c) (supporters_count_victory_goal c)
     (we_vote_hosted_campaign_photo_original_url c)
     (we_vote_hosted_campaign_photo_large_url c)
     (we_vote_hosted_campaign_photo_medium_url c)
     (we_vote_hosted_campaign_photo_small_url c).

Definition politician_starter_list_serialized' (x : option string) (c : t) : t :=
  mk (id c) (we_vote_id c) (campaign_description c) (campaign_title c)
     (final_election_date_as_integer c) (in_draft_mode c)
     (is_ok_to_promote_on_we_vote c) (is_blocked_by_we_vote c)
     (is_in_team_review_mode c) (is_not_promoted_by_we_vote c)
     (is_still_active c) (is_victorious c)
     x (seo_friendly_path c)
     (started_by_voter_we_vote_id c) (supporters_count c)
     (supporters_count_minimum_ignored c) (supporters_count_victory_goal c)
     (we_vote_hosted_campaign_photo_original_url c)
     (we_vote_hosted_campaign_photo_large_url c)
     (we_vote_hosted_campaign_photo_medium_url c)
     (we_vote_hosted_campaign_photo_small_url c).

Definition seo_friendly_path' (x : option string) (c : t) : t :=
  mk (id c) (we_vote_id c) (campaign_description c) (campaign_title c)
     (final_election_date_as_integer c) (in_draft_mode c)
     (is_ok_to_promote_on_we_vote c) (is_blocked_by_we_vote c)
     (is_in_team_review_mode c) (is_not_promoted_by_we_vote c)
     (is_still_active c) (is_victorious c)
     (politician_starter_list_serialized c) x
     (started_by_voter_we_vote_id c) (supporters_count c)
     (supporters_count_minimum_ignored c) (supporters_count_victory_goal c)
     (we_vote_hosted_campaign_photo_original_url c)
     (we_vote_hosted_campaign_photo_large_url c)
     (we_vote_hosted_campaign_photo_medium_url c)
     (we_vote_hosted_campaign_photo_small_url c).

Definition supporters_count' (x : Z) (c : t) : t :=
  mk (id c) (we_vote_id c) (campaign_description c) (campaign_title c)
     (final_election_date_as_integer c) (in_draft_mode c)
     (is_ok_to_promote_on_we_vote c) (is_blocked_by_we_vote c)
     (is_in_team_review_mode c) (is_not_promoted_by_we_vote c)
     (is_still_active c) (is_victorious c)
     (politician_starter_list_serialized c) (seo_friendly_path c)
     (started_by_voter_we_vote_id c) x
     (supporters_count_minimum_ignored c) (supporters_count_victory_goal c)
     (we_vote_hosted_campaign_photo_original_url c)
     (we_vote_hosted_campaign_photo_large_url c)
     (we_vote_hosted_campaign_photo_medium_url c)
     (we_vote_hosted_campaign_photo_small_url c).

Definition supporters_count_minimum_ignored' (x : bool) (c : t) : t :=
  mk (id c) (we_vote_id c) (campaign_description c) (campaign_title c)
     (final_election_date_as_integer c) (in_draft_mode c)
     (is_ok_to_promote_on_we_vote c) (is_blocked_by_we_vote c)
     (is_in_team_review_mode c) (is_not_promoted_by_we_vote c)
     (is_still_active c) (is_victorious c)
     (politician_starter_list_serialized c) (seo_friendly_path c)
     (started_by_voter_we_vote_id c) (supporters_count c)
     x (supporters_count_victory_goal c)
     (we_vote_hosted_campaign_photo_original_url c)
     (we_vote_hosted_campaign_photo_large_url c)
     (we_vote_hosted_campaign_photo_medium_url c)
     (we_vote_hosted_campaign_photo_small_url c).

(** the four photo columns, in the order original, large, medium, small *)
Definition photo_urls' (original large medium small : option string) (c : t) : t :=
  mk (id c) (we_vote_id c) (campaign_description c) (campaign_title c)
     (final_election_date_as_integer c) (in_draft_mode c)
     (is_ok_to_promote_on_we_vote c) (is_blocked_by_we_vote c)
     (is_in_team_review_mode c) (is_not_promoted_by_we_vote c)
     (is_still_active c) (is_victorious c)
     (politician_starter_list_serialized c) (seo_friendly_path c)
     (started_by_voter_we_vote_id c) (supporters_count c)
     (supporters_count_minimum_ignored c) (supporters_count_victory_goal c)
     original large medium small.

Definition we_vote_hosted_campaign_photo_original_url' (x : option string) (c : t) : t :=
  photo_urls' x (we_vote_hosted_campaign_photo_large_url c)
    (we_vote_hosted_campaign_photo_medium_url c)
    (we_vote_hosted_campaign_photo_small_url c) c.

Definition we_vote_hosted_campaign_photo_large_url' (x : option string) (c : t) : t :=
  photo_urls' (we_vote_hosted_campaign_photo_original_url c) x
    (we_vote_hosted_campaign_photo_medium_url c)
    (we_vote_hosted_campaign_photo_small_url c) c.

Definition we_vote_hosted_campaign_photo_medium_url' (x : option string) (c : t) : t :=
  photo_urls' (we_vote_hosted_campaign_photo_original_url c)
    (we_vote_hosted_campaign_photo_large_url c) x
    (we_vote_hosted_campaign_photo_small_url c) c.

Definition we_vote_hosted_campaign_photo_small_url' (x : option string) (c : t) : t :=
  photo_urls' (we_vote_hosted_campaign_photo_original_url c)
    (we_vote_hosted_campaign_photo_large_url c)
    (we_vote_hosted_campaign_photo_medium_url c) x c.
End SetCampaignX.

(** The dictionary [retrieve_campaignx_as_owner] returns; the keys
    ['DoesNotExist'] and ['MultipleObjectsReturned'] carry the names of the
    variables they are read from. *)
Module AsOwnerResults.
Record t : Type := mk {
  status : string;
  success : bool;
  campaignx : option CampaignX.t;
  campaignx_found : bool;
  campaignx_we_vote_id : option string;
  campaignx_owner_list : list dict;
  seo_friendly_path_list : list string;
  viewer_is_owner : bool;
  exception_does_not_exist : bool;
  exception_multiple_object_returned : bool
}.
End AsOwnerResults.

Module UpdateResults.
Record t : Type := mk {
  success : bool;
  status : string;
  campaignx : option CampaignX.t;
  campaignx_changed : bool;
  campaignx_created : bool;
  campaignx_found : bool;
  campaignx_we_vote_id : option string
}.
End UpdateResults.

Module SupportersCountResults.
Record t : Type := mk {
  success : bool;
  status : string;
  supporters_count : Z
}.
End SupportersCountResults.

(** The variables a [try] block of [update_or_create_campaignx] updates: the
    handler of the block sees them as they are when the exception arises. *)
Module PatchVars.
Record t : Type := mk {
  campaignx : CampaignX.t;
  campaignx_changed : bool;
  status : string;
  store : Store
}.
End PatchVars.

(** A statement of such a block. *)
Definition step : Type := PatchVars.t -> result unit * PatchVars.t.

Definition skip : step := fun v => (Ok tt, v).

Definition seq (a b : step) : step :=
  fun v =>
    match a v with
    | (Ok _, v') => b v'
    | (Raise e, v') => (Raise e, v')
    end.

Notation "a >> b" := (seq a b) (at level 62, right associativity).

(** [if condition: statement] *)
Definition when (condition : bool) (statement : step) : step :=
  if condition then statement else skip.

(** [campaignx.attribute = value; campaignx_changed = True], where the
    evaluation of [value] may raise *)
Definition assign {X} (value : result X) (set : X -> CampaignX.t -> CampaignX.t)
  : step :=
  fun v =>
    match value with
    | Raise e => (Raise e, v)
    | Ok x =>
        (Ok tt,
         PatchVars.mk (set x (PatchVars.campaignx v)) true
                      (PatchVars.status v) (PatchVars.store v))
    end.

(** [status += text] *)
Definition add_status (text : string) : step :=
  fun v =>
    (Ok tt,
     PatchVars.mk (PatchVars.campaignx v) (PatchVars.campaignx_changed v)
                  (PatchVars.status v ++ text) (PatchVars.store v)).

(** A campaign of a listing: the row and the [visible_on_this_site]
    attribute the listing sets on the Python object. *)
Module ListedCampaignX.
Record t : Type := mk {
  campaignx : CampaignX.t;
  visible_on_this_site : bool
}.
End ListedCampaignX.

Module CampaignXListResults.
Record t : Type := mk {
  success : bool;
  status : string;
  campaignx_list_found : bool;
  campaignx_list : list ListedCampaignX.t;
  voter_started_campaignx_we_vote_ids : list (option string);
  voter_supported_campaignx_we_vote_ids : list (option string)
}.
End CampaignXListResults.

Section Manager.
Context {H : Helpers} {DB : Database}.

(** *** generate_seo_friendly_path (lines 214-469) *)

Definition seo_path_failed (final_pathname_string status : string)
  : SeoPathResults.t :=
  SeoPathResults.mk final_pathname_string false false status false.

(** [pathname_modifier not in pathname_modifiers_already_reviewed_list];
    the list holds strings only, so [None] is not in it. *)
Definition modifier_not_reviewed (pathname_modifier : option string)
  (reviewed : list string) : bool :=
  match pathname_modifier with
  | None => true
  | Some m => negb (existsb (String.eqb m) reviewed)
  end.

(** rows of the path-history table whose final path matches *)
Definition count_seo_friendly_paths (st : Store) (pathname : string) : result Z :=
  qs_count st
    (qs_filter (fun p => col_iexact (CampaignXSEOFriendlyPath.final_pathname_string p)
                                    pathname)
               (objects_all (seo_friendly_path_rows st))).

(** rows of the campaign table whose live path matches *)
Definition count_campaignx_with_path (st : Store) (pathname : string) : result Z :=
  qs_count st
    (qs_filter (fun c => col_iexact (CampaignX.seo_friendly_path c) pathname)
               (objects_all (campaignx_rows st))).

(** The inner [while] (lines 353-411).  [budget] is
    [51 - modifier_safety_valve_count]: the counter starts at 0 and grows by
    one per pass, so the test [modifier_safety_valve_count > 50] is
    [budget = 0]. *)
Fixpoint modifier_loop (budget : nat) (base_pathname_string : string)
  (v : PathVars.t) : flow (SeoPathResults.t * Store) PathVars.t :=
  if modifier_not_reviewed (PathVars.pathname_modifier v)
       (PathVars.pathname_modifiers_already_reviewed_list v)
  then
    match budget with
    | O =>
        Return (seo_path_failed (PathVars.final_pathname_string v)
                  (PathVars.status v ++ "CAMPAIGNX_MODIFIER_SAFETY_VALVE_EXCEEDED "),
                PathVars.store v)
    | S budget' =>
        let st := PathVars.store v in
        let pathname_modifier := generate_random_string (random_strings_drawn st) in
        let st := set_random_strings_drawn st (S (random_strings_drawn st)) in
        let final_pathname_string_to_test :=
          base_pathname_string ++ "-" ++ pathname_modifier in
        let reviewed :=
          (PathVars.pathname_modifiers_already_reviewed_list v
             ++ [pathname_modifier])%list in
        match count_seo_friendly_paths st final_pathname_string_to_test with
        | Raise e =>
            Return (seo_path_failed (PathVars.final_pathname_string v)
                      (PathVars.status v ++
                       format_error "PROBLEM_QUERYING_CAMPAIGNX_SEO_FRIENDLY_PATH_TABLE4" e),
                    st)
        | Ok match_count =>
            if negb (positive_value_exists (PInt match_count)) then
              match count_campaignx_with_path st final_pathname_string_to_test with
              | Raise e =>
                  Return (seo_path_failed (PathVars.final_pathname_string v)
                            (PathVars.status v ++
                             format_error "PROBLEM_QUERYING_CAMPAIGNX_TABLE" e),
                          st)
              | Ok match_count =>
                  if positive_value_exists (PInt match_count) then
                    modifier_loop budget' base_pathname_string
                      (PathVars.mk (PathVars.final_pathname_string v)
                         (Some pathname_modifier)
                         (PathVars.owned_by_another_campaignx v)
                         (PathVars.status v ++ "FOUND_IN_ANOTHER_CAMPAIGNX2 ")
                         (PathVars.continue_retrieving v) reviewed st)
                  else
                    modifier_loop budget' base_pathname_string
                      (PathVars.mk final_pathname_string_to_test
                         (Some pathname_modifier) false
                         (PathVars.status v ++ "NO_PATHNAME_COLLISION ")
                         false reviewed st)
              end
            else
              modifier_loop budget' base_pathname_string
                (PathVars.mk (PathVars.final_pathname_string v)
                   (Some pathname_modifier)
                   (PathVars.owned_by_another_campaignx v)
                   (PathVars.status v)
                   (PathVars.continue_retrieving v) reviewed st)
        end
    end
  else Continue v.

(** The outer [while continue_retrieving and safety_valve_count < 1000]
    (lines 350-411).  [remaining] is [1000 - safety_valve_count]. *)
Fixpoint retrieving_loop (remaining : nat) (base_pathname_string : string)
  (v : PathVars.t) : flow (SeoPathResults.t * Store) PathVars.t :=
  match remaining with
  | O => Continue v
  | S remaining' =>
      if PathVars.continue_retrieving v then
        match modifier_loop 51 base_pathname_string v with
        | Return r => Return r
        | Continue v' => retrieving_loop remaining' base_pathname_string v'
        end
      else Continue v
  end.

Definition generate_seo_friendly_path (st : Store)
  (campaignx_we_vote_id : string) (campaignx_title : option string)
  : SeoPathResults.t * Store :=
  let final_pathname_string := "" in
  let pathname_modifier : option string := None in
  let status := "" in
  if negb (positive_value_exists (PStr campaignx_we_vote_id)) then
    (seo_path_failed final_pathname_string
       (status ++ "MISSING_CAMPAIGNX_WE_VOTE_ID "), st)
  else if negb (truthy (py_opt_str campaignx_title)) then
    (seo_path_failed final_pathname_string
       (status ++ "MISSING_CAMPAIGN_TITLE "), st)
  else
  let title := match campaignx_title with Some t => t | None => "" end in
  (* Generate the ideal path given this title *)
  match slugify title with
  | Raise e =>
      (seo_path_failed final_pathname_string
         (status ++ "PROBLEM_WITH_SLUGIFY: " ++ str_exn e ++ " "), st)
  | Ok base_pathname_string =>
  if negb (truthy (PStr base_pathname_string))
     || negb (positive_value_exists (PInt (py_len base_pathname_string))) then
    (seo_path_failed final_pathname_string
       (status ++ "MISSING_BASE_PATHNAME_STRING "), st)
  else
  (* Is that path already stored for this campaign? *)
  match qs_count st
          (qs_filter
             (fun p => col_iexact (CampaignXSEOFriendlyPath.final_pathname_string p)
                                  base_pathname_string)
             (qs_filter
                (fun p => col_exact (CampaignXSEOFriendlyPath.campaignx_we_vote_id p)
                                    campaignx_we_vote_id)
                (objects_all (seo_friendly_path_rows st)))) with
  | Raise e =>
      (seo_path_failed final_pathname_string
         (status ++ format_error "PROBLEM_QUERYING_CAMPAIGNX_SEO_FRIENDLY_PATH_TABLE1" e),
       st)
  | Ok match_count =>
  if positive_value_exists (PInt match_count) then
    (SeoPathResults.mk base_pathname_string false true
       (status ++ "PATHNAME_FOUND-OWNED_BY_CAMPAIGNX ") true, st)
  else
  (* Is it being used by any campaign? *)
  let owned_by_another_campaignx := false in
  match count_seo_friendly_paths st base_pathname_string with
  | Raise e =>
      (seo_path_failed final_pathname_string
         (status ++ format_error "PROBLEM_QUERYING_CAMPAIGNX_SEO_FRIENDLY_PATH_TABLE2" e),
       st)
  | Ok match_count =>
  let '(owned_by_another_campaignx, status) :=
    if positive_value_exists (PInt match_count)
    then (true, status ++ "PATHNAME_FOUND-OWNED_BY_ANOTHER_CAMPAIGNX ")
    else (owned_by_another_campaignx, status) in
  match
    (if negb owned_by_another_campaignx then
       match count_campaignx_with_path st base_pathname_string with
       | Raise e =>
           Return (seo_path_failed final_pathname_string
                     (status ++
                      format_error "PROBLEM_QUERYING_CAMPAIGNX_SEO_FRIENDLY_PATH_TABLE3" e),
                   st)
       | Ok match_count =>
           if positive_value_exists (PInt match_count)
           then Continue (true, status ++ "PATHNAME_FOUND_IN_ANOTHER_CAMPAIGNX ")
           else Continue (owned_by_another_campaignx, status)
       end
     else Continue (owned_by_another_campaignx, status))
  with
  | Return r => r
  | Continue (owned_by_another_campaignx, status) =>
  match
    (if negb owned_by_another_campaignx then
       Continue (PathVars.mk base_pathname_string pathname_modifier
                   owned_by_another_campaignx status true [] st)
     else
       (* If already being used, add a random string on the end, verify
          not in use, and save *)
       retrieving_loop 1000 base_pathname_string
         (PathVars.mk final_pathname_string pathname_modifier
            owned_by_another_campaignx status true [] st))
  with
  | Return r => r
  | Continue v =>
  let final_pathname_string := PathVars.final_pathname_string v in
  let pathname_modifier := PathVars.pathname_modifier v in
  let status := PathVars.status v in
  let st := PathVars.store v in
  if PathVars.owned_by_another_campaignx v then
    (* We have failed to find a unique URL *)
    (seo_path_failed final_pathname_string
       (status ++ "FAILED_TO_FIND_UNIQUE_URL "), st)
  else if negb (positive_value_exists (PStr final_pathname_string))
          || negb (positive_value_exists (PStr campaignx_we_vote_id)) then
    (seo_path_failed final_pathname_string
       (status ++ "MISSING_REQUIRED_VARIABLE "), st)
  else
  (* Create a new entry *)
  match create_seo_friendly_path st base_pathname_string title
          campaignx_we_vote_id final_pathname_string pathname_modifier with
  | Raise e =>
      (seo_path_failed final_pathname_string
         (status ++ "CAMPAIGNX_SEO_FRIENDLY_PATH_NOT_CREATED: " ++ str_exn e ++ " "),
       st)
  | Ok (_, st) =>
      (SeoPathResults.mk final_pathname_string true true
         (status ++ "CAMPAIGNX_SEO_FRIENDLY_PATH_CREATED "
                 ++ "FINAL_PATHNAME_STRING_GENERATED ") true, st)
  end
  end
  end
  end
  end
  end.

(** *** is_voter_campaignx_owner (lines 471-520) *)

(** [Q(can_edit...=True) | Q(can_moderate...=True) | Q(can_send_updates...=True)] *)
Definition has_any_campaignx_right (m : OrganizationTeamMember.t) : bool :=
  OrganizationTeamMember.can_edit_campaignx_owned_by_organization m
  || OrganizationTeamMember.can_moderate_campaignx_owned_by_organization m
  || OrganizationTeamMember.can_send_updates_for_campaignx_owned_by_organization m.

(** [list(queryset.values_list('organization_we_vote_id', flat=True).distinct())] *)
Definition team_organization_we_vote_ids (st : Store)
  (p : OrganizationTeamMember.t -> bool) : result (list (option string)) :=
  db_run st
    (distinct (map OrganizationTeamMember.organization_we_vote_id
                   (filter p (team_member_rows st)))).

(** [list(queryset.values_list('campaignx_we_vote_id', flat=True).distinct())] *)
Definition owner_campaignx_we_vote_ids (st : Store)
  (p : CampaignXOwner.t -> bool) : result (list (option string)) :=
  db_run st
    (distinct (map CampaignXOwner.campaignx_we_vote_id
                   (filter p (owner_rows st)))).

Definition is_voter_campaignx_owner (st : Store)
  (campaignx_we_vote_id voter_we_vote_id : string) : result bool :=
  let continue_checking := true in
  let voter_is_campaignx_owner := false in
  '(continue_checking, voter_is_campaignx_owner) <-
    try_except_model_class
      (n <- qs_count st
              (qs_filter
                 (fun o =>
                    col_iexact (CampaignXOwner.campaignx_we_vote_id o)
                               campaignx_we_vote_id
                    && col_iexact (CampaignXOwner.voter_we_vote_id o)
                                  voter_we_vote_id)
                 (objects_all (owner_rows st))) ;;
       Ok (continue_checking, positive_value_exists (PInt n)))
      (fun e => Ok (false, voter_is_campaignx_owner)) ;;
  if continue_checking && negb voter_is_campaignx_owner then
    (* Which teams does this voter belong to, with campaignX rights? *)
    teams_voter_is_on_organization_we_vote_id_list <-
      try_except_model_class
        (team_organization_we_vote_ids st
           (fun m =>
              col_iexact (OrganizationTeamMember.voter_we_vote_id m)
                         voter_we_vote_id
              && has_any_campaignx_right m))
        (fun e => Ok []) ;;
    (* Now see if this campaignX is owned by any of the teams this voter
       belongs to *)
    if (0 <? List.length teams_voter_is_on_organization_we_vote_id_list)%nat then
      try_except_model_class
        (n <- qs_count st
                (qs_filter
                   (fun o =>
                      col_iexact (CampaignXOwner.campaignx_we_vote_id o)
                                 campaignx_we_vote_id
                      && col_in (CampaignXOwner.organization_we_vote_id o)
                                teams_voter_is_on_organization_we_vote_id_list)
                   (objects_all (owner_rows st))) ;;
         Ok (positive_value_exists (PInt n)))
        (fun e => Ok voter_is_campaignx_owner)
    else Ok voter_is_campaignx_owner
  else Ok voter_is_campaignx_owner.

(** *** retrieve_voter_can_send_updates_campaignx_we_vote_ids (lines 1841-1884) *)

Definition retrieve_voter_can_send_updates_campaignx_we_vote_ids (st : Store)
  (voter_we_vote_id : string) : result (list (option string)) :=
  campaignx_owner_campaignx_we_vote_ids <-
    try_except_model_class
      (owner_campaignx_we_vote_ids st
         (fun o => col_iexact (CampaignXOwner.voter_we_vote_id o) voter_we_vote_id))
      (fun e => Ok []) ;;
  teams_voter_can_send_updates_organization_we_vote_id_list <-
    try_except_model_class
      (team_organization_we_vote_ids st
         (fun m =>
            col_iexact (OrganizationTeamMember.voter_we_vote_id m) voter_we_vote_id
            && OrganizationTeamMember.can_send_updates_for_campaignx_owned_by_organization m))
      (fun e => Ok []) ;;
  team_member_campaignx_we_vote_ids <-
    (if (0 <? List.length teams_voter_can_send_updates_organization_we_vote_id_list)%nat
     then
       try_except_model_class
         (owner_campaignx_we_vote_ids st
            (fun o =>
               col_in (CampaignXOwner.organization_we_vote_id o)
                      teams_voter_can_send_updates_organization_we_vote_id_list))
         (fun e => Ok [])
     else Ok []) ;;
  Ok (set_union campaignx_owner_campaignx_we_vote_ids
                team_member_campaignx_we_vote_ids).

(** *** retrieve_voter_owned_campaignx_we_vote_ids (lines 1886-1931) *)

Definition retrieve_voter_owned_campaignx_we_vote_ids (st : Store)
  (voter_we_vote_id : string) : result (list (option string)) :=
  campaignx_owner_campaignx_we_vote_ids <-
    try_except_model_class
      (owner_campaignx_we_vote_ids st
         (fun o => col_iexact (CampaignXOwner.voter_we_vote_id o) voter_we_vote_id))
      (fun e => Ok []) ;;
  (* Which teams does this voter belong to, with campaignX rights? *)
  teams_voter_is_on_organization_we_vote_id_list <-
    try_except_model_class
      (team_organization_we_vote_ids st
         (fun m =>
            col_iexact (OrganizationTeamMember.voter_we_vote_id m) voter_we_vote_id
            && has_any_campaignx_right m))
      (fun e => Ok []) ;;
  team_member_campaignx_we_vote_ids <-
    (if (0 <? List.length teams_voter_is_on_organization_we_vote_id_list)%nat
     then
       try_except_model_class
         (owner_campaignx_we_vote_ids st
            (fun o =>
               col_in (CampaignXOwner.organization_we_vote_id o)
                      teams_voter_is_on_organization_we_vote_id_list))
         (fun e => Ok [])
     else Ok []) ;;
  Ok (set_union campaignx_owner_campaignx_we_vote_ids
                team_member_campaignx_we_vote_ids).

(** *** retrieve_campaignx_list (lines 872-1003)

    Embedded at [search_text=''] and [limit_to_this_state_code=''], their
    defaults: [positive_value_exists] is false on both, so the test of line
    902 fails and the [else] branch of line 945 runs.  [today] is
    [generate_date_as_integer()].  [read_only] selects the replica, which
    holds the same rows.  The parameters
    [including_campaignx_we_vote_id_list], [excluding_campaignx_we_vote_id_list],
    [including_politicians_in_any_of_these_states] and
    [including_politicians_with_support_in_any_of_these_issues] are not read
    by the method. *)

Definition FINAL_ELECTION_DATE_COOL_DOWN : Z := 7.
Definition SUPPORTERS_COUNT_MINIMUM_FOR_LISTING : Z := 5.

(** The [Q] object of lines 956-966, one definition per factor. *)
Definition moderation_gate (c : CampaignX.t) : bool :=
  negb (CampaignX.in_draft_mode c)
  && negb (CampaignX.is_blocked_by_we_vote c)
  && negb (CampaignX.is_in_team_review_mode c)
  && negb (CampaignX.is_not_promoted_by_we_vote c)
  && CampaignX.is_still_active c
  && CampaignX.is_ok_to_promote_on_we_vote c.

Definition supporters_gate (c : CampaignX.t) : bool :=
  (SUPPORTERS_COUNT_MINIMUM_FOR_LISTING <=? CampaignX.supporters_count c)%Z
  || CampaignX.supporters_count_minimum_ignored c.

Definition election_date_gate (final_election_date_plus_cool_down : Z)
  (c : CampaignX.t) : bool :=
  match CampaignX.final_election_date_as_integer c with
  | None => true
  | Some d => (final_election_date_plus_cool_down <? d)%Z
  end.

Definition listing_filter (final_election_date_plus_cool_down : Z)
  (c : CampaignX.t) : bool :=
  moderation_gate c
  && supporters_gate c
  && election_date_gate final_election_date_plus_cool_down c.

(** [final_filters = filters.pop()], then [final_filters |= item] for the
    items left: [None] when the list is empty. *)
Definition or_filters {R} (filters : list (R -> bool)) : option (R -> bool) :=
  match rev filters with
  | [] => None
  | last :: items =>
      Some (fold_left (fun final_filters item => fun r => final_filters r || item r)
                      (rev items) last)
  end.

(** The value of the variable [campaignx_list]: a Python list, or the
    sliced query set of line 982, which line 983 evaluates. *)
Inductive campaignx_list_value : Type :=
| PyList (l : list CampaignX.t)
| Sliced (qs : QuerySet CampaignX.t).

Definition retrieve_campaignx_list (st : Store) (today : Z)
  (including_started_by_voter_we_vote_id : option string)
  (limit : Z) (read_only : bool) : result CampaignXListResults.t :=
  let campaignx_list := PyList [] in
  let success := true in
  let status := "" in
  let '(success, status, campaignx_list_found, campaignx_list) :=
    try_catch
      (let campaignx_queryset :=
         if read_only then objects_all (campaignx_rows st)
         else objects_all (campaignx_rows st) in
       (* All "OR" queries *)
       let filters : list (CampaignX.t -> bool) := [] in
       filters <-
         (if positive_value_exists (py_opt_str including_started_by_voter_we_vote_id)
          then
            let voter := match including_started_by_voter_we_vote_id with
                         | Some s => s
                         | None => ""
                         end in
            (* started_by this voter *)
            let filters :=
              (filters ++
               [fun c => col_iexact (CampaignX.started_by_voter_we_vote_id c) voter])%list in
            (* Voter is owner of the campaign, or on team that owns it *)
            voter_owned_campaignx_we_vote_ids <-
              retrieve_voter_owned_campaignx_we_vote_ids st voter ;;
            Ok (filters ++
                [fun c => col_in (CampaignX.we_vote_id c)
                                 voter_owned_campaignx_we_vote_ids])%list
          else Ok filters) ;;
       let final_election_date_plus_cool_down :=
         (today + FINAL_ELECTION_DATE_COOL_DOWN)%Z in
       let filters :=
         (filters ++ [listing_filter final_election_date_plus_cool_down])%list in
       let campaignx_queryset :=
         match or_filters filters with
         | Some final_filters => qs_filter final_filters campaignx_queryset
         | None => campaignx_queryset
         end in
       let campaignx_queryset :=
         order_by (fun c => (- CampaignX.supporters_count c)%Z) campaignx_queryset in
       let campaignx_queryset :=
         order_by (fun c => desc_bool (CampaignX.in_draft_mode c)) campaignx_queryset in
       campaignx_list <- qs_slice limit campaignx_queryset ;;
       (* len(campaignx_list) evaluates the slice *)
       Ok (try_catch
             (rows <- qs_list st campaignx_list ;;
              Ok (success,
                  status ++ "RETRIEVE_CAMPAIGNX_LIST_SUCCEEDED ",
                  positive_value_exists (PInt (Z.of_nat (List.length rows))),
                  PyList rows))
             (fun e =>
                (false,
                 status ++ "RETRIEVE_CAMPAIGNX_LIST_FAILED: " ++ str_exn e ++ " ",
                 false, Sliced campaignx_list))))
      (fun e =>
         (false,
          status ++ "RETRIEVE_CAMPAIGNX_LIST_FAILED: " ++ str_exn e ++ " ",
          false, campaignx_list)) in
  (* for campaignx in campaignx_list: outside the try block *)
  rows <- match campaignx_list with
          | PyList l => Ok l
          | Sliced qs => qs_list st qs
          end ;;
  let campaignx_list_modified :=
    map (fun campaignx => ListedCampaignX.mk campaignx true) rows in
  Ok (CampaignXListResults.mk success status campaignx_list_found
        campaignx_list_modified [] []).

(** *** repair_campaignx_supporter (lines 1496-1598) *)

(** [len(value)] of a nullable text: [len(None)] raises. *)
Definition len_text (value : option string) : result Z :=
  match value with
  | Some s => Ok (py_len s)
  | None => Raise (TypeError "object of type 'NoneType' has no len()")
  end.

(** [len(value) if positive_value_exists(value) else 0] *)
Definition len_if_positive (value : option string) : result Z :=
  if positive_value_exists (py_opt_str value) then len_text value else Ok 0%Z.

(** The first [while] (lines 1529-1542) over the rows of index 1 to 24. *)
Fixpoint fold_duplicates (temps : list CampaignXSupporter.t)
  (supporter_endorsement_to_keep : option string)
  (supporter_endorsement_to_keep_length : Z)
  (visible_to_public visibility_blocked_by_we_vote : bool)
  : result (option string * Z * bool * bool) :=
  match temps with
  | [] => Ok (supporter_endorsement_to_keep, supporter_endorsement_to_keep_length,
              visible_to_public, visibility_blocked_by_we_vote)
  | campaignx_supporter_temp :: temps' =>
      (* We want to keep the supporter_endorsement with the most characters *)
      n <- len_text (CampaignXSupporter.supporter_endorsement campaignx_supporter_temp) ;;
      '(supporter_endorsement_to_keep, supporter_endorsement_to_keep_length) <-
        (if (supporter_endorsement_to_keep_length <? n)%Z then
           let keep := CampaignXSupporter.supporter_endorsement campaignx_supporter_temp in
           keep_length <- len_if_positive keep ;;
           Ok (keep, keep_length)
         else Ok (supporter_endorsement_to_keep, supporter_endorsement_to_keep_length)) ;;
      (* If any have visible_to_public true, mark the one to keep as true *)
      let visible_to_public :=
        if negb (positive_value_exists (PBool visible_to_public))
        then CampaignXSupporter.visible_to_public campaignx_supporter_temp
        else visible_to_public in
      (* If any have visibility_blocked_by_we_vote true, mark the one to
         keep as true *)
      let visibility_blocked_by_we_vote :=
        if negb (positive_value_exists (PBool visibility_blocked_by_we_vote))
        then CampaignXSupporter.visibility_blocked_by_we_vote campaignx_supporter_temp
        else visibility_blocked_by_we_vote in
      fold_duplicates temps' supporter_endorsement_to_keep
        supporter_endorsement_to_keep_length visible_to_public
        visibility_blocked_by_we_vote
  end.

(** The second [while] (lines 1577-1580): [delete()] on each of the same
    rows. *)
Fixpoint delete_duplicates (temps : list CampaignXSupporter.t) (st : Store)
  : result unit * Store :=
  match temps with
  | [] => (Ok tt, st)
  | campaignx_supporter_temp :: temps' =>
      match db_run st tt with
      | Raise e => (Raise e, st)
      | Ok _ =>
          delete_duplicates temps'
            (set_supporter_rows st
               (delete_row CampaignXSupporter.id campaignx_supporter_temp
                           (supporter_rows st)))
      end
  end.

(** [first_campaignx_supporter] after the assignments of lines 1545-1570.
    Line 1545 assigns the attribute [supporter_endorsement_to_keep], which
    is no column: the row keeps its [supporter_endorsement].  The local
    [linked_organization_we_vote_id] is [''] throughout. *)
Definition repaired_first_supporter (first_campaignx_supporter : CampaignXSupporter.t)
  (voter_we_vote_id : string)
  (visible_to_public visibility_blocked_by_we_vote : bool)
  : CampaignXSupporter.t :=
  let s := first_campaignx_supporter in
  (* Look up the organization_we_vote_id for the voter *)
  let linked_organization_we_vote_id := "" in
  let organization_we_vote_id :=
    match retrieve_voter_by_we_vote_id voter_we_vote_id with
    | Some linked => linked
    | None => CampaignXSupporter.organization_we_vote_id s
    end in
  (* Get the updated organization_name and
     we_vote_hosted_profile_image_url_tiny *)
  let '(supporter_name, url_medium, url_tiny) :=
    let unchanged :=
      (CampaignXSupporter.supporter_name s,
       CampaignXSupporter.we_vote_hosted_profile_image_url_medium s,
       CampaignXSupporter.we_vote_hosted_profile_image_url_tiny s) in
    if positive_value_exists (PStr linked_organization_we_vote_id) then
      match retrieve_organization linked_organization_we_vote_id with
      | Some organization =>
          (org_organization_name organization,
           org_we_vote_hosted_profile_image_url_medium organization,
           org_we_vote_hosted_profile_image_url_tiny organization)
      | None => unchanged
      end
    else unchanged in
  CampaignXSupporter.mk
    (CampaignXSupporter.id s)
    (CampaignXSupporter.campaign_supported s)
    (CampaignXSupporter.campaignx_we_vote_id s)
    (CampaignXSupporter.is_subscribed_by_email s)
    (CampaignXSupporter.voter_we_vote_id s)
    organization_we_vote_id
    supporter_name
    (CampaignXSupporter.supporter_endorsement s)
    url_medium
    url_tiny
    visibility_blocked_by_we_vote
    visible_to_public.

Definition repair_results (status : string) (success : bool)
  (campaignx_supporter_found : bool) : dict :=
  [ ("status", PStr status);
    ("success", PBool success);
    ("campaignx_supporter", PNone);
    ("campaignx_supporter_found", PBool campaignx_supporter_found);
    ("campaignx_supporter_repaired", PBool false) ].

Definition repair_campaignx_supporter (st : Store)
  (campaignx_we_vote_id voter_we_vote_id : string) : dict * Store :=
  let status := "" in
  if positive_value_exists (PStr campaignx_we_vote_id)
     && positive_value_exists (PStr voter_we_vote_id) then
    let campaignx_supporter_query :=
      order_by (fun s => Z.of_nat (CampaignXSupporter.id s))
        (qs_filter
           (fun s =>
              String.eqb (CampaignXSupporter.campaignx_we_vote_id s) campaignx_we_vote_id
              && String.eqb (CampaignXSupporter.voter_we_vote_id s) voter_we_vote_id)
           (objects_all (supporter_rows st))) in
    match qs_list st campaignx_supporter_query with
    | Raise e =>
        (repair_results
           (status ++ "REPAIR_CAMPAIGNX_SUPPORTER_EXCEPTION: " ++ str_exn e ++ " ")
           false false, st)
    | Ok campaignx_supporter_list =>
        match campaignx_supporter_list with
        | [] =>
            (repair_results
               (status ++ "REPAIR_CAMPAIGNX_SUPPORTER_FOUND_WITH_WE_VOTE_ID ")
               true false, st)
        | [_] =>
            (repair_results
               (status ++ "REPAIR_CAMPAIGNX_SUPPORTER_FOUND_ONE_WITH_WE_VOTE_ID ")
               true true, st)
        | first_campaignx_supporter :: others =>
            let status :=
              status ++ "REPAIR_CAMPAIGNX_SUPPORTER_FOUND_MULTIPLE_WITH_WE_VOTE_ID " in
            (* We set a "safety valve" of 25 *)
            let temps := firstn 24 others in
            match
              (supporter_endorsement_to_keep_length <-
                 len_if_positive
                   (CampaignXSupporter.supporter_endorsement first_campaignx_supporter) ;;
               fold_duplicates temps
                 (CampaignXSupporter.supporter_endorsement first_campaignx_supporter)
                 supporter_endorsement_to_keep_length
                 (CampaignXSupporter.visible_to_public first_campaignx_supporter)
                 (CampaignXSupporter.visibility_blocked_by_we_vote
                    first_campaignx_supporter))
            with
            | Raise e =>
                (repair_results
                   (status ++ "REPAIR_CAMPAIGNX_SUPPORTER_EXCEPTION: " ++ str_exn e ++ " ")
                   false true, st)
            | Ok (_, _, visible_to_public, visibility_blocked_by_we_vote) =>
                (* Now update first_campaignx_supporter with values from
                   while loop *)
                let first_campaignx_supporter :=
                  repaired_first_supporter first_campaignx_supporter
                    voter_we_vote_id visible_to_public
                    visibility_blocked_by_we_vote in
                let '(saved_and_deleted, st) :=
                  match db_run st tt with
                  | Raise e => (Raise e, st)
                  | Ok _ =>
                      (* Delete all other CampaignXSupporters *)
                      delete_duplicates temps
                        (set_supporter_rows st
                           (save_row CampaignXSupporter.id first_campaignx_supporter
                                     (supporter_rows st)))
                  end in
                let status :=
                  match saved_and_deleted with
                  | Ok _ => status
                  | Raise e =>
                      status ++ "CAMPAIGNX_COULD_NOT_SAVE_OR_DELETE: " ++ str_exn e ++ " "
                  end in
                (repair_results status true true, st)
            end
        end
    end
  else
    (repair_results
       (status ++ "REPAIR_CAMPAIGNX_SUPPORTER_NOT_FOUND-MISSING_VARIABLES ")
       false false, st).

(** *** retrieve_campaignx_supporter (lines 1600-1663) *)

(** [status += value]: the right operand has to be a string *)
Definition as_str (v : pyval) : result string :=
  match v with
  | PStr s => Ok s
  | _ => Raise (TypeError "can only concatenate str to str")
  end.

Definition supporter_results (status : string) (success : pyval)
  (campaignx_supporter : pyval) (campaignx_supporter_found : pyval) : dict :=
  [ ("status", PStr status);
    ("success", success);
    ("campaignx_supporter", campaignx_supporter);
    ("campaignx_supporter_found", campaignx_supporter_found) ].

(** The body of the method, with [self.retrieve_campaignx_supporter] as a
    parameter for the call of line 1630. *)
Definition retrieve_campaignx_supporter_body
  (self : Store -> string -> string -> bool -> bool -> dict * Store)
  (st : Store) (campaignx_we_vote_id voter_we_vote_id : string)
  (read_only recursion_ok : bool) : dict * Store :=
  let campaignx_supporter := PNone in
  let campaignx_supporter_found := PBool false in
  let status := "" in
  let success := PBool true in
  if positive_value_exists (PStr campaignx_we_vote_id)
     && positive_value_exists (PStr voter_we_vote_id) then
    let campaignx_supporter_query :=
      qs_filter
        (fun s =>
           String.eqb (CampaignXSupporter.campaignx_we_vote_id s) campaignx_we_vote_id
           && String.eqb (CampaignXSupporter.voter_we_vote_id s) voter_we_vote_id)
        (if read_only then objects_all (supporter_rows st)
         else objects_all (supporter_rows st)) in
    match qs_list st campaignx_supporter_query with
    | Raise e =>
        (supporter_results
           (status ++ "CAMPAIGNX_SUPPORTER_NOT_FOUND_EXCEPTION: " ++ str_exn e ++ " ")
           (PBool false) campaignx_supporter campaignx_supporter_found, st)
    | Ok campaignx_supporter_list =>
        match campaignx_supporter_list with
        | first :: _ :: _ =>
            if positive_value_exists (PBool recursion_ok) then
              let '(repair_results, st) :=
                repair_campaignx_supporter st campaignx_we_vote_id voter_we_vote_id in
              match (v <- dict_get repair_results "status" ;; as_str v) with
              | Raise e =>
                  (supporter_results
                     (status ++ "CAMPAIGNX_SUPPORTER_NOT_FOUND_EXCEPTION: "
                             ++ str_exn e ++ " ")
                     (PBool false) campaignx_supporter campaignx_supporter_found, st)
              | Ok repair_status =>
                  let status := status ++ repair_status in
                  let '(second_retrieve_results, st) :=
                    self st campaignx_we_vote_id voter_we_vote_id read_only false in
                  match dict_get second_retrieve_results "campaign_supporter_found" with
                  | Raise e =>
                      (supporter_results
                         (status ++ "CAMPAIGNX_SUPPORTER_NOT_FOUND_EXCEPTION: "
                                 ++ str_exn e ++ " ")
                         (PBool false) campaignx_supporter campaignx_supporter_found,
                       st)
                  | Ok campaignx_supporter_found =>
                      match dict_get second_retrieve_results "campaign_supporter" with
                      | Raise e =>
                          (supporter_results
                             (status ++ "CAMPAIGNX_SUPPORTER_NOT_FOUND_EXCEPTION: "
                                     ++ str_exn e ++ " ")
                             (PBool false) campaignx_supporter
                             campaignx_supporter_found, st)
                      | Ok campaignx_supporter =>
                          match dict_get second_retrieve_results "success" with
                          | Raise e =>
                              (supporter_results
                                 (status ++ "CAMPAIGNX_SUPPORTER_NOT_FOUND_EXCEPTION: "
                                         ++ str_exn e ++ " ")
                                 (PBool false) campaignx_supporter
                                 campaignx_supporter_found, st)
                          | Ok success =>
                              match (v <- dict_get second_retrieve_results "status" ;;
                                     as_str v) with
                              | Raise e =>
                                  (supporter_results
                                     (status ++ "CAMPAIGNX_SUPPORTER_NOT_FOUND_EXCEPTION: "
                                             ++ str_exn e ++ " ")
                                     (PBool false) campaignx_supporter
                                     campaignx_supporter_found, st)
                              | Ok second_status =>
                                  (supporter_results (status ++ second_status) success
                                     campaignx_supporter campaignx_supporter_found, st)
                              end
                          end
                      end
                  end
              end
            else
              (supporter_results status success (PSupporter first) (PBool true), st)
        | [only] =>
            (supporter_results
               (status ++ "CAMPAIGNX_SUPPORTER_FOUND_WITH_WE_VOTE_ID ")
               success (PSupporter only) (PBool true), st)
        | [] =>
            (supporter_results
               (status ++ "CAMPAIGNX_SUPPORTER_NOT_FOUND_WITH_WE_VOTE_ID ")
               success campaignx_supporter (PBool false), st)
        end
    end
  else
    (supporter_results
       (status ++ "CAMPAIGNX_SUPPORTER_NOT_FOUND-MISSING_VARIABLES ")
       (PBool false) campaignx_supporter campaignx_supporter_found, st).

(** The call made with [recursion_ok=False] never reaches line 1630. *)
Definition retrieve_campaignx_supporter_second (st : Store)
  (campaignx_we_vote_id voter_we_vote_id : string)
  (read_only recursion_ok : bool) : dict * Store :=
  retrieve_campaignx_supporter_body (fun st _ _ _ _ => ([], st))
    st campaignx_we_vote_id voter_we_vote_id read_only recursion_ok.

Definition retrieve_campaignx_supporter (st : Store)
  (campaignx_we_vote_id voter_we_vote_id : string)
  (read_only recursion_ok : bool) : dict * Store :=
  retrieve_campaignx_supporter_body retrieve_campaignx_supporter_second
    st campaignx_we_vote_id voter_we_vote_id read_only recursion_ok.

(** *** CampaignX.save (lines 83-99) *)

(** [fetch_next_we_vote_id_campaignx_integer()] *)
Definition fetch_next_we_vote_id_campaignx_integer (st : Store)
  : result nat * Store :=
  match db_run st tt with
  | Raise e => (Raise e, st)
  | Ok _ =>
      let next_integer := S (we_vote_id_last_campaignx_integer st) in
      (Ok next_integer, set_we_vote_id_last_campaignx_integer st next_integer)
  end.

(** The row is written: the table refuses a NULL title, a negative value in
    one of its three [PositiveIntegerField] columns ([supporters_count],
    [supporters_count_victory_goal] and, when it is not NULL,
    [final_election_date_as_integer]) and a second row with the same
    [we_vote_id] or [seo_friendly_path]. *)
Definition write_campaignx_row (st : Store) (c : CampaignX.t) : result Store :=
  rows <- db_run st (campaignx_rows st) ;;
  let others := filter (fun r => negb (Nat.eqb (CampaignX.id r) (CampaignX.id c))) rows in
  match CampaignX.campaign_title c with
  | None => Raise (DatabaseError "null value in column campaign_title")
  | Some _ =>
      if (CampaignX.supporters_count c <? 0)%Z then
        Raise (DatabaseError "supporters_count violates check constraint")
      else if (CampaignX.supporters_count_victory_goal c <? 0)%Z then
        Raise (DatabaseError
                 "supporters_count_victory_goal violates check constraint")
      else if match CampaignX.final_election_date_as_integer c with
              | Some d => (d <? 0)%Z
              | None => false
              end then
        Raise (DatabaseError
                 "final_election_date_as_integer violates check constraint")
      else if existsb (fun r => match CampaignX.we_vote_id c with
                                | Some s => col_exact (CampaignX.we_vote_id r) s
                                | None => false
                                end) others
              || existsb (fun r => match CampaignX.seo_friendly_path c with
                                   | Some s => col_exact (CampaignX.seo_friendly_path r) s
                                   | None => false
                                   end) others then
        Raise (DatabaseError "duplicate key value violates unique constraint")
      else Ok (set_campaignx_rows st (save_row CampaignX.id c rows))
  end.

Definition save_campaignx (st : Store) (c : CampaignX.t)
  : result CampaignX.t * Store :=
  (* Even if this data came from another source we still need a unique
     we_vote_id *)
  let c :=
    match CampaignX.we_vote_id c with
    | Some s =>
        if truthy (PStr s) then SetCampaignX.we_vote_id' (Some (lower (strip s))) c
        else c
    | None => c
    end in
  let generated :=
    match CampaignX.we_vote_id c with
    | Some s =>
        if String.eqb s "" then
          match fetch_next_we_vote_id_campaignx_integer st with
          | (Raise e, st) => (Raise e, st)
          | (Ok next_local_integer, st) =>
              (Ok (SetCampaignX.we_vote_id'
                     (Some ("wv" ++ fetch_site_unique_id_prefix ++ "camp"
                                 ++ str_nat next_local_integer)) c), st)
          end
        else (Ok c, st)
    | None =>
        match fetch_next_we_vote_id_campaignx_integer st with
        | (Raise e, st) => (Raise e, st)
        | (Ok next_local_integer, st) =>
            (Ok (SetCampaignX.we_vote_id'
                   (Some ("wv" ++ fetch_site_unique_id_prefix ++ "camp"
                               ++ str_nat next_local_integer)) c), st)
        end
    end in
  match generated with
  | (Raise e, st) => (Raise e, st)
  | (Ok c, st) =>
      match write_campaignx_row st c with
      | Raise e => (Raise e, st)
      | Ok st' => (Ok c, st')
      end
  end.

(** [campaignx.save()] as a statement of a [try] block *)
Definition save_step : step :=
  fun v =>
    match save_campaignx (PatchVars.store v) (PatchVars.campaignx v) with
    | (Raise e, st) =>
        (Raise e,
         PatchVars.mk (PatchVars.campaignx v) (PatchVars.campaignx_changed v)
                      (PatchVars.status v) st)
    | (Ok c, st) =>
        (Ok tt,
         PatchVars.mk c (PatchVars.campaignx_changed v) (PatchVars.status v) st)
    end.

(** *** retrieve_campaignx_owner_list (lines 1336-1373)

    [handle_record_not_found_exception] logs the exception. *)

Definition order_in_list_key (o : CampaignXOwner.t) : Z :=
  match CampaignXOwner.order_in_list o with
  | Some n => n
  | None => 0%Z
  end.

Definition retrieve_campaignx_owner_list (st : Store)
  (campaignx_we_vote_id_list : list (option string))
  (has_order_in_list : bool)
  (organization_we_vote_id voter_we_vote_id : string)
  (viewer_is_owner read_only : bool) : list CampaignXOwner.t :=
  try_catch
    (let campaignx_owner_query :=
       if positive_value_exists (PBool read_only)
       then objects_all (owner_rows st)
       else objects_all (owner_rows st) in
     let campaignx_owner_query :=
       if positive_value_exists
            (PBool (0 <? List.length campaignx_we_vote_id_list)%nat)
       then qs_filter
              (fun o => col_in (CampaignXOwner.campaignx_we_vote_id o)
                               campaignx_we_vote_id_list)
              campaignx_owner_query
       else campaignx_owner_query in
     let campaignx_owner_query :=
       if positive_value_exists (PBool has_order_in_list)
       then order_by order_in_list_key
              (qs_filter
                 (fun o => match CampaignXOwner.order_in_list o with
                           | Some n => (1 <=? n)%Z
                           | None => false
                           end)
                 campaignx_owner_query)
       else campaignx_owner_query in
     let campaignx_owner_query :=
       if positive_value_exists (PStr organization_we_vote_id)
       then qs_filter
              (fun o => col_exact (CampaignXOwner.organization_we_vote_id o)
                                  organization_we_vote_id)
              campaignx_owner_query
       else campaignx_owner_query in
     let campaignx_owner_query :=
       if positive_value_exists (PStr voter_we_vote_id)
       then qs_filter
              (fun o => col_exact (CampaignXOwner.voter_we_vote_id o)
                                  voter_we_vote_id)
              campaignx_owner_query
       else campaignx_owner_query in
     qs_list st campaignx_owner_query)
    (fun e => []).

(** *** retrieve_seo_friendly_path_list, retrieve_seo_friendly_path_simple_list
    (lines 1814-1839)

    [filter(column=None)] selects the rows where the column is NULL. *)

Definition col_is (col : option string) (value : option string) : bool :=
  match value with
  | Some v => col_exact col v
  | None => match col with None => true | Some _ => false end
  end.

Definition retrieve_seo_friendly_path_list (st : Store)
  (campaignx_we_vote_id : option string) : list CampaignXSEOFriendlyPath.t :=
  try_catch
    (qs_list st
       (qs_filter
          (fun p => col_is (CampaignXSEOFriendlyPath.campaignx_we_vote_id p)
                           campaignx_we_vote_id)
          (objects_all (seo_friendly_path_rows st))))
    (fun e => []).

Definition retrieve_seo_friendly_path_simple_list (st : Store)
  (campaignx_we_vote_id : option string) : list string :=
  flat_map
    (fun one_path =>
       match CampaignXSEOFriendlyPath.final_pathname_string one_path with
       | Some s => if positive_value_exists (PStr s) then [s] else []
       | None => []
       end)
    (retrieve_seo_friendly_path_list st campaignx_we_vote_id).

(** *** retrieve_campaignx_as_owner (lines 566-716)

    [handle_record_found_more_than_one_exception] logs the exception. *)

Definition or_empty (value : option string) : string :=
  match value with
  | Some s => s
  | None => ""
  end.

Definition campaign_owner_dict (campaignx_owner : CampaignXOwner.t) : dict :=
  [ ("organization_name", PStr (CampaignXOwner.organization_name campaignx_owner));
    ("organization_we_vote_id",
     PStr (or_empty (CampaignXOwner.organization_we_vote_id campaignx_owner)));
    ("feature_this_profile_image",
     PBool (CampaignXOwner.feature_this_profile_image campaignx_owner));
    ("visible_to_public", PBool (CampaignXOwner.visible_to_public campaignx_owner));
    ("we_vote_hosted_profile_image_url_medium",
     PStr (or_empty
             (CampaignXOwner.we_vote_hosted_profile_image_url_medium campaignx_owner)));
    ("we_vote_hosted_profile_image_url_tiny",
     PStr (or_empty
             (CampaignXOwner.we_vote_hosted_profile_image_url_tiny campaignx_owner))) ].

(** The variables the [try] block of lines 586-651 sets. *)
Record as_owner_vars : Type := mk_as_owner_vars {
  aov_campaignx : option CampaignX.t;
  aov_campaignx_found : bool;
  aov_campaignx_we_vote_id : option string;
  aov_viewer_is_owner : bool;
  aov_exception_does_not_exist : bool;
  aov_exception_multiple_object_returned : bool;
  aov_status : string;
  aov_success : bool
}.

Definition retrieve_campaignx_as_owner (st : Store)
  (campaignx_we_vote_id seo_friendly_path voter_we_vote_id : string)
  (read_only : bool) : result AsOwnerResults.t :=
  let status := "" in
  viewer_is_owner <-
    (if positive_value_exists (PStr campaignx_we_vote_id)
     then is_voter_campaignx_owner st campaignx_we_vote_id voter_we_vote_id
     else Ok false) ;;
  let campaignx_table :=
    if positive_value_exists (PBool read_only) then campaignx_rows st
    else campaignx_rows st in
  let attempt : result as_owner_vars :=
    if positive_value_exists (PStr campaignx_we_vote_id) then
      matching <- db_run st
                    (filter (fun c => col_exact (CampaignX.we_vote_id c)
                                                campaignx_we_vote_id)
                            campaignx_table) ;;
      campaignx <- objects_get matching ;;
      Ok (mk_as_owner_vars (Some campaignx) true (CampaignX.we_vote_id campaignx)
            viewer_is_owner false false
            (status ++ "RETRIEVE_CAMPAIGNX_AS_OWNER_FOUND_WITH_WE_VOTE_ID ") true)
    else if positive_value_exists (PStr seo_friendly_path) then
      matching <- db_run st
                    (filter (fun c => col_iexact (CampaignX.seo_friendly_path c)
                                                 seo_friendly_path)
                            campaignx_table) ;;
      campaignx <- objects_get matching ;;
      Ok (mk_as_owner_vars (Some campaignx) true (CampaignX.we_vote_id campaignx)
            viewer_is_owner false false
            (status ++ "RETRIEVE_CAMPAIGNX_AS_OWNER_FOUND_WITH_SEO_FRIENDLY_PATH ") true)
    else if positive_value_exists (PStr voter_we_vote_id) then
      (* If ONLY the voter_we_vote_id is passed in, get the campaign for
         that voter in draft mode *)
      draft_campaign_list <-
        qs_list st
          (order_by (fun c => (- Z.of_nat (CampaignX.id c))%Z)
             (qs_filter
                (fun c => CampaignX.in_draft_mode c
                          && col_exact (CampaignX.started_by_voter_we_vote_id c)
                                       voter_we_vote_id)
                (objects_all campaignx_table))) ;;
      match draft_campaign_list with
      | campaignx :: others =>
          let status :=
            status ++ "RETRIEVE_CAMPAIGNX_AS_OWNER_FOUND_WITH_VOTER_WE_VOTE_ID-IN_DRAFT_MODE " in
          let multiple := (0 <? List.length others)%nat in
          Ok (mk_as_owner_vars (Some campaignx) true (CampaignX.we_vote_id campaignx)
                true false multiple
                (if multiple
                 then status ++ "(NUMBER_FOUND: "
                             ++ str_nat (List.length draft_campaign_list) ++ ") "
                 else status)
                true)
      | [] =>
          Ok (mk_as_owner_vars None false (Some campaignx_we_vote_id)
                viewer_is_owner false false
                (status ++ "RETRIEVE_CAMPAIGNX_AS_OWNER-VOTER_WE_VOTE_ID-NOT_FOUND ") true)
      end
    else
      Ok (mk_as_owner_vars None false (Some campaignx_we_vote_id)
            viewer_is_owner false false
            (status ++ "RETRIEVE_CAMPAIGNX_AS_OWNER_NOT_FOUND-MISSING_VARIABLES ") false) in
  let v :=
    match attempt with
    | Ok v => v
    | Raise MultipleObjectsReturned =>
        mk_as_owner_vars None false (Some "") viewer_is_owner false true
          (status ++ "RETRIEVE_CAMPAIGNX_AS_OWNER_NOT_FOUND_MultipleObjectsReturned ")
          false
    | Raise DoesNotExist =>
        mk_as_owner_vars None false (Some "") viewer_is_owner true false
          (status ++ "RETRIEVE_CAMPAIGNX_AS_OWNER_NOT_FOUND_DoesNotExist ")
          true
    | Raise e =>
        mk_as_owner_vars None false (Some "") viewer_is_owner false false
          (status ++ "RETRIEVE_CAMPAIGNX_AS_OWNER_NOT_FOUND_ERROR: " ++ str_exn e ++ " ")
          false
    end in
  let '(campaignx_owner_list, seo_friendly_path_list) :=
    if positive_value_exists (PBool (aov_campaignx_found v)) then
      (map campaign_owner_dict
           (retrieve_campaignx_owner_list st [aov_campaignx_we_vote_id v] false
              "" "" (aov_viewer_is_owner v) false),
       retrieve_seo_friendly_path_simple_list st (aov_campaignx_we_vote_id v))
    else ([], []) in
  Ok (AsOwnerResults.mk (aov_status v) (aov_success v) (aov_campaignx v)
        (aov_campaignx_found v) (aov_campaignx_we_vote_id v)
        campaignx_owner_list seo_friendly_path_list (aov_viewer_is_owner v)
        (aov_exception_does_not_exist v)
        (aov_exception_multiple_object_returned v)).

(** *** update_or_create_campaignx (lines 2021-2277) *)

(** ['key' in update_values and positive_value_exists(update_values['key'])] *)
Definition dict_flag (update_values : dict) (key : string) : bool :=
  match dict_find key update_values with
  | Some v => positive_value_exists v
  | None => false
  end.

(** [generate_seo_friendly_path] on the identifier and the title of a
    campaign object, either of which may be [None]. *)
Definition generate_seo_friendly_path_for (st : Store) (campaignx : CampaignX.t)
  : SeoPathResults.t * Store :=
  match CampaignX.we_vote_id campaignx with
  | None =>
      if negb (positive_value_exists PNone)
      then (seo_path_failed "" "MISSING_CAMPAIGNX_WE_VOTE_ID ", st)
      else (seo_path_failed "" "MISSING_CAMPAIGN_TITLE ", st)
  | Some campaignx_we_vote_id =>
      generate_seo_friendly_path st campaignx_we_vote_id
        (CampaignX.campaign_title campaignx)
  end.

(** lines 2094-2125 *)
Definition photo_step (update_values : dict) : step :=
  if dict_flag update_values "campaign_photo_changed" then
    when (dict_flag update_values "we_vote_hosted_campaign_photo_original_url")
      (assign (v <- dict_get update_values "we_vote_hosted_campaign_photo_original_url" ;;
               Ok (as_text v))
              SetCampaignX.we_vote_hosted_campaign_photo_original_url')
    >> when (dict_flag update_values "we_vote_hosted_campaign_photo_large_url")
      (assign (v <- dict_get update_values "we_vote_hosted_campaign_photo_large_url" ;;
               Ok (as_text v))
              SetCampaignX.we_vote_hosted_campaign_photo_large_url')
    >> when (dict_flag update_values "we_vote_hosted_campaign_photo_medium_url")
      (assign (v <- dict_get update_values "we_vote_hosted_campaign_photo_medium_url" ;;
               Ok (as_text v))
              SetCampaignX.we_vote_hosted_campaign_photo_medium_url')
    >> when (dict_flag update_values "we_vote_hosted_campaign_photo_small_url")
      (assign (v <- dict_get update_values "we_vote_hosted_campaign_photo_small_url" ;;
               Ok (as_text v))
              SetCampaignX.we_vote_hosted_campaign_photo_small_url')
  else if dict_flag update_values "campaign_photo_delete_changed"
          && dict_flag update_values "campaign_photo_delete" then
    (* Only delete if another photo was not provided *)
    assign (Ok tt) (fun _ => SetCampaignX.photo_urls' None None None None)
  else skip.

(** lines 2130-2148 *)
Definition draft_mode_step (update_values : dict) : step :=
  when (dict_flag update_values "in_draft_mode_changed")
    (fun v =>
       let campaignx := PatchVars.campaignx v in
       let in_draft_mode_may_be_updated := true in
       let generated : result unit * PatchVars.t :=
         if positive_value_exists (py_opt_str (CampaignX.campaign_title campaignx)) then
           (* An SEO friendly path is not created when we first create the
              campaign in draft mode *)
           match dict_get update_values "in_draft_mode" with
           | Raise e => (Raise e, v)
           | Ok in_draft_mode =>
               if negb (positive_value_exists in_draft_mode) then
                 (* If changing from in_draft_mode to published... *)
                 let '(path_results, st) :=
                   generate_seo_friendly_path_for (PatchVars.store v) campaignx in
                 if SeoPathResults.seo_friendly_path_found path_results then
                   (Ok tt,
                    PatchVars.mk
                      (SetCampaignX.seo_friendly_path'
                         (Some (SeoPathResults.seo_friendly_path path_results))
                         campaignx)
                      (PatchVars.campaignx_changed v) (PatchVars.status v) st)
                 else
                   (* We don't want to prevent a campaign from leaving draft
                      mode here *)
                   (Ok tt,
                    PatchVars.mk campaignx (PatchVars.campaignx_changed v)
                      (PatchVars.status v ++ SeoPathResults.status path_results) st)
               else (Ok tt, v)
           end
         else (Ok tt, v) in
       match generated with
       | (Raise e, v) => (Raise e, v)
       | (Ok _, v) =>
           if in_draft_mode_may_be_updated then
             assign (in_draft_mode <- dict_get update_values "in_draft_mode" ;;
                     Ok (positive_value_exists in_draft_mode))
                    SetCampaignX.in_draft_mode' v
           else (Ok tt, v)
       end).

(** lines 2149-2161 *)
Definition politician_delete_step (update_values : dict) : step :=
  when (dict_flag update_values "politician_delete_list_serialized")
    (fun v =>
       match dict_get update_values "politician_delete_list_serialized" with
       | Raise e => (Raise e, v)
       | Ok serialized =>
           match remove_campaignx_politicians_from_delete_list (PatchVars.store v)
                   (CampaignX.we_vote_id (PatchVars.campaignx v)) serialized with
           | Raise e => (Raise e, v)
           | Ok (st, results_status) =>
               (Ok tt,
                PatchVars.mk (PatchVars.campaignx v) (PatchVars.campaignx_changed v)
                  (PatchVars.status v ++ results_status) st)
           end
       end).

(** lines 2162-2181 and 2228-2247 *)
Definition politician_starter_step (update_values : dict) : step :=
  when (dict_flag update_values "politician_starter_list_changed")
    (fun v =>
       match dict_get update_values "politician_starter_list_serialized" with
       | Raise e => (Raise e, v)
       | Ok serialized =>
           match update_or_create_campaignx_politicians_from_starter
                   (PatchVars.store v)
                   (CampaignX.we_vote_id (PatchVars.campaignx v)) serialized with
           | Raise e => (Raise e, v)
           | Ok (st, results_success) =>
               let campaignx :=
                 if results_success
                 then SetCampaignX.politician_starter_list_serialized' None
                        (PatchVars.campaignx v)
                 else
                   (* If save to politician list fails, save starter_list *)
                   SetCampaignX.politician_starter_list_serialized'
                     (as_text serialized) (PatchVars.campaignx v) in
               (Ok tt, PatchVars.mk campaignx true (PatchVars.status v) st)
           end
       end).

(** The [try] block of lines 2088-2191: update existing campaignx. *)
Definition update_existing (update_values : dict) : step :=
  when (dict_flag update_values "campaign_description_changed")
    (assign (v <- dict_get update_values "campaign_description" ;; Ok (as_text v))
            SetCampaignX.campaign_description')
  >> photo_step update_values
  >> when (dict_flag update_values "campaign_title_changed")
    (assign (v <- dict_get update_values "campaign_title" ;; Ok (as_text v))
            SetCampaignX.campaign_title')
  >> draft_mode_step update_values
  >> politician_delete_step update_values
  >> politician_starter_step update_values
  >> when (dict_flag update_values "supporters_count")
    (assign (v <- dict_get update_values "supporters_count" ;; as_integer v)
            SetCampaignX.supporters_count')
  >> (fun v =>
        if PatchVars.campaignx_changed v
        then (save_step >> add_status "CAMPAIGNX_UPDATED ") v
        else add_status "CAMPAIGNX_NOT_UPDATED-NO_CHANGES_FOUND " v).

(** The object [objects.create] builds before it saves it: the columns it
    is given, and the defaults of the others.  The key 0 stands for an
    object the table has not stored. *)
Definition new_campaignx (id : nat) (campaign_description campaign_title : option string)
  (started_by_voter_we_vote_id : option string) (supporters_count : Z)
  : CampaignX.t :=
  CampaignX.mk id None campaign_description campaign_title None true true false
    false false true false None None started_by_voter_we_vote_id
    supporters_count false 0%Z None None None None.

(** [CampaignX()]: every column at its default.  [campaign_title] is a
    [CharField] without [null=True] and without a default: it starts as the
    empty string. *)
Definition default_campaignx : CampaignX.t :=
  new_campaignx 0 None (Some "") None 0%Z.

(** lines 2206-2227; the last assignment writes the small photo into the
    large one. *)
Definition photo_step_on_create (update_values : dict) : step :=
  when (dict_flag update_values "campaign_photo_changed")
    (when (dict_flag update_values "we_vote_hosted_campaign_photo_original_url")
       (assign (v <- dict_get update_values "we_vote_hosted_campaign_photo_original_url" ;;
                Ok (as_text v))
               SetCampaignX.we_vote_hosted_campaign_photo_original_url')
     >> when (dict_flag update_values "we_vote_hosted_campaign_photo_large_url")
       (assign (v <- dict_get update_values "we_vote_hosted_campaign_photo_large_url" ;;
                Ok (as_text v))
               SetCampaignX.we_vote_hosted_campaign_photo_large_url')
     >> when (dict_flag update_values "we_vote_hosted_campaign_photo_medium_url")
       (assign (v <- dict_get update_values "we_vote_hosted_campaign_photo_medium_url" ;;
                Ok (as_text v))
               SetCampaignX.we_vote_hosted_campaign_photo_medium_url')
     >> when (dict_flag update_values "we_vote_hosted_campaign_photo_small_url")
       (assign (v <- dict_get update_values "we_vote_hosted_campaign_photo_small_url" ;;
                Ok (as_text v))
               SetCampaignX.we_vote_hosted_campaign_photo_large_url')).

(** The statements of lines 2206-2252 that follow [objects.create]. *)
Definition after_create (update_values : dict) : step :=
  photo_step_on_create update_values
  >> politician_starter_step update_values
  >> (fun v =>
        if PatchVars.campaignx_changed v
        then (save_step >> add_status "CAMPAIGNX_CREATED_AND_THEN_CHANGED ") v
        else add_status "CAMPAIGNX_CREATED " v).

Definition update_or_create_campaignx (st : Store)
  (campaignx_we_vote_id voter_we_vote_id organization_we_vote_id : string)
  (update_values : dict) : result UpdateResults.t * Store :=
  let status := "" in
  let campaignx_changed := false in
  let campaignx_created := false in
  let create_variables_exist :=
    positive_value_exists (PStr voter_we_vote_id)
    && positive_value_exists (PStr organization_we_vote_id) in
  let update_variables_exist := truthy (PStr campaignx_we_vote_id) in
  if negb create_variables_exist && negb update_variables_exist then
    let status :=
      if negb create_variables_exist
      then status ++ "CREATE_CAMPAIGNX_VARIABLES_MISSING " else status in
    let status :=
      if negb update_variables_exist
      then status ++ "UPDATE_CAMPAIGNX_VARIABLES_MISSING " else status in
    (Ok (UpdateResults.mk false (status ++ "COULD_NOT_UPDATE_OR_CREATE: ")
           None false false false (Some "")), st)
  else
  match
    (if positive_value_exists (PStr campaignx_we_vote_id)
     then retrieve_campaignx_as_owner st campaignx_we_vote_id "" "" false
     else retrieve_campaignx_as_owner st "" "" voter_we_vote_id false)
  with
  | Raise e => (Raise e, st)
  | Ok results =>
  let campaignx_found := AsOwnerResults.campaignx_found results in
  let campaignx := if campaignx_found then AsOwnerResults.campaignx results else None in
  let campaignx_we_vote_id :=
    match campaignx with
    | Some c => if campaignx_found then CampaignX.we_vote_id c
                else Some campaignx_we_vote_id
    | None => Some campaignx_we_vote_id
    end in
  let success := AsOwnerResults.success results in
  let status := status ++ AsOwnerResults.status results in
  if negb (positive_value_exists (PBool success)) then
    (Ok (UpdateResults.mk success status campaignx campaignx_changed
           campaignx_created campaignx_found campaignx_we_vote_id), st)
  else
  (* the two branches set: success, status, campaignx, campaignx_changed,
     campaignx_created, campaignx_found, campaignx_we_vote_id, store *)
  let '(success, status, campaignx, campaignx_changed, campaignx_created,
        campaignx_found, campaignx_we_vote_id, st) :=
    match campaignx with
    | Some found_campaignx =>
        (* Update existing campaignx *)
        match update_existing update_values
                (PatchVars.mk found_campaignx false status st) with
        | (Ok _, v) =>
            (true, PatchVars.status v, Some (PatchVars.campaignx v),
             PatchVars.campaignx_changed v, campaignx_created, campaignx_found,
             campaignx_we_vote_id, PatchVars.store v)
        | (Raise e, v) =>
            (false,
             PatchVars.status v ++ "CAMPAIGNX_NOT_UPDATED: " ++ str_exn e ++ " ",
             None, PatchVars.campaignx_changed v, campaignx_created,
             campaignx_found, campaignx_we_vote_id, PatchVars.store v)
        end
    | None =>
        let not_created e campaignx_changed campaignx_we_vote_id status st :=
          (false, status ++ "CAMPAIGNX_NOT_CREATED: " ++ str_exn e ++ " ",
           Some default_campaignx, campaignx_changed, false,
           campaignx_found, campaignx_we_vote_id, st) in
        match (d <- dict_get update_values "campaign_description" ;;
               t <- dict_get update_values "campaign_title" ;;
               Ok (as_text d, as_text t)) with
        | Raise e => not_created e campaignx_changed campaignx_we_vote_id status st
        | Ok (campaign_description, campaign_title) =>
            match save_campaignx st
                    (new_campaignx (next_id CampaignX.id (campaignx_rows st))
                       campaign_description campaign_title
                       (Some voter_we_vote_id) 1%Z) with
            | (Raise e, st) =>
                not_created e campaignx_changed campaignx_we_vote_id status st
            | (Ok created, st) =>
                let campaignx_we_vote_id := CampaignX.we_vote_id created in
                match after_create update_values
                        (PatchVars.mk created campaignx_changed status st) with
                | (Ok _, v) =>
                    (true, PatchVars.status v, Some (PatchVars.campaignx v),
                     PatchVars.campaignx_changed v, true, true,
                     campaignx_we_vote_id, PatchVars.store v)
                | (Raise e, v) =>
                    not_created e (PatchVars.campaignx_changed v)
                      campaignx_we_vote_id (PatchVars.status v) (PatchVars.store v)
                end
            end
        end
    end in
  if success && dict_flag update_values "politician_starter_list_changed" then
    match dict_get update_values "politician_starter_list_serialized" with
    | Raise e => (Raise e, st)
    | Ok serialized =>
        (Ok (UpdateResults.mk success status
               (option_map (SetCampaignX.politician_starter_list_serialized'
                              (as_text serialized)) campaignx)
               true campaignx_created campaignx_found campaignx_we_vote_id), st)
    end
  else
    (Ok (UpdateResults.mk success status campaignx campaignx_changed
           campaignx_created campaignx_found campaignx_we_vote_id), st)
  end.

(** *** update_campaignx_supporters_count (lines 1987-2019) *)

Definition update_campaignx_supporters_count (st : Store)
  (campaignx_we_vote_id : string)
  : result SupportersCountResults.t * Store :=
  let status := "" in
  let supporters_count := 0%Z in
  match qs_count st
          (qs_filter (fun s => CampaignXSupporter.campaign_supported s)
             (qs_filter
                (fun s => iexact (CampaignXSupporter.campaignx_we_vote_id s)
                                 campaignx_we_vote_id)
                (objects_all (supporter_rows st)))) with
  | Raise e =>
      (Ok (SupportersCountResults.mk false
             (status ++ "FAILED_RETRIEVING_SUPPORTER_COUNT: " ++ str_exn e ++ " ")
             supporters_count), st)
  | Ok supporters_count =>
      let update_values := [ ("supporters_count", PInt supporters_count) ] in
      match update_or_create_campaignx st campaignx_we_vote_id "" ""
              update_values with
      | (Raise e, st) => (Raise e, st)
      | (Ok update_results, st) =>
          (Ok (SupportersCountResults.mk
                 (UpdateResults.success update_results)
                 (UpdateResults.status update_results)
                 supporters_count), st)
      end
  end.

End Manager.

(** ** A concrete set of collaborators

    Used to run the manager on explicit stores. *)

Definition model_positive_value_exists (v : pyval) : bool :=
  match v with
  | PNone => false
  | PBool b => b
  | PInt n => (0 <? n)%Z
  | PStr s => negb (String.eqb s "")
  | PCampaignX _ => true
  | PSupporter _ => true
  end.

(** [django.utils.text.slugify(value)], with [allow_unicode=False]:
[[
    value = unicodedata.normalize('NFKD', value)
    value = value.encode('ascii', 'ignore').decode('ascii')
    value = re.sub(r'[^\w\s-]', '', value.lower())
    return re.sub(r'[-\s]+', '-', value).strip('-_')
]]
    on a [str] whose characters have code points below 256. *)

(** What the first line leaves of one character: a character below 128 is
    kept; from 128 on, the ASCII part of its compatibility decomposition
    (the letter of an accented letter, the digits of a fraction, a space for
    the no-break space and the spacing accents), which is empty for the
    others. *)
Definition nfkd_ascii (c : ascii) : string :=
  let n := N_of_ascii c in
  if (n <? 128)%N then String c EmptyString
  else
    match n with
    | 160 | 168 | 175 | 180 | 184 => " "
    | 170 => "a"
    | 178 => "2"
    | 179 => "3"
    | 185 => "1"
    | 186 => "o"
    | 188 => "14"
    | 189 => "12"
    | 190 => "34"
    | 192 | 193 | 194 | 195 | 196 | 197 => "A"
    | 199 => "C"
    | 200 | 201 | 202 | 203 => "E"
    | 204 | 205 | 206 | 207 => "I"
    | 209 => "N"
    | 210 | 211 | 212 | 213 | 214 => "O"
    | 217 | 218 | 219 | 220 => "U"
    | 221 => "Y"
    | 224 | 225 | 226 | 227 | 228 | 229 => "a"
    | 231 => "c"
    | 232 | 233 | 234 | 235 => "e"
    | 236 | 237 | 238 | 239 => "i"
    | 241 => "n"
    | 242 | 243 | 244 | 245 | 246 => "o"
    | 249 | 250 | 251 | 252 => "u"
    | 253 | 255 => "y"
    | _ => ""
    end%N.

Fixpoint to_ascii (s : string) : string :=
  match s with
  | EmptyString => EmptyString
  | String c s' => nfkd_ascii c ++ to_ascii s'
  end.

(** [\w], on ASCII text in lower case: a letter, a digit or [_] *)
Definition is_word (c : ascii) : bool :=
  let n := nat_of_ascii c in
  ((97 <=? n)%nat && (n <=? 122)%nat)
  || ((48 <=? n)%nat && (n <=? 57)%nat)
  || (n =? 95)%nat.

Definition is_hyphen (c : ascii) : bool := (nat_of_ascii c =? 45)%nat.

Definition is_underscore (c : ascii) : bool := (nat_of_ascii c =? 95)%nat.

(** [re.sub(r'[^\w\s-]', '', value)] *)
Fixpoint keep_slug_chars (s : string) : string :=
  match s with
  | EmptyString => EmptyString
  | String c s' =>
      if is_word c || is_space c || is_hyphen c
      then String c (keep_slug_chars s')
      else keep_slug_chars s'
  end.

(** [re.sub(r'[-\s]+', '-', value)]; [in_run] tells that the run of
    separators being read has its hyphen already. *)
Fixpoint hyphenate (in_run : bool) (s : string) : string :=
  match s with
  | EmptyString => EmptyString
  | String c s' =>
      if is_hyphen c || is_space c then
        if in_run then hyphenate true s' else String "-" (hyphenate true s')
      else String c (hyphenate false s')
  end.

(** [value.strip('-_')] *)
Fixpoint lstrip_hyphens_underscores (s : string) : string :=
  match s with
  | EmptyString => EmptyString
  | String c s' =>
      if is_hyphen c || is_underscore c then lstrip_hyphens_underscores s' else s
  end.

Fixpoint rstrip_hyphens_underscores (s : string) : string :=
  match s with
  | EmptyString => EmptyString
  | String c s' =>
      match rstrip_hyphens_underscores s' with
      | EmptyString =>
          if is_hyphen c || is_underscore c then EmptyString
          else String c EmptyString
      | t => String c t
      end
  end.

Definition model_slugify (title : string) : result string :=
  Ok (rstrip_hyphens_underscores
        (lstrip_hyphens_underscores
           (hyphenate false (keep_slug_chars (lower (to_ascii title)))))).

(** four characters of the alphabet without 0, 1, i, l and o *)
Definition random_alphabet : list ascii :=
  list_ascii_of_string "abcdefghjkmnpqrstuvwxyz23456789".

Definition random_char (k : nat) : ascii :=
  nth (k mod 31) random_alphabet "a"%char.

Definition model_generate_random_string (n : nat) : string :=
  String (random_char (n / 31 / 31 / 31))
    (String (random_char (n / 31 / 31))
       (String (random_char (n / 31))
          (String (random_char n) EmptyString))).

#[refine] Instance model_helpers : Helpers := {|
  positive_value_exists := model_positive_value_exists;
  slugify := model_slugify;
  generate_random_string := model_generate_random_string;
  fetch_site_unique_id_prefix := "02";
  retrieve_voter_by_we_vote_id := fun _ => None;
  retrieve_organization := fun _ => None;
  remove_campaignx_politicians_from_delete_list := fun st _ _ => Ok (st, "");
  update_or_create_campaignx_politicians_from_starter := fun st _ _ => Ok (st, true)
|}.
Proof. all: reflexivity. Defined.

(** A database that reads the rows of an ordered query from the last to
    the first, as the scan of an index in descending order does. *)
Definition model_database : Database.
Proof.
  refine {| ordered_scan := fun R keys rows => rev rows |}.
  intros R keys rows. symmetry. apply Permutation_rev.
Defined.

(** ** The state of a path, in the words of the specification

    A path is owned by a campaign when the path-history table holds it for
    that campaign; it is taken when the path-history table or the live
    campaign table holds it for any campaign.  Paths are compared without
    regard to case. *)

Definition path_owned_by (st : Store) (campaignx_we_vote_id pathname : string) : bool :=
  existsb
    (fun p =>
       col_exact (CampaignXSEOFriendlyPath.campaignx_we_vote_id p) campaignx_we_vote_id
       && col_iexact (CampaignXSEOFriendlyPath.final_pathname_string p) pathname)
    (seo_friendly_path_rows st).

Definition path_in_history (st : Store) (pathname : string) : bool :=
  existsb
    (fun p => col_iexact (CampaignXSEOFriendlyPath.final_pathname_string p) pathname)
    (seo_friendly_path_rows st).

Definition path_in_campaigns (st : Store) (pathname : string) : bool :=
  existsb (fun c => col_iexact (CampaignX.seo_friendly_path c) pathname)
          (campaignx_rows st).

Definition path_taken (st : Store) (pathname : string) : bool :=
  path_in_history st pathname || path_in_campaigns st pathname.

(** The row the allocator adds to the path history for a free base path. *)
Definition base_path_row (st : Store) (c title base : string)
  : CampaignXSEOFriendlyPath.t :=
  CampaignXSEOFriendlyPath.mk
    (next_id CampaignXSEOFriendlyPath.id (seo_friendly_path_rows st))
    (Some c) title (Some base) None (Some base).

(** the path "campaign" and its first candidate "campaign-aaaa" belong to
    campaign 1 *)
Definition taken_paths_store : Store :=
  mkStore []
    []
    [ CampaignXSEOFriendlyPath.mk 1 (Some "wv02camp1") "Campaign" (Some "campaign")
        None (Some "campaign");
      CampaignXSEOFriendlyPath.mk 2 (Some "wv02camp1") "Campaign" (Some "campaign")
        (Some "aaaa") (Some "campaign-aaaa") ]
    [] [] None 0 0.

(** ** Duplicates, in the words of the specification

    The Supporter rows of a (campaign, voter) pair. *)

Definition duplicates (st : Store) (campaignx_we_vote_id voter_we_vote_id : string)
  : list CampaignXSupporter.t :=
  filter
    (fun s =>
       String.eqb (CampaignXSupporter.campaignx_we_vote_id s) campaignx_we_vote_id
       && String.eqb (CampaignXSupporter.voter_we_vote_id s) voter_we_vote_id)
    (supporter_rows st).

(** the rows that are none of [temps], by primary key *)
Definition not_among (temps : list CampaignXSupporter.t) (r : CampaignXSupporter.t)
  : bool :=
  negb (existsb (fun t => Nat.eqb (CampaignXSupporter.id r) (CampaignXSupporter.id t))
                temps).

(** what [kept.save()] makes of a row of the table *)
Definition saved_over (kept r : CampaignXSupporter.t) : CampaignXSupporter.t :=
  if Nat.eqb (CampaignXSupporter.id r) (CampaignXSupporter.id kept) then kept
  else r.

(** ** Ownership, in the words of the specification

    A voter owns a campaign when an Owner row of the campaign names the
    voter, or names an organization in which the voter is a team member with
    one of the three campaign rights.  [same_campaign] tells which stored
    campaign identifiers count as the campaign asked for. *)

Definition owner_row_resolves (st : Store) (same_campaign : option string -> bool)
  (voter_we_vote_id : string) (o : CampaignXOwner.t) : Prop :=
  In o (owner_rows st)
  /\ same_campaign (CampaignXOwner.campaignx_we_vote_id o) = true
  /\ (col_iexact (CampaignXOwner.voter_we_vote_id o) voter_we_vote_id = true
      \/ exists m organization_we_vote_id,
           In m (team_member_rows st)
           /\ col_iexact (OrganizationTeamMember.voter_we_vote_id m)
                         voter_we_vote_id = true
           /\ (OrganizationTeamMember.can_edit_campaignx_owned_by_organization m
               || OrganizationTeamMember.can_moderate_campaignx_owned_by_organization m
               || OrganizationTeamMember.can_send_updates_for_campaignx_owned_by_organization m)
              = true
           /\ OrganizationTeamMember.organization_we_vote_id m
              = Some organization_we_vote_id
           /\ CampaignXOwner.organization_we_vote_id o
              = Some organization_we_vote_id).

Definition resolves_as_owner (st : Store) (same_campaign : option string -> bool)
  (voter_we_vote_id : string) : Prop :=
  exists o, owner_row_resolves st same_campaign voter_we_vote_id o.

(** the organizations in which a voter is a team member with a campaign
    right, as the ownership queries list them *)
Definition teams_of (st : Store) (u : string) : list (option string) :=
  distinct
    (map OrganizationTeamMember.organization_we_vote_id
         (filter
            (fun m =>
               col_iexact (OrganizationTeamMember.voter_we_vote_id m) u
               && has_any_campaignx_right m)
            (team_member_rows st))).

(** one Owner row: voter 1 owns campaign 1 *)
Definition owner_store : Store :=
  mkStore []
    [ CampaignXOwner.mk 1 (Some "wv02camp1") true None "Voter One"
        (Some "wv02org1") true (Some "wv02voter1") None None ]
    [] [] [] None 0 0.

(** ** Goal levels (lines 151-212)

    [wevote_functions.functions.convert_to_int] is not part of this module;
    of it the development uses that it returns an integer unchanged. *)

Class Conversions : Type := {
  convert_to_int : pyval -> result Z;
  convert_to_int_int : forall n, convert_to_int (PInt n) = Ok n
}.

(** The outcome of integer arithmetic: [a % 0] raises [ZeroDivisionError]. *)
Inductive arith (A : Type) : Type :=
| Computed (a : A)
| ZeroDivisionError.
Arguments Computed {A} a.
Arguments ZeroDivisionError {A}.

(** [a % b]: the remainder has the sign of the divisor *)
Definition py_mod (a b : Z) : arith Z :=
  if (b =? 0)%Z then ZeroDivisionError else Computed (a mod b)%Z.

Section Goals.
Context {C : Conversions}.

Definition fetch_next_goal_level (supporters_count tier_size : pyval) : arith Z :=
  let supporters_count := try_catch (convert_to_int supporters_count) (fun e => 0%Z) in
  let tier_size := try_catch (convert_to_int tier_size) (fun e => 1000%Z) in
  match py_mod supporters_count tier_size with
  | ZeroDivisionError => ZeroDivisionError
  | Computed remainder =>
      if (remainder =? 0)%Z then Computed supporters_count
      else
        match py_mod supporters_count tier_size with
        | ZeroDivisionError => ZeroDivisionError
        | Computed remainder =>
            Computed (supporters_count + tier_size - remainder)%Z
        end
  end.

(** [try: return self.fetch_next_goal_level(...)  except Exception: return 0] *)
Definition next_goal_level_or_zero (supporters_count tier_size : Z) : Z :=
  match fetch_next_goal_level (PInt supporters_count) (PInt tier_size) with
  | Computed level => level
  | ZeroDivisionError => 0%Z
  end.

Definition fetch_supporters_count_next_goal
  (supporters_count supporters_count_victory_goal : pyval) : Z :=
  let supporters_count := try_catch (convert_to_int supporters_count) (fun e => 0%Z) in
  let supporters_count_victory_goal :=
    try_catch (convert_to_int supporters_count_victory_goal) (fun e => 0%Z) in
  if (supporters_count_victory_goal >=? supporters_count)%Z then supporters_count
  else if (supporters_count >=? 100000)%Z then
    next_goal_level_or_zero supporters_count 50000
  else if (supporters_count >=? 25000)%Z then
    next_goal_level_or_zero supporters_count 25000
  else if (supporters_count >=? 10000)%Z then
    next_goal_level_or_zero supporters_count 15000
  else if (supporters_count >=? 5000)%Z then
    next_goal_level_or_zero supporters_count 5000
  else if (supporters_count >=? 2500)%Z then
    next_goal_level_or_zero supporters_count 2500
  else if (supporters_count >=? 1000)%Z then
    next_goal_level_or_zero supporters_count 1500
  else if (supporters_count >=? 500)%Z then
    next_goal_level_or_zero supporters_count 500
  else if (supporters_count >=? 250)%Z then
    next_goal_level_or_zero supporters_count 250
  else if (supporters_count >=? 125)%Z then
    next_goal_level_or_zero supporters_count 125
  else if (supporters_count >=? 50)%Z then
    next_goal_level_or_zero supporters_count 50
  else 50%Z.

End Goals.

Definition model_convert_to_int (v : pyval) : result Z :=
  match v with
  | PInt n => Ok n
  | PBool b => Ok (if b then 1 else 0)%Z
  | _ => Ok 0%Z
  end.

#[refine] Instance model_conversions : Conversions := {|
  convert_to_int := model_convert_to_int
|}.
Proof. reflexivity. Defined.
(** ** More of the manager *)

Definition set_owner_rows (st : Store) rows : Store :=
  mkStore (campaignx_rows st) rows (seo_friendly_path_rows st) (supporter_rows st)
          (team_member_rows st) (db_error st)
          (we_vote_id_last_campaignx_integer st) (random_strings_drawn st).

(** The dictionary the [retrieve_campaignx_we_vote_id_list_...] methods
    return; [campaignx_we_vote_id_list_found] is [False], a length or a
    boolean, as the method computes it. *)
Module WeVoteIdListResults.
Record t : Type := mk {
  success : bool;
  status : string;
  campaignx_we_vote_id_list_found : pyval;
  campaignx_we_vote_id_list : list (option string)
}.
End WeVoteIdListResults.

Module CampaignXOwnerResults.
Record t : Type := mk {
  status : string;
  success : bool;
  campaignx_owner : option CampaignXOwner.t;
  campaignx_owner_found : bool;
  exception_does_not_exist : bool;
  exception_multiple_object_returned : bool
}.
End CampaignXOwnerResults.

Module EntriesUpdatedResults.
Record t : Type := mk {
  success : bool;
  status : string;
  entries_updated : Z
}.
End EntriesUpdatedResults.

Module OwnerUpsertResults.
Record t : Type := mk {
  success : bool;
  status : string;
  campaignx_owner_created : bool;
  campaignx_owner_found : bool;
  campaignx_owner_updated : bool;
  campaignx_owner : option CampaignXOwner.t
}.
End OwnerUpsertResults.

(** [CampaignXOwner()]: the defaults of the columns; the key 0 stands for an
    object the table has not stored. *)
Definition new_campaignx_owner (id : nat)
  (campaignx_we_vote_id voter_we_vote_id : option string) (visible_to_public : bool)
  : CampaignXOwner.t :=
  CampaignXOwner.mk id campaignx_we_vote_id true None "" None visible_to_public
    voter_we_vote_id None None.

(** Assignments to the attributes of an owner object. *)
Module SetCampaignXOwner.
Import CampaignXOwner.

Definition organization_name' (x : string) (o : t) : t :=
  mk (id o) (campaignx_we_vote_id o) (feature_this_profile_image o) (order_in_list o)
     x (organization_we_vote_id o) (visible_to_public o) (voter_we_vote_id o)
     (we_vote_hosted_profile_image_url_medium o)
     (we_vote_hosted_profile_image_url_tiny o).

Definition organization_we_vote_id' (x : option string) (o : t) : t :=
  mk (id o) (campaignx_we_vote_id o) (feature_this_profile_image o) (order_in_list o)
     (organization_name o) x (visible_to_public o) (voter_we_vote_id o)
     (we_vote_hosted_profile_image_url_medium o)
     (we_vote_hosted_profile_image_url_tiny o).

Definition visible_to_public' (x : bool) (o : t) : t :=
  mk (id o) (campaignx_we_vote_id o) (feature_this_profile_image o) (order_in_list o)
     (organization_name o) (organization_we_vote_id o) x (voter_we_vote_id o)
     (we_vote_hosted_profile_image_url_medium o)
     (we_vote_hosted_profile_image_url_tiny o).

Definition we_vote_hosted_profile_image_url_medium' (x : option string) (o : t) : t :=
  mk (id o) (campaignx_we_vote_id o) (feature_this_profile_image o) (order_in_list o)
     (organization_name o) (organization_we_vote_id o) (visible_to_public o)
     (voter_we_vote_id o) x (we_vote_hosted_profile_image_url_tiny o).

Definition we_vote_hosted_profile_image_url_tiny' (x : option string) (o : t) : t :=
  mk (id o) (campaignx_we_vote_id o) (feature_this_profile_image o) (order_in_list o)
     (organization_name o) (organization_we_vote_id o) (visible_to_public o)
     (voter_we_vote_id o) (we_vote_hosted_profile_image_url_medium o) x.

End SetCampaignXOwner.

(** [OrganizationManager().retrieve_organization_from_we_vote_id(id)]:
    [Some organization] when [organization_found]. *)
Class OrganizationDirectory : Type := {
  retrieve_organization_from_we_vote_id : string -> option Organization
}.

Section Queries.
Context {H : Helpers} {DB : Database}.

(** *** CampaignX.is_supporters_count_minimum_exceeded (lines 76-80) *)

Definition is_supporters_count_minimum_exceeded (self : CampaignX.t) : bool :=
  if positive_value_exists (PBool (CampaignX.supporters_count_minimum_ignored self))
     || (CampaignX.supporters_count self >=? SUPPORTERS_COUNT_MINIMUM_FOR_LISTING)%Z
  then true
  else false.

(** *** fetch_campaignx_supporter_count (lines 127-137)

    [filter(column=None)] selects the rows where the column is NULL; the
    column is declared without [null=True]. *)

Definition fetch_campaignx_supporter_count (st : Store)
  (campaignx_we_vote_id : option string) : Z :=
  try_catch
    (qs_count st
       (qs_filter
          (fun s =>
             match campaignx_we_vote_id with
             | Some v => String.eqb (CampaignXSupporter.campaignx_we_vote_id s) v
             | None => false
             end)
          (objects_all (supporter_rows st))))
    (fun e => 0%Z).

(** *** fetch_campaignx_we_vote_id_list_from_owner_organization_we_vote_id
    (lines 166-172) *)

Definition fetch_campaignx_we_vote_id_list_from_owner_organization_we_vote_id
  (st : Store) (organization_we_vote_id : string) : list (option string) :=
  let owner_list :=
    retrieve_campaignx_owner_list st [] false organization_we_vote_id "" false true in
  map CampaignXOwner.campaignx_we_vote_id owner_list.

(** *** is_voter_campaignx_supporter (lines 522-541) *)

Definition is_voter_campaignx_supporter (st : Store)
  (campaignx_we_vote_id voter_we_vote_id : string) : result bool :=
  let voter_is_campaignx_owner := false in
  try_except_model_class
    (n <- qs_count st
            (qs_filter
               (fun s =>
                  iexact (CampaignXSupporter.campaignx_we_vote_id s)
                         campaignx_we_vote_id
                  && iexact (CampaignXSupporter.voter_we_vote_id s)
                            voter_we_vote_id)
               (objects_all (supporter_rows st))) ;;
     Ok (positive_value_exists (PInt n)))
    (fun e => Ok voter_is_campaignx_owner).

(** *** retrieve_campaignx (lines 718-794)

    The dictionary has the keys of the one [retrieve_campaignx_as_owner]
    returns.  The two [except] clauses name [MultipleObjectsReturned] and
    [DoesNotExist]: any other exception leaves the method. *)

Definition campaign_owner_dict_of (campaignx_owner : CampaignXOwner.t) : dict :=
  [ ("organization_name", PStr (CampaignXOwner.organization_name campaignx_owner));
    ("organization_we_vote_id",
     py_opt_str (CampaignXOwner.organization_we_vote_id campaignx_owner));
    ("feature_this_profile_image",
     PBool (CampaignXOwner.feature_this_profile_image campaignx_owner));
    ("visible_to_public", PBool (CampaignXOwner.visible_to_public campaignx_owner));
    ("we_vote_hosted_profile_image_url_medium",
     py_opt_str (CampaignXOwner.we_vote_hosted_profile_image_url_medium campaignx_owner));
    ("we_vote_hosted_profile_image_url_tiny",
     py_opt_str (CampaignXOwner.we_vote_hosted_profile_image_url_tiny campaignx_owner)) ].

Definition retrieve_campaignx (st : Store)
  (campaignx_we_vote_id seo_friendly_path voter_we_vote_id : string)
  (read_only : bool) : result AsOwnerResults.t :=
  let status := "" in
  let viewer_is_owner := false in
  let campaignx_table :=
    if positive_value_exists (PBool read_only) then campaignx_rows st
    else campaignx_rows st in
  let attempt : result as_owner_vars :=
    if positive_value_exists (PStr campaignx_we_vote_id) then
      matching <- db_run st
                    (filter (fun c => col_exact (CampaignX.we_vote_id c)
                                                campaignx_we_vote_id)
                            campaignx_table) ;;
      campaignx <- objects_get matching ;;
      Ok (mk_as_owner_vars (Some campaignx) true (Some campaignx_we_vote_id)
            viewer_is_owner false false
            (status ++ "CAMPAIGNX_FOUND_WITH_WE_VOTE_ID ") true)
    else if positive_value_exists (PStr seo_friendly_path) then
      matching <- db_run st
                    (filter (fun c => col_iexact (CampaignX.seo_friendly_path c)
                                                 seo_friendly_path)
                            campaignx_table) ;;
      campaignx <- objects_get matching ;;
      Ok (mk_as_owner_vars (Some campaignx) true (CampaignX.we_vote_id campaignx)
            viewer_is_owner false false
            (status ++ "CAMPAIGNX_FOUND_WITH_SEO_FRIENDLY_PATH ") true)
    else
      Ok (mk_as_owner_vars None false (Some campaignx_we_vote_id)
            viewer_is_owner false false
            (status ++ "CAMPAIGNX_NOT_FOUND-MISSING_VARIABLES ") false) in
  v <- match attempt with
       | Ok v => Ok v
       | Raise MultipleObjectsReturned =>
           Ok (mk_as_owner_vars None false (Some campaignx_we_vote_id)
                 viewer_is_owner false true
                 (status ++ "CAMPAIGNX_NOT_FOUND_MultipleObjectsReturned ") false)
       | Raise DoesNotExist =>
           Ok (mk_as_owner_vars None false (Some campaignx_we_vote_id)
                 viewer_is_owner true false
                 (status ++ "CAMPAIGNX_NOT_FOUND_DoesNotExist ") true)
       | Raise e => Raise e
       end ;;
  if positive_value_exists (PBool (aov_campaignx_found v)) then
    viewer_is_owner <-
      match aov_campaignx_we_vote_id v with
      | Some campaignx_we_vote_id =>
          if positive_value_exists (PStr campaignx_we_vote_id)
             && positive_value_exists (PStr voter_we_vote_id)
          then is_voter_campaignx_owner st campaignx_we_vote_id voter_we_vote_id
          else Ok (aov_viewer_is_owner v)
      | None =>
          (* positive_value_exists(None) is false *)
          Ok (aov_viewer_is_owner v)
      end ;;
    let campaignx_owner_list :=
      map campaign_owner_dict_of
          (retrieve_campaignx_owner_list st [aov_campaignx_we_vote_id v] false
             "" "" false false) in
    let seo_friendly_path_list :=
      retrieve_seo_friendly_path_simple_list st (aov_campaignx_we_vote_id v) in
    Ok (AsOwnerResults.mk (aov_status v) (aov_success v) (aov_campaignx v)
          (aov_campaignx_found v) (aov_campaignx_we_vote_id v)
          campaignx_owner_list seo_friendly_path_list viewer_is_owner
          (aov_exception_does_not_exist v)
          (aov_exception_multiple_object_returned v))
  else
    Ok (AsOwnerResults.mk (aov_status v) (aov_success v) (aov_campaignx v)
          (aov_campaignx_found v) (aov_campaignx_we_vote_id v)
          [] [] (aov_viewer_is_owner v)
          (aov_exception_does_not_exist v)
          (aov_exception_multiple_object_returned v)).

(** *** retrieve_campaignx_we_vote_ids_in_order (lines 839-849) *)

Definition retrieve_campaignx_we_vote_ids_in_order (st : Store)
  (site_owner_organization_we_vote_id : string) : list (option string) :=
  let campaignx_owned_by_organization_list :=
    retrieve_campaignx_owner_list st [] true site_owner_organization_we_vote_id ""
      false true in
  map CampaignXOwner.campaignx_we_vote_id campaignx_owned_by_organization_list.

(** *** retrieve_campaignx_we_vote_id_list_filler_options (lines 1130-1170)

    [today] is [generate_date_as_integer()].  [exclude(column__in=values)]
    keeps the rows [filter(column__in=values)] leaves out. *)

(** [queryset.values_list(column, flat=True).distinct()] *)
Definition values_list_distinct {R} (column : R -> option string) (qs : QuerySet R)
  : QuerySet (option string) :=
  objects_all (distinct (map column (qs_result qs))).

Definition retrieve_campaignx_we_vote_id_list_filler_options (st : Store) (today : Z)
  (campaignx_we_vote_id_list_to_exclude : list (option string)) (limit : Z)
  : WeVoteIdListResults.t :=
  let campaignx_we_vote_id_list_found := PBool false in
  let campaignx_we_vote_id_list : list (option string) := [] in
  let status := "" in
  let success := true in
  try_catch
    (let campaignx_query := objects_all (campaignx_rows st) in
     let campaignx_query :=
       qs_filter
         (fun c => negb (CampaignX.in_draft_mode c)
                   && negb (CampaignX.is_blocked_by_we_vote c)
                   && negb (CampaignX.is_not_promoted_by_we_vote c)
                   && CampaignX.is_still_active c)
         campaignx_query in
     let campaignx_query :=
       qs_filter
         (fun c =>
            (CampaignX.supporters_count c >=? SUPPORTERS_COUNT_MINIMUM_FOR_LISTING)%Z
            || CampaignX.supporters_count_minimum_ignored c)
         campaignx_query in
     let final_election_date_plus_cool_down :=
       (today + FINAL_ELECTION_DATE_COOL_DOWN)%Z in
     let campaignx_query :=
       qs_filter
         (fun c => match CampaignX.final_election_date_as_integer c with
                   | None => true
                   | Some d => (d >? final_election_date_plus_cool_down)%Z
                   end)
         campaignx_query in
     let campaignx_query :=
       if (0 <? List.length campaignx_we_vote_id_list_to_exclude)%nat
       then qs_filter
              (fun c => negb (col_in (CampaignX.we_vote_id c)
                                     campaignx_we_vote_id_list_to_exclude))
              campaignx_query
       else campaignx_query in
     let campaignx_query := values_list_distinct CampaignX.we_vote_id campaignx_query in
     campaignx_query <-
       (if positive_value_exists (PInt limit) then qs_slice limit campaignx_query
        else Ok campaignx_query) ;;
     campaignx_we_vote_id_list <- qs_list st campaignx_query ;;
     Ok (WeVoteIdListResults.mk success status
           (PInt (Z.of_nat (List.length campaignx_we_vote_id_list)))
           campaignx_we_vote_id_list))
    (fun e =>
       WeVoteIdListResults.mk false
         (status ++ "ERROR_RETRIEVING_CAMPAIGNX_FILLER_LIST: " ++ str_exn e ++ " ")
         campaignx_we_vote_id_list_found campaignx_we_vote_id_list).

(** *** retrieve_campaignx_we_vote_id_list_started_by_voter (lines 1197-1217) *)

Definition retrieve_campaignx_we_vote_id_list_started_by_voter (st : Store)
  (started_by_voter_we_vote_id : string) : WeVoteIdListResults.t :=
  let campaignx_we_vote_id_list_found := PBool false in
  let campaignx_we_vote_id_list : list (option string) := [] in
  let status := "" in
  let success := true in
  try_catch
    (let campaignx_query := objects_all (campaignx_rows st) in
     let campaignx_query :=
       qs_filter
         (fun c => col_exact (CampaignX.started_by_voter_we_vote_id c)
                             started_by_voter_we_vote_id)
         campaignx_query in
     let campaignx_query := values_list_distinct CampaignX.we_vote_id campaignx_query in
     campaignx_we_vote_id_list <- qs_list st campaignx_query ;;
     Ok (WeVoteIdListResults.mk success status
           (PInt (Z.of_nat (List.length campaignx_we_vote_id_list)))
           campaignx_we_vote_id_list))
    (fun e =>
       WeVoteIdListResults.mk false
         (status ++ "ERROR_RETRIEVING_CAMPAIGNX: " ++ str_exn e ++ " ")
         campaignx_we_vote_id_list_found campaignx_we_vote_id_list).

(** *** retrieve_campaignx_list_for_voter (lines 1270-1287) *)

Definition retrieve_campaignx_list_for_voter (st : Store)
  (started_by_voter_we_vote_id : string) : list CampaignX.t :=
  let campaignx_list_found := false in
  let campaignx_list : list CampaignX.t := [] in
  let '(campaignx_list_found, campaignx_list) :=
    try_catch
      (let campaignx_query := objects_all (campaignx_rows st) in
       let campaignx_query :=
         qs_filter
           (fun c => col_exact (CampaignX.started_by_voter_we_vote_id c)
                               started_by_voter_we_vote_id)
           campaignx_query in
       campaignx_list <- qs_list st campaignx_query ;;
       Ok (if (0 <? List.length campaignx_list)%nat then (true, campaignx_list)
           else (campaignx_list_found, campaignx_list)))
      (fun e => (campaignx_list_found, campaignx_list)) in
  if campaignx_list_found then campaignx_list else [].

(** *** retrieve_campaignx_owner (lines 1289-1334) *)

Definition retrieve_campaignx_owner (st : Store)
  (campaignx_we_vote_id voter_we_vote_id : string) (read_only : bool)
  : CampaignXOwnerResults.t :=
  let status := "" in
  try_catch
    (if positive_value_exists (PStr campaignx_we_vote_id)
        && positive_value_exists (PStr voter_we_vote_id) then
       let matches (o : CampaignXOwner.t) :=
         col_exact (CampaignXOwner.campaignx_we_vote_id o) campaignx_we_vote_id
         && col_exact (CampaignXOwner.voter_we_vote_id o) voter_we_vote_id in
       let query :=
         if positive_value_exists (PBool read_only)
         then qs_filter matches (objects_all (owner_rows st))
         else qs_filter matches (objects_all (owner_rows st)) in
       campaign_owner_list <- qs_list st query ;;
       match campaign_owner_list with
       | campaignx_owner :: _ =>
           let status := status ++ "CAMPAIGNX_OWNER_FOUND_WITH_WE_VOTE_ID " in
           if (1 <? List.length campaign_owner_list)%nat then
             Ok (CampaignXOwnerResults.mk
                   (status ++ "MULTIPLE_CAMPAIGNX_OWNER_FOUND_WITH_WE_VOTE_ID-"
                           ++ "(NUMBER_FOUND: "
                           ++ str_nat (List.length campaign_owner_list) ++ ") ")
                   true (Some campaignx_owner) true false true)
           else
             Ok (CampaignXOwnerResults.mk status true (Some campaignx_owner) true
                   false false)
       | [] => Ok (CampaignXOwnerResults.mk status true None false true false)
       end
     else
       Ok (CampaignXOwnerResults.mk
             (status ++ "CAMPAIGNX_OWNER_NOT_FOUND-MISSING_VARIABLES ")
             false None false false true))
    (fun e =>
       CampaignXOwnerResults.mk
         (status ++ "CAMPAIGNX_OWNER_NOT_FOUND-ERROR: " ++ str_exn e ++ " ")
         false None false false false).

(** *** update_campaignx_owners_with_organization_change (lines 1933-1958)

    [queryset.update(...)] writes the columns of every row selected and
    returns the number of rows; [organization_name] is declared
    [null=False], so the table refuses [None] for a row. *)

Definition update_campaignx_owners_with_organization_change (st : Store)
  (organization_we_vote_id : string) (organization_name : option string)
  (we_vote_hosted_profile_image_url_medium
     we_vote_hosted_profile_image_url_tiny : option string)
  : EntriesUpdatedResults.t * Store :=
  let status := "" in
  let selected (o : CampaignXOwner.t) :=
    col_iexact (CampaignXOwner.organization_we_vote_id o) organization_we_vote_id in
  match
    (rows <- db_run st (owner_rows st) ;;
     match organization_name with
     | Some organization_name =>
         Ok (Z.of_nat (List.length (filter selected rows)),
             set_owner_rows st
               (map (fun o =>
                       if selected o then
                         SetCampaignXOwner.we_vote_hosted_profile_image_url_tiny'
                           we_vote_hosted_profile_image_url_tiny
                           (SetCampaignXOwner.we_vote_hosted_profile_image_url_medium'
                              we_vote_hosted_profile_image_url_medium
                              (SetCampaignXOwner.organization_name'
                                 organization_name o))
                       else o)
                    rows))
     | None =>
         if (0 <? List.length (filter selected rows))%nat
         then Raise (DatabaseError "null value in column organization_name")
         else Ok (0%Z, st)
     end)
  with
  | Ok (campaignx_owner_entries_updated, st) =>
      (EntriesUpdatedResults.mk true status campaignx_owner_entries_updated, st)
  | Raise e =>
      (EntriesUpdatedResults.mk false
         (status ++ "FAILED-CAMPAIGNX_OWNER_UPDATE_WITH_ORGANIZATION_CHANGE: "
                 ++ str_exn e ++ " ")
         0%Z, st)
  end.

(** *** update_campaignx_supporters_with_organization_change (lines 1960-1985) *)

Definition update_campaignx_supporters_with_organization_change (st : Store)
  (organization_we_vote_id : string) (supporter_name : option string)
  (we_vote_hosted_profile_image_url_medium
     we_vote_hosted_profile_image_url_tiny : option string)
  : EntriesUpdatedResults.t * Store :=
  let status := "" in
  let selected (s : CampaignXSupporter.t) :=
    col_iexact (CampaignXSupporter.organization_we_vote_id s) organization_we_vote_id in
  match
    (rows <- db_run st (supporter_rows st) ;;
     Ok (Z.of_nat (List.length (filter selected rows)),
         set_supporter_rows st
           (map (fun s =>
                   if selected s then
                     CampaignXSupporter.mk
                       (CampaignXSupporter.id s)
                       (CampaignXSupporter.campaign_supported s)
                       (CampaignXSupporter.campaignx_we_vote_id s)
                       (CampaignXSupporter.is_subscribed_by_email s)
                       (CampaignXSupporter.voter_we_vote_id s)
                       (CampaignXSupporter.organization_we_vote_id s)
                       supporter_name
                       (CampaignXSupporter.supporter_endorsement s)
                       we_vote_hosted_profile_image_url_medium
                       we_vote_hosted_profile_image_url_tiny
                       (CampaignXSupporter.visibility_blocked_by_we_vote s)
                       (CampaignXSupporter.visible_to_public s)
                   else s)
                rows)))
  with
  | Ok (campaignx_supporter_entries_updated, st) =>
      (EntriesUpdatedResults.mk true status campaignx_supporter_entries_updated, st)
  | Raise e =>
      (EntriesUpdatedResults.mk false
         (status ++ "FAILED-CAMPAIGNX_SUPPORTER_UPDATE_WITH_ORGANIZATION_CHANGE: "
                 ++ str_exn e ++ " ")
         0%Z, st)
  end.

End Queries.

(** ** Recommendations, in the words of the listing rules

    What a campaign has to be for the list of filler options. *)

Definition recommendable {H : Helpers} (today : Z) (exclude : list (option string))
  (c : CampaignX.t) : Prop :=
  CampaignX.in_draft_mode c = false
  /\ CampaignX.is_blocked_by_we_vote c = false
  /\ CampaignX.is_not_promoted_by_we_vote c = false
  /\ CampaignX.is_still_active c = true
  /\ is_supporters_count_minimum_exceeded c = true
  /\ (forall d, CampaignX.final_election_date_as_integer c = Some d ->
                (today + FINAL_ELECTION_DATE_COOL_DOWN < d)%Z)
  /\ (forall s, CampaignX.we_vote_id c = Some s -> ~ In (Some s) exclude).

(** ** Owners of a campaign *)

Section Owners.
Context {H : Helpers} {DB : Database} {D : OrganizationDirectory}.

(** *** update_or_create_campaignx_owner (lines 2433-2541)

    [CampaignXOwner] does not override [save], and its table declares no
    constraint a value of the columns' types can break: a write fails when
    the store does. *)

(** the assignments of lines 2488-2498 and 2514-2523 *)
Definition assign_owner_columns (organization_name organization_we_vote_id : option string)
  (visible_to_public : pyval)
  (we_vote_hosted_profile_image_url_medium
     we_vote_hosted_profile_image_url_tiny : option string)
  (campaignx_owner : CampaignXOwner.t) : CampaignXOwner.t :=
  let campaignx_owner :=
    match organization_name with
    | Some organization_name =>
        SetCampaignXOwner.organization_name' organization_name campaignx_owner
    | None => campaignx_owner
    end in
  let campaignx_owner :=
    match organization_we_vote_id with
    | Some organization_we_vote_id =>
        SetCampaignXOwner.organization_we_vote_id' (Some organization_we_vote_id)
          campaignx_owner
    | None => campaignx_owner
    end in
  let campaignx_owner :=
    match visible_to_public with
    | PNone => campaignx_owner
    | visible_to_public =>
        SetCampaignXOwner.visible_to_public'
          (positive_value_exists visible_to_public) campaignx_owner
    end in
  let campaignx_owner :=
    match we_vote_hosted_profile_image_url_medium with
    | Some url =>
        SetCampaignXOwner.we_vote_hosted_profile_image_url_medium' (Some url)
          campaignx_owner
    | None => campaignx_owner
    end in
  match we_vote_hosted_profile_image_url_tiny with
  | Some url =>
      SetCampaignXOwner.we_vote_hosted_profile_image_url_tiny' (Some url)
        campaignx_owner
  | None => campaignx_owner
  end.

(** [campaignx_owner.save()] *)
Definition save_campaignx_owner (st : Store) (campaignx_owner : CampaignXOwner.t)
  : result Store :=
  rows <- db_run st (owner_rows st) ;;
  Ok (set_owner_rows st (save_row CampaignXOwner.id campaignx_owner rows)).

(** [CampaignXOwner.objects.create(campaignx_we_vote_id=..., voter_we_vote_id=...,
    visible_to_public=True)] *)
Definition create_campaignx_owner (st : Store)
  (campaignx_we_vote_id voter_we_vote_id : string)
  : result (CampaignXOwner.t * Store) :=
  rows <- db_run st (owner_rows st) ;;
  let campaignx_owner :=
    new_campaignx_owner (next_id CampaignXOwner.id rows)
      (Some campaignx_we_vote_id) (Some voter_we_vote_id) true in
  Ok (campaignx_owner, set_owner_rows st (rows ++ [campaignx_owner])%list).

Definition update_or_create_campaignx_owner (st : Store)
  (campaignx_we_vote_id voter_we_vote_id : string)
  (organization_we_vote_id organization_name : option string)
  (visible_to_public : pyval)
  (we_vote_hosted_profile_image_url_medium
     we_vote_hosted_profile_image_url_tiny : option string)
  : OwnerUpsertResults.t * Store :=
  let status := "" in
  if negb (positive_value_exists (PStr campaignx_we_vote_id))
     || negb (positive_value_exists (PStr voter_we_vote_id)) then
    (OwnerUpsertResults.mk false
       (status ++ "MISSING_REQUIRED_VALUE_FOR_CAMPAIGNX_OWNER ")
       false false false None, st)
  else
  let campaignx_owner_created := false in
  let campaignx_owner_updated := false in
  let results :=
    retrieve_campaignx_owner st campaignx_we_vote_id voter_we_vote_id false in
  let campaignx_owner_found := CampaignXOwnerResults.campaignx_owner_found results in
  let campaignx_owner := CampaignXOwnerResults.campaignx_owner results in
  let success := CampaignXOwnerResults.success results in
  let status := status ++ CampaignXOwnerResults.status results in
  let '(organization_name, we_vote_hosted_profile_image_url_medium,
        we_vote_hosted_profile_image_url_tiny) :=
    let unchanged :=
      (organization_name, we_vote_hosted_profile_image_url_medium,
       we_vote_hosted_profile_image_url_tiny) in
    match organization_we_vote_id with
    | Some organization_we_vote_id =>
        if positive_value_exists (PStr organization_we_vote_id) then
          match retrieve_organization_from_we_vote_id organization_we_vote_id with
          | Some organization =>
              (match organization_name with
               | None => org_organization_name organization
               | Some _ => organization_name
               end,
               match we_vote_hosted_profile_image_url_medium with
               | None => org_we_vote_hosted_profile_image_url_medium organization
               | Some _ => we_vote_hosted_profile_image_url_medium
               end,
               match we_vote_hosted_profile_image_url_tiny with
               | None => org_we_vote_hosted_profile_image_url_tiny organization
               | Some _ => we_vote_hosted_profile_image_url_tiny
               end)
          | None => unchanged
          end
        else unchanged
    | None =>
        (* positive_value_exists(None) is false *)
        unchanged
    end in
  let assign :=
    assign_owner_columns organization_name organization_we_vote_id visible_to_public
      we_vote_hosted_profile_image_url_medium we_vote_hosted_profile_image_url_tiny in
  if campaignx_owner_found then
    match campaignx_owner with
    | Some campaignx_owner =>
        if match organization_name with Some _ => true | None => false end
           || match organization_we_vote_id with Some _ => true | None => false end
           || match visible_to_public with PNone => false | _ => true end
           || match we_vote_hosted_profile_image_url_medium with
              | Some _ => true
              | None => false
              end
           || match we_vote_hosted_profile_image_url_tiny with
              | Some _ => true
              | None => false
              end
        then
          let campaignx_owner := assign campaignx_owner in
          match save_campaignx_owner st campaignx_owner with
          | Ok st =>
              (OwnerUpsertResults.mk true (status ++ "CAMPAIGNX_OWNER_UPDATED ")
                 campaignx_owner_created campaignx_owner_found true
                 (Some campaignx_owner), st)
          | Raise e =>
              (OwnerUpsertResults.mk false
                 (status ++ "CAMPAIGNX_OWNER_NOT_UPDATED: " ++ str_exn e ++ " ")
                 campaignx_owner_created campaignx_owner_found
                 campaignx_owner_updated (Some (new_campaignx_owner 0 None None false)),
               st)
          end
        else
          (OwnerUpsertResults.mk success status campaignx_owner_created
             campaignx_owner_found campaignx_owner_updated (Some campaignx_owner), st)
    | None =>
        (* not reached: [retrieve_campaignx_owner] sets
           [campaignx_owner_found] together with [campaignx_owner] *)
        (OwnerUpsertResults.mk success status campaignx_owner_created
           campaignx_owner_found campaignx_owner_updated None, st)
    end
  else
    match create_campaignx_owner st campaignx_we_vote_id voter_we_vote_id with
    | Raise e =>
        (OwnerUpsertResults.mk false
           (status ++ "CAMPAIGNX_OWNER_NOT_CREATED: " ++ str_exn e ++ " ")
           campaignx_owner_created campaignx_owner_found campaignx_owner_updated
           None, st)
    | Ok (campaignx_owner, st) =>
        let campaignx_owner := assign campaignx_owner in
        match save_campaignx_owner st campaignx_owner with
        | Ok st =>
            (OwnerUpsertResults.mk true (status ++ "CAMPAIGNX_OWNER_CREATED ")
               true campaignx_owner_found campaignx_owner_updated
               (Some campaignx_owner), st)
        | Raise e =>
            (OwnerUpsertResults.mk false
               (status ++ "CAMPAIGNX_OWNER_NOT_CREATED: " ++ str_exn e ++ " ")
               campaignx_owner_created campaignx_owner_found campaignx_owner_updated
               None, st)
        end
    end.

End Owners.

(** the organization directory that knows no organization *)
#[export] Instance model_organization_directory : OrganizationDirectory := {|
  retrieve_organization_from_we_vote_id := fun _ => None
|}.

(** ** What an allocation may touch

    The tables and settings other than the path history and the count of
    random strings drawn. *)

Definition same_tables_but_paths (st st' : Store) : Prop :=
  campaignx_rows st' = campaignx_rows st
  /\ owner_rows st' = owner_rows st
  /\ supporter_rows st' = supporter_rows st
  /\ team_member_rows st' = team_member_rows st
  /\ db_error st' = db_error st
  /\ we_vote_id_last_campaignx_integer st' = we_vote_id_last_campaignx_integer st.

(** What the loops of the allocator keep: the tables, and a candidate that
    is free whenever [owned_by_another_campaignx] is false. *)
Definition allocation_invariant (st0 : Store) (v : PathVars.t) : Prop :=
  same_tables_but_paths st0 (PathVars.store v)
  /\ seo_friendly_path_rows (PathVars.store v) = seo_friendly_path_rows st0
  /\ (PathVars.owned_by_another_campaignx v = false ->
      path_taken st0 (PathVars.final_pathname_string v) = false).

(** A loop that returns has failed and has kept the tables. *)
Definition allocation_failed (st0 : Store) (r : SeoPathResults.t * Store) : Prop :=
  same_tables_but_paths st0 (snd r)
  /\ seo_friendly_path_rows (snd r) = seo_friendly_path_rows st0
  /\ SeoPathResults.seo_friendly_path_created (fst r) = false
  /\ SeoPathResults.seo_friendly_path_found (fst r) = false
  /\ SeoPathResults.success (fst r) = false.

(** ** Example stores *)

Definition empty_store : Store := mkStore [] [] [] [] [] None 0 0.

(** a store whose database connection is failing *)
Definition failing_store : Store :=
  mkStore [] [] [] [] [] (Some "connection refused") 0 0.

Definition example_supporter (id : nat) (campaign_supported : bool)
  (supporter_endorsement : option string)
  (visibility_blocked_by_we_vote visible_to_public : bool) : CampaignXSupporter.t :=
  CampaignXSupporter.mk id campaign_supported "wv02camp1" true "wv02voter1"
    (Some "wv02org1") None supporter_endorsement None None
    visibility_blocked_by_we_vote visible_to_public.

(** two supporter rows for the same campaign and voter *)
Definition duplicate_store : Store :=
  mkStore [] [] []
    [ example_supporter 1 true (Some "a") false false;
      example_supporter 2 true (Some "bbb") false true ]
    [] None 0 0.

(** a campaign that is published, active and not moderated *)
Definition example_campaignx (id : nat) (we_vote_id : string)
  (started_by_voter_we_vote_id : string) (in_draft_mode : bool)
  (supporters_count : Z) (supporters_count_minimum_ignored : bool)
  (final_election_date_as_integer : option Z) : CampaignX.t :=
  CampaignX.mk id (Some we_vote_id) None (Some "Campaign")
    final_election_date_as_integer in_draft_mode true false false false true
    false None None (Some started_by_voter_we_vote_id) supporters_count
    supporters_count_minimum_ignored 0%Z None None None None.

(** two listed campaigns, the one with fewer supporters stored first *)
Definition ordering_store : Store :=
  mkStore
    [ example_campaignx 1 "wv02camp1" "wv02voter1" false 5 false None;
      example_campaignx 2 "wv02camp2" "wv02voter2" false 10 false None ]
    [] [] [] [] None 2 0.

(** a draft started by voter 1, and a listed campaign of voter 1 whose
    election is seven days ahead of 2024-01-01 *)
Definition own_campaigns_store : Store :=
  mkStore
    [ example_campaignx 1 "wv02camp1" "wv02voter1" true 1 false None;
      example_campaignx 2 "wv02camp2" "wv02voter1" false 10 false (Some 20240108%Z) ]
    [] [] [] [] None 2 0.

(** three supporters and the waiver, and an election eight days ahead of
    2024-01-01 *)
Definition waived_campaignx : CampaignX.t :=
  example_campaignx 1 "wv02camp1" "wv02voter1" false 3 true (Some 20240109%Z).

Definition waiver_store : Store :=
  mkStore
    [ waived_campaignx;
      example_campaignx 2 "wv02camp2" "wv02voter2" false 10 false (Some 20240109%Z) ]
    [] [] [] [] None 2 0.

(** campaign 1 with a stored count of 1, and its one supporter row, which no
    longer supports it *)
Definition unsupported_store : Store :=
  mkStore
    [ example_campaignx 1 "wv02camp1" "wv02voter1" false 1 false None ]
    [] []
    [ example_supporter 1 false None false false ]
    [] None 1 0.

(** the path "campaign" belongs to campaign 1; no candidate is taken *)
Definition base_taken_store : Store :=
  mkStore []
    []
    [ CampaignXSEOFriendlyPath.mk 1 (Some "wv02camp1") "Campaign" (Some "campaign")
        None (Some "campaign") ]
    [] [] None 0 0.

(** twenty-six supporter rows for the same campaign and voter *)
Definition many_duplicates_store : Store :=
  mkStore [] [] []
    (map (fun id => example_supporter id true (Some "a") false false)
         (List.seq 1 26))
    [] None 0 0.

(** two supporter rows for the same campaign and voter, the second without
    an endorsement *)
Definition unendorsed_duplicates_store : Store :=
  mkStore [] [] []
    [ example_supporter 1 true (Some "a") false false;
      example_supporter 2 true None false true ]
    [] None 0 0.

(** three Owner rows of organization 1, the second listed before the first
    and the third not listed, and one of organization 2 *)
Definition ordered_owner_store : Store :=
  mkStore []
    [ CampaignXOwner.mk 1 (Some "wv02camp1") true (Some 2%Z) "Org One"
        (Some "wv02org1") true (Some "wv02voter1") None None;
      CampaignXOwner.mk 2 (Some "wv02camp2") true (Some 1%Z) "Org One"
        (Some "wv02org1") true (Some "wv02voter1") None None;
      CampaignXOwner.mk 3 (Some "wv02camp3") true None "Org One"
        (Some "wv02org1") true (Some "wv02voter1") None None;
      CampaignXOwner.mk 4 (Some "wv02camp4") true (Some 1%Z) "Org Two"
        (Some "wv02org2") true (Some "wv02voter2") None None ]
    [] [] [] None 0 0.

(** a campaign that has not been saved yet *)
Definition unsaved_campaignx : CampaignX.t :=
  new_campaignx 1 None (Some "Campaign") (Some "wv02voter1") 1%Z.

(** * Properties *)

(** ** The store layer *)

Lemma db_run_ok : forall A (st : Store) (x : A),
  db_error st = None -> db_run st x = Ok x.
Proof. intros A st x Hst. unfold db_run. now rewrite Hst. Qed.

Lemma db_run_failing : forall A (st : Store) (x : A) msg,
  db_error st = Some msg -> db_run st x = Raise (DatabaseError msg).
Proof. intros A st x msg Hst. unfold db_run. now rewrite Hst. Qed.

Lemma Ok_injective : forall A (a b : A), Ok a = Ok b -> a = b.
Proof. intros A a b Heq. now injection Heq. Qed.

(** ** Query sets *)

Lemma sort_rows_no_ordering : forall (DB : Database) R (l : list R),
  sort_rows [] l = l.
Proof. reflexivity. Qed.

Lemma qs_result_filter_all : forall (DB : Database) R (p : R -> bool) (rows : list R),
  qs_result (qs_filter p (objects_all rows)) = filter p rows.
Proof. reflexivity. Qed.

Lemma sort_by_keys_permutation : forall R (keys : list (R -> Z)) (l : list R),
  Permutation (sort_by_keys keys l) l.
Proof.
  intros R keys.
  assert (Hinsert : forall x l, Permutation (insert_sorted keys x l) (x :: l)).
  { intros x l. induction l as [| y l IH]; cbn; [reflexivity |].
    destruct (keys_le keys x y); [reflexivity |].
    rewrite IH. apply perm_swap. }
  induction l as [| x l IH]; cbn; [reflexivity |].
  rewrite Hinsert. now constructor.
Qed.

Lemma sort_rows_permutation : forall (DB : Database)
    R (keys : list (R -> Z)) (l : list R),
  Permutation (sort_rows keys l) l.
Proof.
  intros DB R keys l. unfold sort_rows. destruct keys as [| k keys]; [reflexivity |].
  rewrite sort_by_keys_permutation. apply ordered_scan_permutation.
Qed.

Lemma sort_rows_In : forall (DB : Database)
    R (keys : list (R -> Z)) (l : list R) (x : R),
  In x (sort_rows keys l) <-> In x l.
Proof.
  intros DB R keys l x. split; apply Permutation_in;
    [| symmetry]; apply sort_rows_permutation.
Qed.

Lemma sort_rows_length : forall (DB : Database) R (keys : list (R -> Z)) (l : list R),
  List.length (sort_rows keys l) = List.length l.
Proof. intros. apply Permutation_length, sort_rows_permutation. Qed.

(** one row has one order *)
Lemma sort_rows_singleton : forall (DB : Database) R (keys : list (R -> Z)) (x : R),
  sort_rows keys [x] = [x].
Proof.
  intros DB R keys x. apply Permutation_length_1_inv. symmetry.
  apply sort_rows_permutation.
Qed.

(** the same, in the form the rows of an ordered query take once
    [sort_rows] is unfolded *)
Lemma ordered_rows_In : forall (DB : Database) R k (keys : list (R -> Z)) (l : list R)
    (x : R),
  In x (sort_by_keys (k :: keys) (ordered_scan (k :: keys) l)) <-> In x l.
Proof. intros DB R k keys l x. apply (sort_rows_In DB (k :: keys)). Qed.

Lemma ordered_rows_length : forall (DB : Database) R k (keys : list (R -> Z))
    (l : list R),
  List.length (sort_by_keys (k :: keys) (ordered_scan (k :: keys) l)) = List.length l.
Proof. intros DB R k keys l. apply (sort_rows_length DB (k :: keys)). Qed.

(** ** Store failures in the ownership queries *)

(** C10.  The specification states that no exception leaves an operation when the store
    layer fails.  The ownership queries guard their store calls with
    [except CampaignXOwner] and [except OrganizationTeamMember], which name
    model classes: while the store layer is failing, a call of
    [is_voter_campaignx_owner] or of
    [retrieve_voter_can_send_updates_campaignx_we_vote_ids] ends with a
    [TypeError] that reaches the caller, whatever the arguments. *)
Theorem C10_owner_queries_let_store_failure_escape :
  forall (H : Helpers) (DB : Database)
      (st : Store) (campaignx_we_vote_id voter_we_vote_id msg : string),
    db_error st = Some msg ->
    is_voter_campaignx_owner st campaignx_we_vote_id voter_we_vote_id
      = Raise (TypeError catching_a_model_class)
    /\ retrieve_voter_can_send_updates_campaignx_we_vote_ids st voter_we_vote_id
      = Raise (TypeError catching_a_model_class).
Proof.
  intros H DB st c v msg Hst. split.
  - unfold is_voter_campaignx_owner, qs_count.
    now rewrite (db_run_failing _ _ Hst).
  - unfold retrieve_voter_can_send_updates_campaignx_we_vote_ids,
      owner_campaignx_we_vote_ids.
    now rewrite (db_run_failing _ _ Hst).
Qed.

Lemma C10_owner_queries_let_store_failure_escape_witness :
  db_error failing_store = Some "connection refused"
  /\ is_voter_campaignx_owner (H := model_helpers) (DB := model_database)
      failing_store "wv02camp1" "wv02voter1"
     = Raise (TypeError catching_a_model_class)
  /\ retrieve_voter_can_send_updates_campaignx_we_vote_ids
       failing_store "wv02voter1"
     = Raise (TypeError catching_a_model_class).
Proof.
  split; [reflexivity |].
  apply (@C10_owner_queries_let_store_failure_escape model_helpers model_database
      failing_store
           "wv02camp1" "wv02voter1" "connection refused").
  reflexivity.
Defined.

(** ** Lookup of a supporter that has duplicate rows *)

Lemma repair_returns_repair_results :
  forall (H : Helpers) (DB : Database) st campaignx_we_vote_id voter_we_vote_id,
  exists status success found st',
    repair_campaignx_supporter st campaignx_we_vote_id voter_we_vote_id
    = (repair_results status success found, st').
Proof.
  intros H DB st c v. unfold repair_campaignx_supporter.
  repeat match goal with
         | |- context [match ?x with _ => _ end] => destruct x
         | |- context [if ?x then _ else _] => destruct x
         end; repeat eexists.
Qed.

Lemma retrieve_body_returns_supporter_results :
  forall (H : Helpers) (DB : Database)
      self st campaignx_we_vote_id voter_we_vote_id read_only
         recursion_ok,
  exists status success supporter found st',
    retrieve_campaignx_supporter_body self st campaignx_we_vote_id
      voter_we_vote_id read_only recursion_ok
    = (supporter_results status success supporter found, st').
Proof.
  intros H DB self st c v ro rok. unfold retrieve_campaignx_supporter_body.
  repeat match goal with
         | |- context [match ?x with _ => _ end] => destruct x
         | |- context [if ?x then _ else _] => destruct x
         end; repeat eexists.
Qed.

(** C9.  The specification states that a lookup that finds more than one row repairs
    them, looks again and returns the single row with success.  The method
    reads the second lookup under the keys ['campaign_supporter_found'] and
    ['campaign_supporter'], which the result dictionary does not have (its
    keys are ['campaignx_supporter_found'] and ['campaignx_supporter']): the
    [KeyError] is caught by the method's own handler, and whenever two or
    more rows match, the lookup returns [success = False], no supporter and
    [campaignx_supporter_found = False]. *)
Theorem C9_lookup_with_duplicates_fails :
  forall (H : Helpers) (DB : Database) (st : Store)
         (campaignx_we_vote_id voter_we_vote_id : string) (read_only : bool),
    (2 <= List.length
            (filter
               (fun s =>
                  String.eqb (CampaignXSupporter.campaignx_we_vote_id s)
                             campaignx_we_vote_id
                  && String.eqb (CampaignXSupporter.voter_we_vote_id s)
                                voter_we_vote_id)
               (supporter_rows st)))%nat ->
    let results :=
      fst (retrieve_campaignx_supporter st campaignx_we_vote_id voter_we_vote_id
             read_only true) in
    dict_get results "success" = Ok (PBool false)
    /\ dict_get results "campaignx_supporter" = Ok PNone
    /\ dict_get results "campaignx_supporter_found" = Ok (PBool false).
Proof.
  intros H DB st c v ro Hdup. cbv zeta.
  unfold retrieve_campaignx_supporter, retrieve_campaignx_supporter_body.
  destruct (positive_value_exists (PStr c) && positive_value_exists (PStr v));
    [| now cbn].
  unfold qs_list, db_run. destruct (db_error st); [now cbn |].
  assert (Hrows :
    qs_result
      (qs_filter
         (fun s =>
            String.eqb (CampaignXSupporter.campaignx_we_vote_id s) c
            && String.eqb (CampaignXSupporter.voter_we_vote_id s) v)
         (if ro then objects_all (supporter_rows st)
          else objects_all (supporter_rows st)))
    = filter
        (fun s =>
           String.eqb (CampaignXSupporter.campaignx_we_vote_id s) c
           && String.eqb (CampaignXSupporter.voter_we_vote_id s) v)
        (supporter_rows st)).
  { destruct ro; apply qs_result_filter_all. }
  rewrite Hrows.
  destruct (filter _ (supporter_rows st)) as [| first [| second others]];
    cbn in Hdup; try lia.
  rewrite positive_value_exists_bool.
  destruct (repair_returns_repair_results H DB st c v)
    as (status & success & found & st' & Hrepair).
  rewrite Hrepair. cbn [dict_get dict_find repair_results String.eqb Ascii.eqb
                         Bool.eqb bind as_str].
  destruct (retrieve_body_returns_supporter_results H DB (fun st _ _ _ _ => ([], st))
              st' c v ro false)
    as (status2 & success2 & supporter2 & found2 & st2 & Hsecond).
  unfold retrieve_campaignx_supporter_second. rewrite Hsecond.
  now cbn.
Qed.

Lemma C9_lookup_with_duplicates_fails_witness :
  let results :=
    fst (retrieve_campaignx_supporter (H := model_helpers) (DB := model_database)
        duplicate_store
           "wv02camp1" "wv02voter1" false true) in
  dict_get results "success" = Ok (PBool false)
  /\ dict_get results "campaignx_supporter" = Ok PNone
  /\ dict_get results "campaignx_supporter_found" = Ok (PBool false).
Proof.
  apply (@C9_lookup_with_duplicates_fails model_helpers model_database duplicate_store
           "wv02camp1" "wv02voter1" false).
  vm_compute. lia.
Defined.

Lemma keys_le_single : forall R (k : R -> Z) (a b : R),
  keys_le [k] a b = (k a <=? k b)%Z.
Proof.
  intros R k a b. cbn.
  destruct (Z.ltb_spec (k a) (k b)), (Z.ltb_spec (k b) (k a)),
    (Z.leb_spec (k a) (k b)); try reflexivity; lia.
Qed.

Lemma insert_sorted_In : forall R keys (x y : R) l,
  In y (insert_sorted keys x l) <-> y = x \/ In y l.
Proof.
  intros R keys x y l. induction l as [| z l IH]; cbn.
  - intuition congruence.
  - destruct (keys_le keys x z); cbn; [intuition congruence |].
    rewrite IH. intuition congruence.
Qed.

Lemma sort_by_keys_sorted : forall R (k : R -> Z) (l : list R),
  StronglySorted (fun a b => (k a <= k b)%Z) (sort_by_keys [k] l).
Proof.
  intros R k.
  assert (Hinsert : forall x l,
    StronglySorted (fun a b => (k a <= k b)%Z) l ->
    StronglySorted (fun a b => (k a <= k b)%Z) (insert_sorted [k] x l)).
  { intros x l Hl. induction Hl as [| y l Hl IH Hy]; cbn [insert_sorted].
    - repeat constructor.
    - rewrite keys_le_single. destruct (Z.leb_spec (k x) (k y)).
      + constructor; [now constructor |]. constructor; [assumption |].
        rewrite Forall_forall in Hy |- *. intros z Hz. specialize (Hy z Hz). lia.
      + constructor; [assumption |]. rewrite Forall_forall in Hy |- *.
        intros z Hz. apply insert_sorted_In in Hz. destruct Hz as [-> | Hz];
          [lia | now apply Hy]. }
  induction l as [| x l IH]; cbn; [constructor | now apply Hinsert].
Qed.

(** an ordered query yields its rows in the order of the key, whatever the
    database does with the rows that tie *)
Lemma sort_rows_sorted : forall (DB : Database) R (k : R -> Z) (l : list R),
  StronglySorted (fun a b => (k a <= k b)%Z) (sort_rows [k] l).
Proof. intros DB R k l. apply sort_by_keys_sorted. Qed.

(** in an ordered list a row with a smaller key stands before a row with a
    greater one *)
Lemma strongly_sorted_precedes : forall R (k : R -> Z) (l : list R) (a b : R),
  StronglySorted (fun x y => (k x <= k y)%Z) l ->
  In a l -> In b l -> (k a < k b)%Z ->
  exists before between after, l = (before ++ a :: between ++ b :: after)%list.
Proof.
  intros R k l a b Hsorted. induction Hsorted as [| x l Hl IH Hx];
    intros Ha Hb Hlt; [contradiction |].
  rewrite Forall_forall in Hx.
  destruct Ha as [-> | Ha].
  - destruct Hb as [-> | Hb]; [lia |].
    apply in_split in Hb as (between & after & ->).
    now exists [], between, after.
  - destruct Hb as [-> | Hb]; [specialize (Hx a Ha); lia |].
    destruct (IH Ha Hb Hlt) as (before & between & after & ->).
    now exists (x :: before), between, after.
Qed.

(** ** The public listing *)

(** The listing without a started-by voter, on a store that answers: the
    rows that pass [listing_filter], ordered by the last [order_by] alone,
    cut at [limit]. *)
Lemma retrieve_campaignx_list_public :
  forall (H : Helpers) (DB : Database) st today voter limit read_only,
    db_error st = None ->
    positive_value_exists (py_opt_str voter) = false ->
    (0 <= limit)%Z ->
    retrieve_campaignx_list st today voter limit read_only
    = let rows :=
        firstn (Z.to_nat limit)
          (sort_rows [fun c => desc_bool (CampaignX.in_draft_mode c)]
             (filter (listing_filter (today + FINAL_ELECTION_DATE_COOL_DOWN))
                     (campaignx_rows st))) in
      Ok (CampaignXListResults.mk true "RETRIEVE_CAMPAIGNX_LIST_SUCCEEDED "
            (positive_value_exists (PInt (Z.of_nat (List.length rows))))
            (map (fun c => ListedCampaignX.mk c true) rows) [] []).
Proof.
  intros H DB st today voter limit ro Hst Hvoter Hlimit.
  unfold retrieve_campaignx_list. rewrite Hvoter.
  unfold qs_slice, bind. destruct (Z.ltb_spec limit 0); [lia |].
  unfold qs_list. rewrite !(db_run_ok _ _ Hst).
  destruct ro; reflexivity.
Qed.

(** The listing for a started-by voter, on a store that answers: the rows
    the voter started, the rows of the campaigns the voter owns and the rows
    that pass [listing_filter], ordered by the last [order_by] alone, cut
    at [limit]. *)
Lemma retrieve_campaignx_list_for_a_voter :
  forall (H : Helpers) (DB : Database) st today voter limit read_only,
    db_error st = None ->
    positive_value_exists (PStr voter) = true ->
    (0 <= limit)%Z ->
    exists owned,
      retrieve_campaignx_list st today (Some voter) limit read_only
      = let rows :=
          firstn (Z.to_nat limit)
            (sort_rows [fun c => desc_bool (CampaignX.in_draft_mode c)]
               (filter
                  (fun c =>
                     listing_filter (today + FINAL_ELECTION_DATE_COOL_DOWN) c
                     || col_iexact (CampaignX.started_by_voter_we_vote_id c) voter
                     || col_in (CampaignX.we_vote_id c) owned)
                  (campaignx_rows st))) in
        Ok (CampaignXListResults.mk true "RETRIEVE_CAMPAIGNX_LIST_SUCCEEDED "
              (positive_value_exists (PInt (Z.of_nat (List.length rows))))
              (map (fun c => ListedCampaignX.mk c true) rows) [] []).
Proof.
  intros H DB st today voter limit ro Hst Hvoter Hlimit.
  assert (Howned : exists owned,
             retrieve_voter_owned_campaignx_we_vote_ids st voter = Ok owned).
  { unfold retrieve_voter_owned_campaignx_we_vote_ids, owner_campaignx_we_vote_ids,
      team_organization_we_vote_ids.
    rewrite !(db_run_ok _ _ Hst). cbn [bind try_except_model_class].
    destruct (0 <? _)%nat; [rewrite (db_run_ok _ _ Hst) |];
      cbn [bind try_except_model_class]; eauto. }
  destruct Howned as (owned & Howned). exists owned.
  unfold retrieve_campaignx_list. cbn [py_opt_str]. rewrite Hvoter, Howned.
  unfold qs_slice, bind. destruct (Z.ltb_spec limit 0); [lia |].
  unfold qs_list. rewrite !(db_run_ok _ _ Hst).
  destruct ro; reflexivity.
Qed.

(** C8.  The specification states that the listing is ordered by descending
    [supporters_count], then by descending draft status.  The method calls
    [order_by('-supporters_count')] and then [order_by('-in_draft_mode')]; the
    second call replaces the ordering of the first, and the count of
    supporters orders nothing.  Whatever the database does with rows that
    tie: in the listing made for a voter on a store that answers, a draft
    this voter started stands before every published campaign the listing
    returns, also before one that has more supporters, as long as [limit]
    does not cut the list. *)
Theorem C8_listing_is_not_ordered_by_supporters_count :
  forall (H : Helpers) (DB : Database) (st : Store) (today : Z) (voter : string)
         (limit : Z) (read_only : bool) (draft published : CampaignX.t),
    db_error st = None ->
    positive_value_exists (PStr voter) = true ->
    In draft (campaignx_rows st) ->
    CampaignX.in_draft_mode draft = true ->
    col_iexact (CampaignX.started_by_voter_we_vote_id draft) voter = true ->
    In published (campaignx_rows st) ->
    CampaignX.in_draft_mode published = false ->
    listing_filter (today + FINAL_ELECTION_DATE_COOL_DOWN) published = true
    \/ col_iexact (CampaignX.started_by_voter_we_vote_id published) voter = true ->
    (CampaignX.supporters_count draft < CampaignX.supporters_count published)%Z ->
    (Z.of_nat (List.length (campaignx_rows st)) <= limit)%Z ->
    exists results before between after,
      retrieve_campaignx_list st today (Some voter) limit read_only = Ok results
      /\ map ListedCampaignX.campaignx (CampaignXListResults.campaignx_list results)
         = (before ++ draft :: between ++ published :: after)%list.
Proof.
  intros H DB st today voter limit ro draft published Hst Hvoter Hdraft Hmode
    Hstarted Hpublished Hmode' Hselected _ Hlimit.
  assert (Hpos : (0 <= limit)%Z) by lia.
  destruct (@retrieve_campaignx_list_for_a_voter H DB st today voter limit ro Hst Hvoter
              Hpos)
    as (owned & ->).
  cbv zeta. eexists.
  set (selected := filter _ (campaignx_rows st)).
  set (key := fun c => desc_bool (CampaignX.in_draft_mode c)).
  assert (Hall : firstn (Z.to_nat limit) (sort_rows [key] selected)
                 = sort_rows [key] selected).
  { apply firstn_all2. rewrite sort_rows_length. unfold selected.
    pose proof (filter_length_le
                  (fun c =>
                     listing_filter (today + FINAL_ELECTION_DATE_COOL_DOWN) c
                     || col_iexact (CampaignX.started_by_voter_we_vote_id c) voter
                     || col_in (CampaignX.we_vote_id c) owned)
                  (campaignx_rows st)).
    lia. }
  rewrite Hall.
  destruct (@strongly_sorted_precedes _ key (sort_rows [key] selected) draft published)
    as (before & between & after & Hrows).
  - apply sort_rows_sorted.
  - apply sort_rows_In, filter_In. split; [assumption |].
    rewrite Hstarted. now rewrite orb_true_r.
  - apply sort_rows_In, filter_In. split; [assumption |].
    destruct Hselected as [-> | ->]; [reflexivity | now rewrite orb_true_r].
  - unfold key. rewrite Hmode, Hmode'. reflexivity.
  - exists before, between, after. split; [reflexivity |].
    cbn [CampaignXListResults.campaignx_list]. rewrite map_map. cbn.
    rewrite map_id. exact Hrows.
Qed.

Lemma C8_listing_is_not_ordered_by_supporters_count_witness :
  exists results before between after,
    retrieve_campaignx_list (H := model_helpers) (DB := model_database)
      own_campaigns_store 20240101 (Some "wv02voter1") 25 true = Ok results
    /\ map ListedCampaignX.campaignx (CampaignXListResults.campaignx_list results)
       = (before
            ++ example_campaignx 1 "wv02camp1" "wv02voter1" true 1 false None
            :: between
            ++ example_campaignx 2 "wv02camp2" "wv02voter1" false 10 false
                 (Some 20240108%Z)
            :: after)%list.
Proof.
  apply (@C8_listing_is_not_ordered_by_supporters_count model_helpers model_database
           own_campaigns_store 20240101 "wv02voter1" 25 true).
  - reflexivity.
  - reflexivity.
  - simpl. left. reflexivity.
  - reflexivity.
  - reflexivity.
  - simpl. right. left. reflexivity.
  - reflexivity.
  - right. reflexivity.
  - reflexivity.
  - vm_compute. discriminate.
Defined.

Lemma In_firstn_In : forall A (n : nat) (l : list A) (x : A),
  In x (firstn n l) -> In x l.
Proof.
  intros A n l x Hin. rewrite <- (firstn_skipn n l). apply in_or_app. now left.
Qed.

(** What a listing without a started-by voter returns passes the filter. *)
Lemma public_listing_members :
  forall (H : Helpers) (DB : Database) st today voter limit read_only results listed,
    positive_value_exists (py_opt_str voter) = false ->
    retrieve_campaignx_list st today voter limit read_only = Ok results ->
    In listed (CampaignXListResults.campaignx_list results) ->
    In (ListedCampaignX.campaignx listed) (campaignx_rows st)
    /\ listing_filter (today + FINAL_ELECTION_DATE_COOL_DOWN)
         (ListedCampaignX.campaignx listed) = true.
Proof.
  intros H DB st today voter limit ro results listed Hvoter Hrun Hin.
  destruct (Z.ltb_spec limit 0) as [Hneg | Hpos].
  - (* the slice is refused: the handler leaves the empty list *)
    unfold retrieve_campaignx_list in Hrun. rewrite Hvoter in Hrun.
    unfold qs_slice, bind in Hrun.
    destruct (Z.ltb_spec limit 0); [| lia].
    destruct ro; cbn in Hrun; inversion Hrun; subst; cbn in Hin; contradiction.
  - destruct (db_error st) as [msg |] eqn:Hst.
    + (* the iteration after the handler raises again *)
      unfold retrieve_campaignx_list in Hrun. rewrite Hvoter in Hrun.
      unfold qs_slice, bind, qs_list in Hrun.
      destruct (Z.ltb_spec limit 0); [lia |].
      rewrite !(db_run_failing _ _ Hst) in Hrun.
      destruct ro; cbn in Hrun; rewrite (db_run_failing _ _ Hst) in Hrun;
        discriminate.
    + rewrite (retrieve_campaignx_list_public H DB _ _ _ ro Hst Hvoter Hpos) in Hrun.
      cbv zeta in Hrun. apply Ok_injective in Hrun. subst results.
      cbn [CampaignXListResults.campaignx_list] in Hin.
      rewrite in_map_iff in Hin. destruct Hin as (c & <- & Hc).
      cbn [ListedCampaignX.campaignx].
      apply In_firstn_In in Hc. rewrite sort_rows_In in Hc.
      apply filter_In in Hc. exact Hc.
Qed.

(** C6 (amended).  In a listing made without search text, state filter or
    started-by voter, every campaign returned is out of draft mode, not
    blocked, and has at least 5 supporters or the waiver; and on a store that
    answers, a campaign that passes the moderation and election-date gates and
    carries the waiver is returned whatever its supporters count, as long as
    [limit] does not cut the list. *)
Theorem C6_public_listing_gates :
  forall (H : Helpers) (DB : Database) (st : Store) (today : Z) (voter : option string)
         (limit : Z) (read_only : bool),
    positive_value_exists (py_opt_str voter) = false ->
    (forall results listed,
       retrieve_campaignx_list st today voter limit read_only = Ok results ->
       In listed (CampaignXListResults.campaignx_list results) ->
       CampaignX.in_draft_mode (ListedCampaignX.campaignx listed) = false
       /\ CampaignX.is_blocked_by_we_vote (ListedCampaignX.campaignx listed) = false
       /\ ((5 <= CampaignX.supporters_count (ListedCampaignX.campaignx listed))%Z
           \/ CampaignX.supporters_count_minimum_ignored
                (ListedCampaignX.campaignx listed) = true))
    /\ (forall c,
          db_error st = None ->
          In c (campaignx_rows st) ->
          moderation_gate c = true ->
          election_date_gate (today + FINAL_ELECTION_DATE_COOL_DOWN) c = true ->
          CampaignX.supporters_count_minimum_ignored c = true ->
          (Z.of_nat (List.length
                       (filter (listing_filter (today + FINAL_ELECTION_DATE_COOL_DOWN))
                               (campaignx_rows st))) <= limit)%Z ->
          exists results,
            retrieve_campaignx_list st today voter limit read_only = Ok results
            /\ In (ListedCampaignX.mk c true)
                  (CampaignXListResults.campaignx_list results)).
Proof.
  intros H DB st today voter limit ro Hvoter. split.
  - intros results listed Hrun Hin.
    destruct (public_listing_members H DB _ _ _ _ _ _ Hvoter Hrun Hin) as [_ Hf].
    unfold listing_filter in Hf.
    apply andb_true_iff in Hf. destruct Hf as [Hf _].
    apply andb_true_iff in Hf. destruct Hf as [Hmod Hsupp].
    unfold moderation_gate in Hmod.
    repeat (apply andb_true_iff in Hmod; destruct Hmod as [Hmod ?]).
    unfold supporters_gate, SUPPORTERS_COUNT_MINIMUM_FOR_LISTING in Hsupp.
    apply orb_true_iff in Hsupp.
    repeat split.
    + now apply negb_true_iff.
    + now apply negb_true_iff.
    + destruct Hsupp as [Hsupp | Hsupp]; [left; now apply Z.leb_le | now right].
  - intros c Hst Hc Hmod Hdate Hwaiver Hlimit.
    assert (0 <= limit)%Z by lia.
    rewrite (retrieve_campaignx_list_public H DB _ _ _ ro Hst Hvoter) by assumption.
    cbv zeta. eexists; split; [reflexivity |]. cbn.
    apply (in_map (fun c => ListedCampaignX.mk c true)). rewrite firstn_all2.
    + apply ordered_rows_In, filter_In. split; [assumption |].
      unfold listing_filter, supporters_gate.
      rewrite Hmod, Hdate, Hwaiver. now rewrite orb_true_r.
    + rewrite ordered_rows_length. lia.
Qed.

Lemma C6_public_listing_gates_witness :
  exists results,
    retrieve_campaignx_list (H := model_helpers) (DB := model_database)
        waiver_store 20240101 None 25 true
    = Ok results
    /\ In (ListedCampaignX.mk waived_campaignx true)
          (CampaignXListResults.campaignx_list results).
Proof.
  apply (proj2 (@C6_public_listing_gates model_helpers model_database
      waiver_store 20240101 None
                  25 true eq_refl) waived_campaignx).
  - reflexivity.
  - simpl. left. reflexivity.
  - reflexivity.
  - reflexivity.
  - reflexivity.
  - vm_compute. discriminate.
Defined.

(** C6, as stated, fails: called with a started-by voter and no search text
    or state filter, the listing returns that voter's draft. *)
Lemma C6_counterexample_own_draft_is_listed :
  exists results listed,
    retrieve_campaignx_list (H := model_helpers) (DB := model_database)
        own_campaigns_store 20240101
      (Some "wv02voter1") 25 true = Ok results
    /\ In listed (CampaignXListResults.campaignx_list results)
    /\ CampaignX.in_draft_mode (ListedCampaignX.campaignx listed) = true.
Proof.
  eexists. eexists. split; [vm_compute; reflexivity |].
  split; [simpl; left; reflexivity | reflexivity].
Qed.

(** C7 (amended).  In a listing made without search text, state filter or
    started-by voter, no campaign returned has its
    [final_election_date_as_integer] equal to today's date-as-integer plus 7;
    and on a store that answers, a campaign that passes the moderation and
    supporters gates and whose date is today's date-as-integer plus 8 is
    returned, as long as [limit] does not cut the list. *)
Theorem C7_election_date_cool_down :
  forall (H : Helpers) (DB : Database) (st : Store) (today : Z) (voter : option string)
         (limit : Z) (read_only : bool),
    positive_value_exists (py_opt_str voter) = false ->
    (forall results listed,
       retrieve_campaignx_list st today voter limit read_only = Ok results ->
       In listed (CampaignXListResults.campaignx_list results) ->
       CampaignX.final_election_date_as_integer (ListedCampaignX.campaignx listed)
       <> Some (today + 7)%Z)
    /\ (forall c,
          db_error st = None ->
          In c (campaignx_rows st) ->
          moderation_gate c = true ->
          supporters_gate c = true ->
          CampaignX.final_election_date_as_integer c = Some (today + 8)%Z ->
          (Z.of_nat (List.length
                       (filter (listing_filter (today + FINAL_ELECTION_DATE_COOL_DOWN))
                               (campaignx_rows st))) <= limit)%Z ->
          exists results,
            retrieve_campaignx_list st today voter limit read_only = Ok results
            /\ In (ListedCampaignX.mk c true)
                  (CampaignXListResults.campaignx_list results)).
Proof.
  intros H DB st today voter limit ro Hvoter. split.
  - intros results listed Hrun Hin Hdate.
    destruct (public_listing_members H DB _ _ _ _ _ _ Hvoter Hrun Hin) as [_ Hf].
    unfold listing_filter in Hf.
    apply andb_true_iff in Hf. destruct Hf as [_ Hgate].
    unfold election_date_gate, FINAL_ELECTION_DATE_COOL_DOWN in Hgate.
    rewrite Hdate in Hgate. apply Z.ltb_lt in Hgate. lia.
  - intros c Hst Hc Hmod Hsupp Hdate Hlimit.
    assert (0 <= limit)%Z by lia.
    rewrite (retrieve_campaignx_list_public H DB _ _ _ ro Hst Hvoter) by assumption.
    cbv zeta. eexists; split; [reflexivity |]. cbn.
    apply (in_map (fun c => ListedCampaignX.mk c true)). rewrite firstn_all2.
    + apply ordered_rows_In, filter_In. split; [assumption |].
      unfold listing_filter, election_date_gate, FINAL_ELECTION_DATE_COOL_DOWN.
      rewrite Hmod, Hsupp, Hdate. cbn. apply Z.ltb_lt. lia.
    + rewrite ordered_rows_length. lia.
Qed.

Lemma C7_election_date_cool_down_witness :
  exists results,
    retrieve_campaignx_list (H := model_helpers) (DB := model_database)
        waiver_store 20240101 None 25 true
    = Ok results
    /\ In (ListedCampaignX.mk waived_campaignx true)
          (CampaignXListResults.campaignx_list results).
Proof.
  apply (proj2 (@C7_election_date_cool_down model_helpers model_database
      waiver_store 20240101
                  None 25 true eq_refl) waived_campaignx).
  - reflexivity.
  - simpl. left. reflexivity.
  - reflexivity.
  - reflexivity.
  - reflexivity.
  - vm_compute. discriminate.
Defined.

(** C7, as stated, fails twice: called with a started-by voter, the listing
    returns that voter's campaign whose election is seven days ahead; and
    with [limit = 1] a campaign whose election is eight days ahead, and that
    passes every gate, is cut from the list. *)
Lemma C7_counterexample_own_campaign_and_limit :
  (exists results listed,
     retrieve_campaignx_list (H := model_helpers) (DB := model_database)
         own_campaigns_store 20240101
       (Some "wv02voter1") 25 true = Ok results
     /\ In listed (CampaignXListResults.campaignx_list results)
     /\ CampaignX.final_election_date_as_integer (ListedCampaignX.campaignx listed)
        = Some (20240101 + 7)%Z)
  /\ (exists results c,
        retrieve_campaignx_list (H := model_helpers) (DB := model_database)
            waiver_store 20240101 None 1 true
        = Ok results
        /\ In c (campaignx_rows waiver_store)
        /\ listing_filter (20240101 + FINAL_ELECTION_DATE_COOL_DOWN) c = true
        /\ CampaignX.final_election_date_as_integer c = Some (20240101 + 8)%Z
        /\ ~ In c (map ListedCampaignX.campaignx
                       (CampaignXListResults.campaignx_list results))).
Proof.
  split.
  - eexists. eexists. split; [vm_compute; reflexivity |].
    split; [simpl; right; left; reflexivity | reflexivity].
  - eexists. exists waived_campaignx.
    split; [vm_compute; reflexivity |].
    split; [simpl; left; reflexivity |].
    split; [reflexivity |]. split; [reflexivity |].
    simpl. intros [Heq | []]. discriminate Heq.
Qed.

(** ** Ownership *)

Lemma count_positive : forall R (p : R -> bool) (l : list R),
  (0 <? Z.of_nat (List.length (filter p l)))%Z = true
  <-> exists x, In x l /\ p x = true.
Proof.
  intros R p l. split.
  - intro Hpos. destruct (filter p l) as [| x l'] eqn:Hf; [discriminate |].
    exists x. apply filter_In. rewrite Hf. now left.
  - intros (x & Hin & Hp).
    assert (Hx : In x (filter p l)) by now apply filter_In.
    destruct (filter p l); [contradiction | reflexivity].
Qed.

Lemma length_positive : forall A (l : list A),
  (0 <? List.length l)%nat = true <-> exists x, In x l.
Proof.
  intros A [| x l]; cbn; split; try discriminate.
  - intros (x & []).
  - intros _. exists x. now left.
  - reflexivity.
Qed.

Lemma col_in_spec : forall col values,
  col_in col values = true <-> exists s, col = Some s /\ In (Some s) values.
Proof.
  intros [s |] values; cbn.
  - rewrite existsb_exists. split.
    + intros ([t |] & Hin & Heq); [| discriminate].
      apply String.eqb_eq in Heq. subst t. now exists s.
    + intros (t & [= <-] & Hin). exists (Some s). split; [assumption |].
      apply String.eqb_refl.
  - split; [discriminate | intros (s & [=] & _)].
Qed.

Lemma In_distinct : forall l x, In x (distinct l) <-> In x l.
Proof. intros. apply nodup_In. Qed.

Lemma In_set_union : forall a b x, In x (set_union a b) <-> In x a \/ In x b.
Proof.
  intros. unfold set_union. rewrite nodup_In. apply in_app_iff.
Qed.

(** the teams of a voter, as both queries compute them *)
Lemma In_teams : forall (st : Store) (u : string) (org : option string),
  In org
     (distinct
        (map OrganizationTeamMember.organization_we_vote_id
             (filter
                (fun m =>
                   col_iexact (OrganizationTeamMember.voter_we_vote_id m) u
                   && has_any_campaignx_right m)
                (team_member_rows st))))
  <-> exists m,
        In m (team_member_rows st)
        /\ col_iexact (OrganizationTeamMember.voter_we_vote_id m) u = true
        /\ has_any_campaignx_right m = true
        /\ OrganizationTeamMember.organization_we_vote_id m = org.
Proof.
  intros st u org. rewrite In_distinct, in_map_iff. split.
  - intros (m & Horg & Hm). apply filter_In in Hm. destruct Hm as [Hin Hp].
    apply andb_true_iff in Hp. exists m. tauto.
  - intros (m & Hin & Hu & Hr & Horg). exists m. split; [assumption |].
    apply filter_In. split; [assumption |]. now rewrite Hu, Hr.
Qed.

(** [is_voter_campaignx_owner] on a store that answers *)
Lemma is_voter_campaignx_owner_answers :
  forall (H : Helpers) (DB : Database) st c u,
    db_error st = None ->
    is_voter_campaignx_owner st c u
    = Ok (if (0 <? Z.of_nat
                     (List.length
                        (filter
                           (fun o =>
                              col_iexact (CampaignXOwner.campaignx_we_vote_id o) c
                              && col_iexact (CampaignXOwner.voter_we_vote_id o) u)
                           (owner_rows st))))%Z
          then true
          else if (0 <? List.length (teams_of st u))%nat
               then (0 <? Z.of_nat
                            (List.length
                               (filter
                                  (fun o =>
                                     col_iexact (CampaignXOwner.campaignx_we_vote_id o) c
                                     && col_in (CampaignXOwner.organization_we_vote_id o)
                                               (teams_of st u))
                                  (owner_rows st))))%Z
               else false).
Proof.
  intros H DB st c u Hst. unfold is_voter_campaignx_owner, qs_count,
    team_organization_we_vote_ids.
  rewrite !qs_result_filter_all, !(db_run_ok _ _ Hst).
  cbn [bind try_except_model_class]. rewrite !positive_value_exists_int.
  fold (teams_of st u).
  destruct (0 <? Z.of_nat _)%Z; cbn [negb andb]; [reflexivity |].
  destruct (0 <? List.length (teams_of st u))%nat; [| reflexivity].
  rewrite qs_result_filter_all, (db_run_ok _ _ Hst).
  cbn [bind try_except_model_class]. now rewrite positive_value_exists_int.
Qed.

(** [retrieve_voter_owned_campaignx_we_vote_ids] on a store that answers *)
Lemma retrieve_voter_owned_answers :
  forall st u,
    db_error st = None ->
    retrieve_voter_owned_campaignx_we_vote_ids st u
    = Ok (set_union
            (distinct
               (map CampaignXOwner.campaignx_we_vote_id
                    (filter
                       (fun o => col_iexact (CampaignXOwner.voter_we_vote_id o) u)
                       (owner_rows st))))
            (if (0 <? List.length (teams_of st u))%nat
             then distinct
                    (map CampaignXOwner.campaignx_we_vote_id
                         (filter
                            (fun o =>
                               col_in (CampaignXOwner.organization_we_vote_id o)
                                      (teams_of st u))
                            (owner_rows st)))
             else [])).
Proof.
  intros st u Hst. unfold retrieve_voter_owned_campaignx_we_vote_ids,
    owner_campaignx_we_vote_ids, team_organization_we_vote_ids.
  rewrite !(db_run_ok _ _ Hst). cbn [bind try_except_model_class].
  fold (teams_of st u).
  destruct (0 <? List.length (teams_of st u))%nat; [| reflexivity].
  now rewrite (db_run_ok _ _ Hst).
Qed.

Lemma In_teams_of : forall st u org,
  In org (teams_of st u)
  <-> exists m,
        In m (team_member_rows st)
        /\ col_iexact (OrganizationTeamMember.voter_we_vote_id m) u = true
        /\ has_any_campaignx_right m = true
        /\ OrganizationTeamMember.organization_we_vote_id m = org.
Proof. intros. apply In_teams. Qed.

(** an Owner row whose organization is one of the voter's teams *)
Lemma col_in_teams_of : forall st u (o : CampaignXOwner.t),
  col_in (CampaignXOwner.organization_we_vote_id o) (teams_of st u) = true
  <-> exists m organization_we_vote_id,
        In m (team_member_rows st)
        /\ col_iexact (OrganizationTeamMember.voter_we_vote_id m) u = true
        /\ has_any_campaignx_right m = true
        /\ OrganizationTeamMember.organization_we_vote_id m
           = Some organization_we_vote_id
        /\ CampaignXOwner.organization_we_vote_id o = Some organization_we_vote_id.
Proof.
  intros st u o. rewrite col_in_spec. split.
  - intros (s & Ho & Hin). apply In_teams_of in Hin.
    destruct Hin as (m & Hm & Hu & Hr & Horg). now exists m, s.
  - intros (m & s & Hm & Hu & Hr & Horg & Ho). exists s. split; [assumption |].
    apply In_teams_of. now exists m.
Qed.

(** The answer of [is_voter_campaignx_owner] is ownership as the
    specification words it, the campaign being matched without regard to
    case. *)
Lemma is_voter_campaignx_owner_resolves :
  forall (H : Helpers) (DB : Database) st c u b,
    db_error st = None ->
    is_voter_campaignx_owner st c u = Ok b ->
    (b = true <-> resolves_as_owner st (fun col => col_iexact col c) u).
Proof.
  intros H DB st c u b Hst Hrun.
  rewrite (is_voter_campaignx_owner_answers H DB _ _ _ Hst) in Hrun.
  injection Hrun as <-.
  unfold resolves_as_owner, owner_row_resolves.
  fold has_any_campaignx_right.
  destruct (0 <? Z.of_nat _)%Z eqn:Hdirect.
  - split; [intros _ | reflexivity].
    apply count_positive in Hdirect. destruct Hdirect as (o & Hin & Hp).
    apply andb_true_iff in Hp. exists o. tauto.
  - destruct (0 <? List.length (teams_of st u))%nat eqn:Hteams.
    + rewrite count_positive. split.
      * intros (o & Hin & Hp). apply andb_true_iff in Hp. destruct Hp as [Hc Ho].
        apply col_in_teams_of in Ho. exists o. fold has_any_campaignx_right. tauto.
      * intros (o & Hin & Hc & [Hu | Hteam]).
        -- exfalso. assert (Hd : (0 <? Z.of_nat
                     (List.length
                        (filter
                           (fun o =>
                              col_iexact (CampaignXOwner.campaignx_we_vote_id o) c
                              && col_iexact (CampaignXOwner.voter_we_vote_id o) u)
                           (owner_rows st))))%Z = true).
           { apply count_positive. exists o. now rewrite Hc, Hu. }
           congruence.
        -- exists o. split; [assumption |]. rewrite Hc. cbn.
           now apply col_in_teams_of.
    + split; [discriminate |].
      intros (o & Hin & Hc & [Hu | Hteam]); exfalso.
      * assert (Hd : (0 <? Z.of_nat
                     (List.length
                        (filter
                           (fun o =>
                              col_iexact (CampaignXOwner.campaignx_we_vote_id o) c
                              && col_iexact (CampaignXOwner.voter_we_vote_id o) u)
                           (owner_rows st))))%Z = true).
        { apply count_positive. exists o. now rewrite Hc, Hu. }
        congruence.
      * destruct Hteam as (m & s & Hm & Hu & Hr & Horg & Ho).
        assert (Ht : (0 <? List.length (teams_of st u))%nat = true).
        { apply length_positive. exists (Some s). apply In_teams_of. now exists m. }
        congruence.
Qed.

Lemma col_exact_true : forall col v, col_exact col v = true <-> col = Some v.
Proof.
  intros [s |] v; cbn; [| split; discriminate].
  rewrite String.eqb_eq. split; [now intros -> | now intros [= ->]].
Qed.

(** The identifiers [retrieve_voter_owned_campaignx_we_vote_ids] returns are
    those of the campaigns the voter owns, as the specification words it,
    the campaign being matched exactly. *)
Lemma retrieve_voter_owned_resolves :
  forall st u ids,
    db_error st = None ->
    retrieve_voter_owned_campaignx_we_vote_ids st u = Ok ids ->
    forall c',
      In (Some c') ids <-> resolves_as_owner st (fun col => col_exact col c') u.
Proof.
  intros st u ids Hst Hrun c'.
  rewrite (retrieve_voter_owned_answers _ _ Hst) in Hrun. injection Hrun as <-.
  unfold resolves_as_owner, owner_row_resolves. fold has_any_campaignx_right.
  rewrite In_set_union, In_distinct, in_map_iff. split.
  - intros [(o & Hc & Ho) | Hteam].
    + apply filter_In in Ho. destruct Ho as [Hin Hu]. exists o.
      split; [assumption |]. split; [now apply col_exact_true | now left].
    + destruct (0 <? List.length (teams_of st u))%nat; [| contradiction].
      apply In_distinct, in_map_iff in Hteam. destruct Hteam as (o & Hc & Ho).
      apply filter_In in Ho. destruct Ho as [Hin Horg]. exists o.
      split; [assumption |]. split; [now apply col_exact_true |].
      right. now apply col_in_teams_of.
  - intros (o & Hin & Hc & [Hu | Hteam]); apply col_exact_true in Hc.
    + left. exists o. split; [assumption |]. now apply filter_In.
    + right.
      assert (Ht : (0 <? List.length (teams_of st u))%nat = true).
      { destruct Hteam as (m & s & Hm & Hu & Hr & Horg & Ho).
        apply length_positive. exists (Some s). apply In_teams_of. now exists m. }
      rewrite Ht. apply In_distinct, in_map_iff. exists o.
      split; [assumption |]. apply filter_In. split; [assumption |].
      now apply col_in_teams_of.
Qed.

(** C5 (amended).  Over the same Owner and team-membership rows, and on a
    store that answers, [is_voter_campaignx_owner(c, u)] is true if and only
    if some identifier returned by
    [retrieve_voter_owned_campaignx_we_vote_ids(u)] equals [c] without regard
    to case.  Both resolve ownership as a direct Owner row, or as membership
    with one of the three rights in a team whose organization has an Owner
    row; the first matches the campaign identifier case-insensitively, the
    second returns the identifiers as stored. *)
Theorem C5_owner_iff_owned_up_to_case :
  forall (H : Helpers) (DB : Database) (st : Store) (c u : string),
    db_error st = None ->
    exists b ids,
      is_voter_campaignx_owner st c u = Ok b
      /\ retrieve_voter_owned_campaignx_we_vote_ids st u = Ok ids
      /\ (b = true <-> resolves_as_owner st (fun col => col_iexact col c) u)
      /\ (forall c', In (Some c') ids
                     <-> resolves_as_owner st (fun col => col_exact col c') u)
      /\ (b = true <-> exists c', In (Some c') ids /\ iexact c' c = true).
Proof.
  intros H DB st c u Hst.
  pose proof (is_voter_campaignx_owner_answers H DB _ c u Hst) as Hb.
  pose proof (retrieve_voter_owned_answers _ u Hst) as Hids.
  match type of Hb with _ = Ok ?b => exists b end.
  match type of Hids with _ = Ok ?ids => exists ids end.
  pose proof (is_voter_campaignx_owner_resolves H DB st c u Hst Hb) as Howner.
  pose proof (retrieve_voter_owned_resolves st u Hst Hids) as Howned.
  split; [exact Hb |]. split; [exact Hids |].
  split; [exact Howner |]. split; [exact Howned |].
  rewrite Howner. split.
  - intros (o & Hin & Hc & Hrest).
    destruct (CampaignXOwner.campaignx_we_vote_id o) as [c' |] eqn:Hco;
      [| discriminate].
    exists c'. split; [| exact Hc].
    apply Howned. exists o. split; [assumption |]. rewrite Hco. cbn.
    split; [apply String.eqb_refl | exact Hrest].
  - intros (c' & Hin & Hcase). apply Howned in Hin.
    destruct Hin as (o & Hin & Hc & Hrest). apply col_exact_true in Hc.
    exists o. split; [assumption |]. rewrite Hc. cbn. tauto.
Qed.

Lemma C5_owner_iff_owned_up_to_case_witness :
  exists b ids,
    is_voter_campaignx_owner (H := model_helpers) (DB := model_database)
        owner_store "wv02camp1" "wv02voter1"
    = Ok b
    /\ retrieve_voter_owned_campaignx_we_vote_ids owner_store "wv02voter1" = Ok ids
    /\ (b = true
        <-> resolves_as_owner owner_store (fun col => col_iexact col "wv02camp1")
              "wv02voter1")
    /\ (forall c', In (Some c') ids
                   <-> resolves_as_owner owner_store (fun col => col_exact col c')
                         "wv02voter1")
    /\ (b = true <-> exists c', In (Some c') ids /\ iexact c' "wv02camp1" = true).
Proof.
  apply (@C5_owner_iff_owned_up_to_case model_helpers model_database owner_store
           "wv02camp1" "wv02voter1").
  reflexivity.
Defined.

(** C5, as stated, fails: asked about the campaign identifier in upper case,
    [is_voter_campaignx_owner] answers true, while the identifier is no
    member of the list [retrieve_voter_owned_campaignx_we_vote_ids]
    returns. *)
Lemma C5_counterexample_identifier_case :
  is_voter_campaignx_owner (H := model_helpers) (DB := model_database)
      owner_store "WV02CAMP1" "wv02voter1"
  = Ok true
  /\ exists ids,
       retrieve_voter_owned_campaignx_we_vote_ids owner_store "wv02voter1" = Ok ids
       /\ py_in (Some "WV02CAMP1") ids = false.
Proof.
  split; [reflexivity |]. eexists. split; reflexivity.
Qed.

(** ** The slug allocator *)

Lemma count_positive_existsb : forall R (p : R -> bool) (l : list R),
  (0 <? Z.of_nat (List.length (filter p l)))%Z = existsb p l.
Proof.
  intros R p l. induction l as [| x l IH]; cbn; [reflexivity |].
  destruct (p x); cbn; [| exact IH]. now destruct (filter p l).
Qed.

Lemma existsb_filter : forall R (p q : R -> bool) (l : list R),
  existsb p (filter q l) = existsb (fun r => q r && p r) l.
Proof.
  intros R p q l. induction l as [| x l IH]; cbn; [reflexivity |].
  destruct (q x); cbn; now rewrite IH.
Qed.

Lemma count_seo_friendly_paths_answers :
  forall (DB : Database) (st : Store) pathname,
    db_error st = None ->
    count_seo_friendly_paths st pathname
    = Ok (Z.of_nat
            (List.length
               (filter
                  (fun p =>
                     col_iexact (CampaignXSEOFriendlyPath.final_pathname_string p)
                                pathname)
                  (seo_friendly_path_rows st)))).
Proof.
  intros DB st pathname Hst. unfold count_seo_friendly_paths, qs_count.
  now rewrite qs_result_filter_all, (db_run_ok _ _ Hst).
Qed.

Lemma count_campaignx_with_path_answers :
  forall (DB : Database) (st : Store) pathname,
    db_error st = None ->
    count_campaignx_with_path st pathname
    = Ok (Z.of_nat
            (List.length
               (filter (fun c => col_iexact (CampaignX.seo_friendly_path c) pathname)
                       (campaignx_rows st)))).
Proof.
  intros DB st pathname Hst. unfold count_campaignx_with_path, qs_count.
  now rewrite qs_result_filter_all, (db_run_ok _ _ Hst).
Qed.

(** Once the modifier drawn is in the reviewed list, the inner loop does not
    run again ... *)
Lemma modifier_loop_done :
  forall (H : Helpers) (DB : Database) budget base v,
    modifier_not_reviewed (PathVars.pathname_modifier v)
      (PathVars.pathname_modifiers_already_reviewed_list v) = false ->
    modifier_loop budget base v = Continue v.
Proof.
  intros H DB budget base v Hdone. destruct budget; cbn; now rewrite Hdone.
Qed.

Lemma retrieving_loop_round :
  forall (H : Helpers) (DB : Database) remaining base v,
    retrieving_loop (S remaining) base v
    = if PathVars.continue_retrieving v then
        match modifier_loop 51 base v with
        | Return r => Return r
        | Continue v' => retrieving_loop remaining base v'
        end
      else Continue v.
Proof. reflexivity. Qed.

(** ... and the outer loop passes over its remaining rounds. *)
Lemma retrieving_loop_idle :
  forall (H : Helpers) (DB : Database) remaining base v,
    modifier_not_reviewed (PathVars.pathname_modifier v)
      (PathVars.pathname_modifiers_already_reviewed_list v) = false ->
    retrieving_loop remaining base v = Continue v.
Proof.
  intros H DB remaining base v Hdone.
  induction remaining as [| n IH]; [reflexivity |].
  rewrite retrieving_loop_round.
  destruct (PathVars.continue_retrieving v); [| reflexivity].
  now rewrite (modifier_loop_done H DB _ _ _ Hdone).
Qed.

Lemma modifier_reviewed_after_append : forall m reviewed,
  modifier_not_reviewed (Some m) (reviewed ++ [m])%list = false.
Proof.
  intros m reviewed. cbn. rewrite existsb_app. cbn.
  now rewrite String.eqb_refl, orb_true_r.
Qed.

Lemma modifier_loop_step :
  forall (H : Helpers) (DB : Database) budget base v,
    modifier_loop (S budget) base v
    = if modifier_not_reviewed (PathVars.pathname_modifier v)
           (PathVars.pathname_modifiers_already_reviewed_list v)
      then
        let st := PathVars.store v in
        let pathname_modifier := generate_random_string (random_strings_drawn st) in
        let st := set_random_strings_drawn st (S (random_strings_drawn st)) in
        let final_pathname_string_to_test := base ++ "-" ++ pathname_modifier in
        let reviewed :=
          (PathVars.pathname_modifiers_already_reviewed_list v
             ++ [pathname_modifier])%list in
        match count_seo_friendly_paths st final_pathname_string_to_test with
        | Raise e =>
            Return (seo_path_failed (PathVars.final_pathname_string v)
                      (PathVars.status v ++
                       format_error "PROBLEM_QUERYING_CAMPAIGNX_SEO_FRIENDLY_PATH_TABLE4" e),
                    st)
        | Ok match_count =>
            if negb (positive_value_exists (PInt match_count)) then
              match count_campaignx_with_path st final_pathname_string_to_test with
              | Raise e =>
                  Return (seo_path_failed (PathVars.final_pathname_string v)
                            (PathVars.status v ++
                             format_error "PROBLEM_QUERYING_CAMPAIGNX_TABLE" e),
                          st)
              | Ok match_count =>
                  if positive_value_exists (PInt match_count) then
                    modifier_loop budget base
                      (PathVars.mk (PathVars.final_pathname_string v)
                         (Some pathname_modifier)
                         (PathVars.owned_by_another_campaignx v)
                         (PathVars.status v ++ "FOUND_IN_ANOTHER_CAMPAIGNX2 ")
                         (PathVars.continue_retrieving v) reviewed st)
                  else
                    modifier_loop budget base
                      (PathVars.mk final_pathname_string_to_test
                         (Some pathname_modifier) false
                         (PathVars.status v ++ "NO_PATHNAME_COLLISION ")
                         false reviewed st)
              end
            else
              modifier_loop budget base
                (PathVars.mk (PathVars.final_pathname_string v)
                   (Some pathname_modifier)
                   (PathVars.owned_by_another_campaignx v)
                   (PathVars.status v)
                   (PathVars.continue_retrieving v) reviewed st)
        end
      else Continue v.
Proof. reflexivity. Qed.

(** The first pass of the inner loop when the candidate it draws is taken:
    the candidate is recorded as reviewed and nothing else changes but the
    status. *)
Lemma modifier_loop_collision :
  forall (H : Helpers) (DB : Database) budget base v,
    db_error (PathVars.store v) = None ->
    PathVars.pathname_modifier v = None ->
    path_taken (PathVars.store v)
      (base ++ "-"
            ++ generate_random_string (random_strings_drawn (PathVars.store v)))
    = true ->
    exists status,
      modifier_loop (S budget) base v
      = Continue
          (PathVars.mk (PathVars.final_pathname_string v)
             (Some (generate_random_string
                      (random_strings_drawn (PathVars.store v))))
             (PathVars.owned_by_another_campaignx v)
             status
             (PathVars.continue_retrieving v)
             (PathVars.pathname_modifiers_already_reviewed_list v
                ++ [generate_random_string
                      (random_strings_drawn (PathVars.store v))])%list
             (set_random_strings_drawn (PathVars.store v)
                (S (random_strings_drawn (PathVars.store v))))).
Proof.
  intros H DB budget base v Hst Hmod Htaken.
  rewrite modifier_loop_step, Hmod. cbn [modifier_not_reviewed]. cbv zeta.
  rewrite count_seo_friendly_paths_answers by exact Hst.
  rewrite positive_value_exists_int, count_positive_existsb.
  unfold path_taken, path_in_history, path_in_campaigns in Htaken.
  change (seo_friendly_path_rows
            (set_random_strings_drawn (PathVars.store v)
               (S (random_strings_drawn (PathVars.store v)))))
    with (seo_friendly_path_rows (PathVars.store v)).
  destruct (existsb _ (seo_friendly_path_rows (PathVars.store v))) eqn:Hhistory;
    cbn [negb].
  - eexists. apply modifier_loop_done. apply modifier_reviewed_after_append.
  - rewrite count_campaignx_with_path_answers by exact Hst.
    rewrite positive_value_exists_int, count_positive_existsb.
    change (campaignx_rows
              (set_random_strings_drawn (PathVars.store v)
                 (S (random_strings_drawn (PathVars.store v)))))
      with (campaignx_rows (PathVars.store v)).
    cbn [orb] in Htaken. rewrite Htaken.
    eexists. apply modifier_loop_done. apply modifier_reviewed_after_append.
Qed.

Lemma truthy_nonempty : forall s, s <> "" -> truthy (PStr s) = true.
Proof.
  intros s Hs. cbn. destruct (String.eqb_spec s ""); [contradiction | reflexivity].
Qed.

Lemma py_len_nonempty : forall s, s <> "" -> (0 <? py_len s)%Z = true.
Proof.
  intros [| c s] Hs; [contradiction |]. unfold py_len. cbn [String.length].
  apply Z.ltb_lt. lia.
Qed.

Lemma own_path_count_answers :
  forall (DB : Database) (st : Store) c pathname,
    db_error st = None ->
    qs_count st
      (qs_filter
         (fun p => col_iexact (CampaignXSEOFriendlyPath.final_pathname_string p)
                              pathname)
         (qs_filter
            (fun p => col_exact (CampaignXSEOFriendlyPath.campaignx_we_vote_id p) c)
            (objects_all (seo_friendly_path_rows st))))
    = Ok (Z.of_nat
            (List.length
               (filter
                  (fun p =>
                     col_iexact (CampaignXSEOFriendlyPath.final_pathname_string p)
                                pathname)
                  (filter
                     (fun p =>
                        col_exact (CampaignXSEOFriendlyPath.campaignx_we_vote_id p) c)
                     (seo_friendly_path_rows st))))).
Proof.
  intros DB st c pathname Hst. unfold qs_count, qs_result, qs_filter, objects_all.
  cbn [qs_rows qs_ordering qs_stop].
  now rewrite sort_rows_no_ordering, (db_run_ok _ _ Hst).
Qed.

(** C4.  The specification states that, the base slug being taken, the allocator keeps
    drawing fresh suffixes, up to 50 per outer attempt and 1000 outer
    attempts.  The inner loop runs while the modifier is not in the reviewed
    list, and its body puts it there: it runs once in all, and the outer
    rounds that follow do nothing.  When the base slug is taken and the
    first candidate is taken too, the allocator fails after that single
    draw, whatever the random generator would yield next. *)
Theorem C4_allocator_draws_a_single_suffix :
  forall (H : Helpers) (DB : Database)
      (st : Store) (campaignx_we_vote_id title base : string),
    db_error st = None ->
    positive_value_exists (PStr campaignx_we_vote_id) = true ->
    title <> "" ->
    slugify title = Ok base ->
    base <> "" ->
    path_owned_by st campaignx_we_vote_id base = false ->
    path_taken st base = true ->
    path_taken st
      (base ++ "-" ++ generate_random_string (random_strings_drawn st)) = true ->
    exists status,
      generate_seo_friendly_path st campaignx_we_vote_id (Some title)
      = (SeoPathResults.mk "" false false status false,
         set_random_strings_drawn st (S (random_strings_drawn st))).
Proof.
  intros H DB st c title base Hst Hc Htitle Hslug Hbase Hown Htaken Hfirst.
  unfold generate_seo_friendly_path.
  rewrite Hc. cbn [negb py_opt_str]. rewrite (truthy_nonempty Htitle).
  cbn [negb]. rewrite Hslug, (truthy_nonempty Hbase), positive_value_exists_int,
    (py_len_nonempty Hbase).
  cbn [negb orb].
  rewrite (own_path_count_answers DB _ _ _ Hst), positive_value_exists_int,
    count_positive_existsb, existsb_filter.
  fold (path_owned_by st c base). rewrite Hown. clear Hown.
  rewrite (count_seo_friendly_paths_answers DB _ _ Hst), positive_value_exists_int,
    count_positive_existsb.
  fold (path_in_history st base).
  unfold path_taken in Htaken.
  assert (Hloop : forall status0,
    exists status,
      retrieving_loop 1000 base (PathVars.mk "" None true status0 true [] st)
      = Continue
          (PathVars.mk "" (Some (generate_random_string (random_strings_drawn st)))
             true status true
             [generate_random_string (random_strings_drawn st)]
             (set_random_strings_drawn st (S (random_strings_drawn st))))).
  { intro status0. rewrite retrieving_loop_round. cbn [PathVars.continue_retrieving].
    destruct (modifier_loop_collision H DB 50 base
                (PathVars.mk "" None true status0 true [] st) Hst eq_refl Hfirst)
      as (status & Hstep).
    cbn [PathVars.store PathVars.final_pathname_string
           PathVars.owned_by_another_campaignx PathVars.continue_retrieving
           PathVars.pathname_modifiers_already_reviewed_list app] in Hstep.
    rewrite Hstep. exists status. apply retrieving_loop_idle.
    apply (modifier_reviewed_after_append _ []). }
  destruct (path_in_history st base) eqn:Hhistory.
  - cbn [negb].
    destruct (Hloop ("" ++ "PATHNAME_FOUND-OWNED_BY_ANOTHER_CAMPAIGNX "))
      as (status & ->).
    cbn [PathVars.owned_by_another_campaignx PathVars.final_pathname_string
           PathVars.status PathVars.store].
    eexists. reflexivity.
  - cbn [negb orb] in Htaken |- *.
    rewrite (count_campaignx_with_path_answers DB _ _ Hst), positive_value_exists_int,
      count_positive_existsb.
    fold (path_in_campaigns st base). rewrite Htaken.
    cbn [negb].
    destruct (Hloop ("" ++ "PATHNAME_FOUND_IN_ANOTHER_CAMPAIGNX "))
      as (status & ->).
    cbn [PathVars.owned_by_another_campaignx PathVars.final_pathname_string
           PathVars.status PathVars.store].
    eexists. reflexivity.
Qed.

Lemma C4_allocator_draws_a_single_suffix_witness :
  exists status,
    generate_seo_friendly_path (H := model_helpers) (DB := model_database)
        taken_paths_store "wv02camp2"
      (Some "Campaign")
    = (SeoPathResults.mk "" false false status false,
       set_random_strings_drawn taken_paths_store 1).
Proof.
  apply (@C4_allocator_draws_a_single_suffix model_helpers model_database
      taken_paths_store
           "wv02camp2" "Campaign" "campaign");
    try reflexivity; discriminate.
Defined.

(** ** The supporters count *)

(** A patch that only carries a supporters count of zero changes nothing:
    [positive_value_exists(0)] is false, so line 2183 skips the
    assignment. *)
Lemma update_existing_zero_count :
  forall (H : Helpers) (DB : Database) (v : PatchVars.t),
    PatchVars.campaignx_changed v = false ->
    update_existing [("supporters_count", PInt 0)] v
    = (Ok tt,
       PatchVars.mk (PatchVars.campaignx v) false
         (PatchVars.status v ++ "CAMPAIGNX_NOT_UPDATED-NO_CHANGES_FOUND ")
         (PatchVars.store v)).
Proof.
  intros H DB v Hchanged.
  unfold update_existing, photo_step, draft_mode_step, politician_delete_step,
    politician_starter_step.
  cbn [dict_flag dict_find String.eqb Ascii.eqb Bool.eqb when andb].
  rewrite positive_value_exists_int.
  cbn [Z.ltb Z.compare when seq skip]. rewrite Hchanged.
  unfold add_status. now rewrite Hchanged.
Qed.

(** The lookup by identifier, when the table holds the campaign once. *)
Lemma retrieve_campaignx_as_owner_found :
  forall (H : Helpers) (DB : Database) st c voter campaignx,
    db_error st = None ->
    positive_value_exists (PStr c) = true ->
    filter (fun r => col_exact (CampaignX.we_vote_id r) c) (campaignx_rows st)
    = [campaignx] ->
    exists results,
      retrieve_campaignx_as_owner st c "" voter false = Ok results
      /\ AsOwnerResults.campaignx_found results = true
      /\ AsOwnerResults.campaignx results = Some campaignx
      /\ AsOwnerResults.success results = true.
Proof.
  intros H DB st c voter campaignx Hst Hc Hrow.
  unfold retrieve_campaignx_as_owner.
  rewrite Hc, (is_voter_campaignx_owner_answers H DB _ _ _ Hst).
  cbn [bind]. rewrite !positive_value_exists_bool, (db_run_ok _ _ Hst), Hrow.
  cbn [bind objects_get aov_campaignx_found aov_campaignx aov_success
         aov_status aov_campaignx_we_vote_id aov_viewer_is_owner
         aov_exception_does_not_exist aov_exception_multiple_object_returned].
  rewrite ?positive_value_exists_bool.
  eexists. split; [reflexivity |]. cbn. auto.
Qed.

(** C1.  The specification states that the recount writes the exact number of supporting
    rows onto the campaign and returns success.  The count is handed to
    [update_or_create_campaignx], which assigns it under the guard
    [positive_value_exists(update_values['supporters_count'])]: a count of
    zero is not assigned.  When no row of the campaign has
    [campaign_supported = True], the recount computes 0, reports success and
    leaves the store as it is, the campaign keeping the count it had. *)
Theorem C1_recount_of_zero_is_not_written :
  forall (H : Helpers) (DB : Database)
      (st : Store) (c : string) (campaignx : CampaignX.t),
    db_error st = None ->
    positive_value_exists (PStr c) = true ->
    filter (fun r => col_exact (CampaignX.we_vote_id r) c) (campaignx_rows st)
    = [campaignx] ->
    filter (fun s => CampaignXSupporter.campaign_supported s)
      (filter (fun s => iexact (CampaignXSupporter.campaignx_we_vote_id s) c)
              (supporter_rows st)) = [] ->
    exists status,
      update_campaignx_supporters_count st c
      = (Ok (SupportersCountResults.mk true status 0), st).
Proof.
  intros H DB st c campaignx Hst Hc Hrow Hnone.
  assert (Hne : c <> "").
  { intros ->. rewrite positive_value_exists_empty in Hc. discriminate. }
  destruct (@retrieve_campaignx_as_owner_found H DB st c "" campaignx Hst Hc Hrow)
    as (results & Hretrieve & Hfound & Hcampaignx & Hsuccess).
  unfold update_campaignx_supporters_count, qs_count, qs_result, qs_filter,
    objects_all.
  cbn [qs_rows qs_ordering qs_stop].
  rewrite sort_rows_no_ordering, Hnone, (db_run_ok _ _ Hst).
  cbn [List.length Z.of_nat].
  unfold update_or_create_campaignx.
  rewrite positive_value_exists_empty, (truthy_nonempty Hne), Hc, Hretrieve.
  cbn [andb negb]. rewrite Hfound, Hcampaignx, Hsuccess, positive_value_exists_bool.
  cbn [negb]. rewrite update_existing_zero_count by reflexivity.
  cbn [PatchVars.status PatchVars.campaignx PatchVars.campaignx_changed
         PatchVars.store andb].
  eexists. reflexivity.
Qed.

Lemma C1_recount_of_zero_is_not_written_witness :
  exists status,
    update_campaignx_supporters_count (H := model_helpers) (DB := model_database)
        unsupported_store
      "wv02camp1"
    = (Ok (SupportersCountResults.mk true status 0), unsupported_store).
Proof.
  apply (@C1_recount_of_zero_is_not_written model_helpers model_database
      unsupported_store
           "wv02camp1"
           (example_campaignx 1 "wv02camp1" "wv02voter1" false 1 false None));
    reflexivity.
Defined.

Lemma upper_eqb_refl : forall s, iexact s s = true.
Proof. intro s. unfold iexact. apply String.eqb_refl. Qed.

Lemma col_exact_iexact : forall col v,
  col_exact col v = true -> col_iexact col v = true.
Proof.
  intros col v Hexact. apply col_exact_true in Hexact. subst col. cbn.
  apply upper_eqb_refl.
Qed.

Lemma path_owned_in_history : forall st c pathname,
  path_owned_by st c pathname = true -> path_in_history st pathname = true.
Proof.
  intros st c pathname Hown. unfold path_owned_by in Hown.
  apply existsb_exists in Hown. destruct Hown as (p & Hin & Hp).
  apply andb_true_iff in Hp. apply existsb_exists. exists p. tauto.
Qed.

(** The allocator on a path the campaign already owns. *)
Lemma generate_seo_friendly_path_owned :
  forall (H : Helpers) (DB : Database) st c title base,
    db_error st = None ->
    positive_value_exists (PStr c) = true ->
    title <> "" ->
    slugify title = Ok base ->
    base <> "" ->
    path_owned_by st c base = true ->
    generate_seo_friendly_path st c (Some title)
    = (SeoPathResults.mk base false true "PATHNAME_FOUND-OWNED_BY_CAMPAIGNX " true,
       st).
Proof.
  intros H DB st c title base Hst Hc Htitle Hslug Hbase Hown.
  unfold generate_seo_friendly_path.
  rewrite Hc. cbn [negb py_opt_str]. rewrite (truthy_nonempty Htitle).
  cbn [negb]. rewrite Hslug, (truthy_nonempty Hbase), positive_value_exists_int,
    (py_len_nonempty Hbase).
  cbn [negb orb].
  rewrite (own_path_count_answers DB _ _ _ Hst), positive_value_exists_int,
    count_positive_existsb, existsb_filter.
  fold (path_owned_by st c base). now rewrite Hown.
Qed.

(** The allocator on a path no campaign holds. *)
Lemma generate_seo_friendly_path_free :
  forall (H : Helpers) (DB : Database) st c title base,
    db_error st = None ->
    positive_value_exists (PStr c) = true ->
    title <> "" ->
    slugify title = Ok base ->
    base <> "" ->
    positive_value_exists (PStr base) = true ->
    path_taken st base = false ->
    exists status,
      generate_seo_friendly_path st c (Some title)
      = (SeoPathResults.mk base true true status true,
         set_seo_friendly_path_rows st
           (seo_friendly_path_rows st ++ [base_path_row st c title base])%list).
Proof.
  intros H DB st c title base Hst Hc Htitle Hslug Hbase Hpve Hfree.
  unfold path_taken in Hfree. apply orb_false_iff in Hfree.
  destruct Hfree as [Hhistory Hcampaigns].
  assert (Hown : path_owned_by st c base = false).
  { destruct (path_owned_by st c base) eqn:Hown; [| reflexivity].
    apply path_owned_in_history in Hown. congruence. }
  unfold generate_seo_friendly_path.
  rewrite Hc. cbn [negb py_opt_str]. rewrite (truthy_nonempty Htitle).
  cbn [negb]. rewrite Hslug, (truthy_nonempty Hbase), positive_value_exists_int,
    (py_len_nonempty Hbase).
  cbn [negb orb].
  rewrite (own_path_count_answers DB _ _ _ Hst), positive_value_exists_int,
    count_positive_existsb, existsb_filter.
  fold (path_owned_by st c base). rewrite Hown.
  rewrite (count_seo_friendly_paths_answers DB _ _ Hst), positive_value_exists_int,
    count_positive_existsb.
  fold (path_in_history st base). rewrite Hhistory. cbn [negb].
  rewrite (count_campaignx_with_path_answers DB _ _ Hst), positive_value_exists_int,
    count_positive_existsb.
  fold (path_in_campaigns st base). rewrite Hcampaigns. cbn [negb].
  cbn [PathVars.owned_by_another_campaignx PathVars.final_pathname_string
         PathVars.status PathVars.store PathVars.pathname_modifier].
  rewrite Hpve. cbn [negb orb].
  unfold create_seo_friendly_path. rewrite (db_run_ok _ _ Hst). cbn [bind].
  assert (Hunique :
    existsb
      (fun p => col_exact (CampaignXSEOFriendlyPath.final_pathname_string p) base)
      (seo_friendly_path_rows st) = false).
  { destruct (existsb _ (seo_friendly_path_rows st)) eqn:Hdup; [| reflexivity].
    apply existsb_exists in Hdup. destruct Hdup as (p & Hin & Hp).
    assert (path_in_history st base = true).
    { apply existsb_exists. exists p. split; [assumption |].
      now apply col_exact_iexact. }
    congruence. }
  rewrite Hunique. eexists. reflexivity.
Qed.

(** C3 (amended).  On a store that answers, for a campaign identifier and a
    title whose slug is not empty, both accepted by
    [positive_value_exists]: when the base slug is already in the path
    history of the campaign, or is taken by no campaign at all, two calls of
    the allocator with the same identifier and title return the base slug
    both times, and the second call reports the path as found and not as
    created. *)
Theorem C3_allocating_twice_returns_the_base_slug :
  forall (H : Helpers) (DB : Database) (st : Store) (c title base : string),
    db_error st = None ->
    positive_value_exists (PStr c) = true ->
    title <> "" ->
    slugify title = Ok base ->
    base <> "" ->
    positive_value_exists (PStr base) = true ->
    path_owned_by st c base = true \/ path_taken st base = false ->
    let first := generate_seo_friendly_path st c (Some title) in
    let second := generate_seo_friendly_path (snd first) c (Some title) in
    SeoPathResults.success (fst first) = true
    /\ SeoPathResults.seo_friendly_path (fst first) = base
    /\ SeoPathResults.success (fst second) = true
    /\ SeoPathResults.seo_friendly_path (fst second) = base
    /\ SeoPathResults.seo_friendly_path_found (fst second) = true
    /\ SeoPathResults.seo_friendly_path_created (fst second) = false.
Proof.
  intros H DB st c title base Hst Hc Htitle Hslug Hbase Hpve [Hown | Hfree];
    cbv zeta.
  - rewrite (generate_seo_friendly_path_owned H DB _ _ Hst Hc Htitle Hslug Hbase Hown).
    cbn [fst snd].
    rewrite (generate_seo_friendly_path_owned H DB _ _ Hst Hc Htitle Hslug Hbase Hown).
    cbn [fst SeoPathResults.success SeoPathResults.seo_friendly_path
           SeoPathResults.seo_friendly_path_found
           SeoPathResults.seo_friendly_path_created].
    repeat split.
  - destruct (generate_seo_friendly_path_free H DB _ _ Hst Hc Htitle Hslug Hbase
                Hpve Hfree) as (status & ->).
    cbn [fst snd].
    rewrite (@generate_seo_friendly_path_owned H DB _ c title base); try assumption.
    + cbn [fst SeoPathResults.success SeoPathResults.seo_friendly_path
             SeoPathResults.seo_friendly_path_found
             SeoPathResults.seo_friendly_path_created].
      repeat split.
    + unfold path_owned_by. cbn [seo_friendly_path_rows set_seo_friendly_path_rows].
      rewrite existsb_app. cbn [existsb base_path_row
        CampaignXSEOFriendlyPath.campaignx_we_vote_id
        CampaignXSEOFriendlyPath.final_pathname_string col_exact col_iexact].
      now rewrite String.eqb_refl, upper_eqb_refl, orb_true_r.
Qed.

Lemma C3_allocating_twice_returns_the_base_slug_witness :
  let first :=
    generate_seo_friendly_path (H := model_helpers) (DB := model_database)
        empty_store "wv02camp1"
      (Some "Campaign") in
  let second :=
    generate_seo_friendly_path (H := model_helpers) (DB := model_database)
        (snd first) "wv02camp1"
      (Some "Campaign") in
  SeoPathResults.success (fst first) = true
  /\ SeoPathResults.seo_friendly_path (fst first) = "campaign"
  /\ SeoPathResults.success (fst second) = true
  /\ SeoPathResults.seo_friendly_path (fst second) = "campaign"
  /\ SeoPathResults.seo_friendly_path_found (fst second) = true
  /\ SeoPathResults.seo_friendly_path_created (fst second) = false.
Proof.
  apply (@C3_allocating_twice_returns_the_base_slug model_helpers model_database
      empty_store
           "wv02camp1" "Campaign" "campaign");
    try reflexivity; try discriminate.
  right. reflexivity.
Defined.

(** C3, as stated, fails: when the base slug belongs to another campaign,
    the first call returns the base slug with one random suffix, the second
    call draws another suffix, returns a different slug and reports it as
    created. *)
Lemma C3_counterexample_suffixed_slug_is_allocated_again :
  let first :=
    generate_seo_friendly_path (H := model_helpers) (DB := model_database)
        base_taken_store "wv02camp2"
      (Some "Campaign") in
  let second :=
    generate_seo_friendly_path (H := model_helpers) (DB := model_database)
        (snd first) "wv02camp2"
      (Some "Campaign") in
  SeoPathResults.seo_friendly_path (fst first) = "campaign-aaaa"
  /\ SeoPathResults.seo_friendly_path (fst second) = "campaign-aaab"
  /\ SeoPathResults.seo_friendly_path_created (fst second) = true.
Proof. vm_compute. auto. Qed.

(** ** Repair of duplicate supporter rows *)


(** the head of an ordered list of rows has the least key *)
Lemma sort_rows_head_least : forall (DB : Database) R (k : R -> Z) (l : list R) x rest,
  sort_rows [k] l = x :: rest ->
  forall y, In y l -> (k x <= k y)%Z.
Proof.
  intros DB R k l x rest Hsort y Hy.
  pose proof (sort_rows_sorted DB k l) as Hsorted. rewrite Hsort in Hsorted.
  apply (proj2 (sort_rows_In DB [k] l y)) in Hy. rewrite Hsort in Hy.
  inversion Hsorted as [| ? ? _ Hall]; subst.
  destruct Hy as [<- | Hy]; [lia |].
  rewrite Forall_forall in Hall. now apply Hall.
Qed.

Lemma existsb_permutation : forall A (f : A -> bool) (l l' : list A),
  Permutation l l' -> existsb f l = existsb f l'.
Proof.
  intros A f l l' Hperm. induction Hperm; cbn.
  - reflexivity.
  - now rewrite IHHperm.
  - now destruct (f x), (f y).
  - congruence.
Qed.

(** The first loop over rows that all carry an endorsement text: the flags
    accumulate by disjunction. *)
Lemma fold_duplicates_flags :
  forall (H : Helpers) temps keep keep_length visible blocked,
    (forall t, In t temps -> CampaignXSupporter.supporter_endorsement t <> None) ->
    exists keep' keep_length',
      fold_duplicates temps keep keep_length visible blocked
      = Ok (keep', keep_length',
            visible || existsb CampaignXSupporter.visible_to_public temps,
            blocked || existsb CampaignXSupporter.visibility_blocked_by_we_vote temps).
Proof.
  intros H temps. induction temps as [| t temps IH];
    intros keep keep_length visible blocked Htext.
  - cbn. rewrite !orb_false_r. eauto.
  - cbn [fold_duplicates existsb].
    destruct (CampaignXSupporter.supporter_endorsement t) as [text |] eqn:Ht;
      [| exfalso; apply (Htext t); [now left | assumption]].
    cbn [len_text bind]. rewrite !positive_value_exists_bool.
    assert (Hrest : forall t', In t' temps ->
              CampaignXSupporter.supporter_endorsement t' <> None).
    { intros t' Hin. apply Htext. now right. }
    destruct (keep_length <? py_len text)%Z.
    + unfold len_if_positive. cbn [py_opt_str len_text].
      destruct (positive_value_exists (PStr text)); cbn [bind];
        match goal with
        | |- context [fold_duplicates temps ?k ?n ?vis ?blk] =>
            destruct (IH k n vis blk Hrest) as (k' & n' & ->)
        end;
        exists k', n'; destruct visible, blocked; cbn; now rewrite ?orb_assoc.
    + cbn [bind].
      match goal with
      | |- context [fold_duplicates temps ?k ?n ?vis ?blk] =>
          destruct (IH k n vis blk Hrest) as (k' & n' & ->)
      end.
      exists k', n'. destruct visible, blocked; cbn; now rewrite ?orb_assoc.
Qed.

Lemma filter_filter_and : forall A (f g : A -> bool) (l : list A),
  filter f (filter g l) = filter (fun x => g x && f x) l.
Proof.
  intros A f g l. induction l as [| x l IH]; cbn; [reflexivity |].
  destruct (g x); cbn; [destruct (f x) |]; now rewrite IH.
Qed.

Lemma filter_all : forall A (f : A -> bool) (l : list A),
  (forall x, In x l -> f x = true) -> filter f l = l.
Proof.
  intros A f l Hall. induction l as [| x l IH]; cbn; [reflexivity |].
  rewrite (Hall x) by now left. f_equal. apply IH. intros y Hy. apply Hall.
  now right.
Qed.

Lemma filter_none : forall A (f : A -> bool) (l : list A),
  (forall x, In x l -> f x = false) -> filter f l = [].
Proof.
  intros A f l Hnone. induction l as [| x l IH]; cbn; [reflexivity |].
  rewrite (Hnone x) by now left. apply IH. intros y Hy. apply Hnone. now right.
Qed.

(** The second loop on a store that answers deletes the rows of [temps]. *)
Lemma delete_duplicates_answers :
  forall temps (st : Store) rows,
    db_error st = None ->
    delete_duplicates temps (set_supporter_rows st rows)
    = (Ok tt, set_supporter_rows st (filter (not_among temps) rows)).
Proof.
  induction temps as [| t temps IH]; intros st rows Hst.
  - cbn [delete_duplicates]. rewrite filter_all; [reflexivity |].
    intros; reflexivity.
  - cbn [delete_duplicates].
    assert (Hst' : db_error (set_supporter_rows st rows) = None) by exact Hst.
    rewrite (db_run_ok _ _ Hst').
    change (set_supporter_rows (set_supporter_rows st rows)
              (delete_row CampaignXSupporter.id t
                 (supporter_rows (set_supporter_rows st rows))))
      with (set_supporter_rows st (delete_row CampaignXSupporter.id t rows)).
    rewrite (IH st _ Hst). unfold delete_row. rewrite filter_filter_and.
    do 2 f_equal. apply filter_ext. intro r. unfold not_among. cbn [existsb].
    now rewrite negb_orb.
Qed.

Section KeptRow.
Variable matches : CampaignXSupporter.t -> bool.
Variable first kept : CampaignXSupporter.t.
Variable temps : list CampaignXSupporter.t.
Hypothesis kept_id : CampaignXSupporter.id kept = CampaignXSupporter.id first.
Hypothesis kept_matches : matches kept = true.
Hypothesis first_not_deleted : not_among temps first = true.

Lemma saved_over_first : forall r,
  CampaignXSupporter.id r = CampaignXSupporter.id first -> saved_over kept r = kept.
Proof.
  intros r Hid. unfold saved_over. rewrite kept_id, Hid.
  now rewrite Nat.eqb_refl.
Qed.

Lemma saved_over_other : forall r,
  CampaignXSupporter.id r <> CampaignXSupporter.id first -> saved_over kept r = r.
Proof.
  intros r Hid. unfold saved_over. rewrite kept_id.
  now destruct (Nat.eqb_spec (CampaignXSupporter.id r) (CampaignXSupporter.id first)).
Qed.

Lemma not_among_id : forall r r',
  CampaignXSupporter.id r = CampaignXSupporter.id r' ->
  not_among temps r = not_among temps r'.
Proof. intros r r' Hid. unfold not_among. now rewrite Hid. Qed.

(** rows none of which has the key of the first row: the matching ones
    are deleted *)
Lemma others_all_deleted : forall rows,
  (forall r, In r rows -> CampaignXSupporter.id r <> CampaignXSupporter.id first) ->
  (forall r, In r rows -> matches r = true -> not_among temps r = false) ->
  filter matches (filter (not_among temps) (map (saved_over kept) rows)) = [].
Proof.
  intros rows Hother Hdeleted. rewrite filter_filter_and. apply filter_none.
  intros r' Hr'. apply in_map_iff in Hr'. destruct Hr' as (r & <- & Hr).
  rewrite (saved_over_other r (Hother r Hr)).
  destruct (matches r) eqn:Hm; [| now rewrite andb_false_r].
  now rewrite (Hdeleted r Hr Hm).
Qed.

(** After the first row is saved as [kept] and the rows of [temps] are
    deleted, [kept] is the one matching row left. *)
Lemma kept_row_alone : forall rows,
  NoDup (map CampaignXSupporter.id rows) ->
  In first rows ->
  (forall r, In r rows -> matches r = true ->
             CampaignXSupporter.id r = CampaignXSupporter.id first
             \/ not_among temps r = false) ->
  filter matches (filter (not_among temps) (map (saved_over kept) rows)) = [kept].
Proof.
  induction rows as [| r rows IH]; intros Hnodup Hin Hcover; [contradiction |].
  cbn [map] in Hnodup. apply NoDup_cons_iff in Hnodup.
  destruct Hnodup as [Hfresh Hnodup].
  cbn [map filter].
  destruct (Nat.eq_dec (CampaignXSupporter.id r) (CampaignXSupporter.id first))
    as [Heq | Hneq].
  - rewrite (saved_over_first r Heq).
    rewrite (not_among_id kept first kept_id), first_not_deleted.
    cbn [filter]. rewrite kept_matches. f_equal.
    apply others_all_deleted.
    + intros r' Hr' Hid. apply Hfresh. rewrite Heq, <- Hid. now apply in_map.
    + intros r' Hr' Hm. destruct (Hcover r' (or_intror Hr') Hm) as [Hid | Hdel];
        [| assumption].
      exfalso. apply Hfresh. rewrite Heq, <- Hid. now apply in_map.
  - rewrite (saved_over_other r Hneq).
    destruct Hin as [-> | Hin]; [contradiction |].
    assert (Hr : matches r && not_among temps r = false).
    { destruct (matches r) eqn:Hm; [| reflexivity]. cbn.
      destruct (Hcover r (or_introl eq_refl) Hm); [contradiction | assumption]. }
    destruct (not_among temps r) eqn:Hkeep.
    + cbn [filter]. rewrite andb_true_r in Hr. rewrite Hr.
      apply IH; try assumption. intros r' Hr'. apply Hcover. now right.
    + apply IH; try assumption. intros r' Hr'. apply Hcover. now right.
Qed.
End KeptRow.

Lemma repaired_first_supporter_fields :
  forall (H : Helpers) s voter visible blocked,
    let kept := repaired_first_supporter s voter visible blocked in
    CampaignXSupporter.id kept = CampaignXSupporter.id s
    /\ CampaignXSupporter.campaignx_we_vote_id kept
       = CampaignXSupporter.campaignx_we_vote_id s
    /\ CampaignXSupporter.voter_we_vote_id kept = CampaignXSupporter.voter_we_vote_id s
    /\ CampaignXSupporter.supporter_endorsement kept
       = CampaignXSupporter.supporter_endorsement s
    /\ CampaignXSupporter.visible_to_public kept = visible
    /\ CampaignXSupporter.visibility_blocked_by_we_vote kept = blocked.
Proof.
  intros H s voter visible blocked. unfold repaired_first_supporter.
  rewrite positive_value_exists_empty. cbn. auto 10.
Qed.

Lemma len_if_positive_answers : forall (H : Helpers) value,
  exists n, len_if_positive value = Ok n.
Proof.
  intros H [s |]; unfold len_if_positive; cbn [py_opt_str].
  - destruct (positive_value_exists (PStr s)); cbn; eauto.
  - rewrite positive_value_exists_None. eauto.
Qed.

Lemma NoDup_map_filter : forall A B (f : A -> B) (p : A -> bool) (l : list A),
  NoDup (map f l) -> NoDup (map f (filter p l)).
Proof.
  intros A B f p l. induction l as [| x l IH]; cbn; intro Hnodup; [constructor |].
  apply NoDup_cons_iff in Hnodup. destruct Hnodup as [Hx Hl].
  destruct (p x); cbn; [| now apply IH].
  constructor; [| now apply IH].
  intro Hin. apply Hx. apply in_map_iff in Hin. destruct Hin as (y & Hy & Hin).
  apply filter_In in Hin. apply in_map_iff. exists y. tauto.
Qed.

Lemma not_among_spec : forall temps r,
  not_among temps r = false
  <-> exists t, In t temps /\ CampaignXSupporter.id r = CampaignXSupporter.id t.
Proof.
  intros temps r. unfold not_among. rewrite negb_false_iff, existsb_exists.
  split; intros (t & Hin & Hid); exists t; split; try assumption;
    now apply Nat.eqb_eq.
Qed.

(** The facts about the ordered duplicates that the repair relies on. *)
Lemma ordered_duplicates :
  forall (DB : Database) (st : Store) c v first temps,
    NoDup (map CampaignXSupporter.id (supporter_rows st)) ->
    sort_rows [fun s => Z.of_nat (CampaignXSupporter.id s)] (duplicates st c v)
    = first :: temps ->
    In first (duplicates st c v)
    /\ (forall d, In d (duplicates st c v) ->
                  (CampaignXSupporter.id first <= CampaignXSupporter.id d)%nat)
    /\ (forall d, In d (duplicates st c v) -> d = first \/ In d temps)
    /\ (forall t, In t temps ->
                  In t (duplicates st c v)
                  /\ (CampaignXSupporter.id first < CampaignXSupporter.id t)%nat)
    /\ not_among temps first = true.
Proof.
  intros DB st c v first temps Hnodup Hsort.
  set (key := fun s => Z.of_nat (CampaignXSupporter.id s)) in *.
  pose proof (sort_rows_permutation DB [key] (duplicates st c v)) as Hperm.
  rewrite Hsort in Hperm.
  assert (Hids : NoDup (map CampaignXSupporter.id (first :: temps))).
  { apply (Permutation_NoDup (l := map CampaignXSupporter.id (duplicates st c v))).
    - symmetry. now apply Permutation_map.
    - unfold duplicates. now apply NoDup_map_filter. }
  cbn [map] in Hids. apply NoDup_cons_iff in Hids. destruct Hids as [Hfirst _].
  assert (Hleast : forall d, In d (duplicates st c v) ->
            (CampaignXSupporter.id first <= CampaignXSupporter.id d)%nat).
  { intros d Hd. pose proof (sort_rows_head_least DB key _ Hsort d Hd) as Hle.
    unfold key in Hle. lia. }
  split; [| split; [| split; [| split]]].
  - apply (Permutation_in _ Hperm). now left.
  - exact Hleast.
  - intros d Hd. apply (Permutation_in _ (Permutation_sym Hperm)) in Hd.
    destruct Hd as [<- | Hd]; [now left | now right].
  - intros t Ht.
    assert (Hd : In t (duplicates st c v)).
    { apply (Permutation_in _ Hperm). now right. }
    split; [exact Hd |].
    specialize (Hleast t Hd).
    assert (CampaignXSupporter.id first <> CampaignXSupporter.id t).
    { intro Heq. apply Hfirst. rewrite Heq. now apply in_map. }
    lia.
  - destruct (not_among temps first) eqn:Hna; [reflexivity |].
    apply not_among_spec in Hna. destruct Hna as (t & Ht & Hid).
    exfalso. apply Hfirst. rewrite Hid. now apply in_map.
Qed.

Lemma repair_query_answers :
  forall (DB : Database) (st : Store) c v,
    db_error st = None ->
    qs_list st
      (order_by (fun s => Z.of_nat (CampaignXSupporter.id s))
         (qs_filter
            (fun s =>
               String.eqb (CampaignXSupporter.campaignx_we_vote_id s) c
               && String.eqb (CampaignXSupporter.voter_we_vote_id s) v)
            (objects_all (supporter_rows st))))
    = Ok (sort_rows [fun s => Z.of_nat (CampaignXSupporter.id s)]
            (duplicates st c v)).
Proof.
  intros DB st c v Hst. unfold qs_list. now rewrite (db_run_ok _ _ Hst).
Qed.

(** The repair of two to twenty-five duplicates, all but the oldest carrying
    an endorsement text, on a store that answers. *)
Lemma repair_campaignx_supporter_answers :
  forall (H : Helpers) (DB : Database) (st : Store) c v first temps,
    db_error st = None ->
    positive_value_exists (PStr c) = true ->
    positive_value_exists (PStr v) = true ->
    NoDup (map CampaignXSupporter.id (supporter_rows st)) ->
    sort_rows [fun s => Z.of_nat (CampaignXSupporter.id s)] (duplicates st c v)
    = first :: temps ->
    (1 <= List.length temps <= 24)%nat ->
    (forall t, In t temps -> CampaignXSupporter.supporter_endorsement t <> None) ->
    let kept :=
      repaired_first_supporter first v
        (existsb CampaignXSupporter.visible_to_public (duplicates st c v))
        (existsb CampaignXSupporter.visibility_blocked_by_we_vote
                 (duplicates st c v)) in
    repair_campaignx_supporter st c v
    = (repair_results "REPAIR_CAMPAIGNX_SUPPORTER_FOUND_MULTIPLE_WITH_WE_VOTE_ID "
         true true,
       set_supporter_rows st
         (filter (not_among temps) (map (saved_over kept) (supporter_rows st)))).
Proof.
  intros H DB st c v first temps Hst Hc Hv Hnodup Hsort Hlen Htext kept.
  destruct (ordered_duplicates DB st c v Hnodup Hsort)
    as (Hfirst & _ & _ & _ & _).
  pose proof (sort_rows_permutation DB
                [fun s => Z.of_nat (CampaignXSupporter.id s)] (duplicates st c v))
    as Hperm.
  rewrite Hsort in Hperm.
  unfold repair_campaignx_supporter.
  rewrite Hc, Hv, (repair_query_answers DB _ _ _ Hst), Hsort. cbn [andb].
  destruct temps as [| second rest]; [cbn in Hlen; lia |].
  rewrite firstn_all2 by (cbn [List.length] in Hlen |- *; lia).
  destruct (len_if_positive_answers H
              (CampaignXSupporter.supporter_endorsement first)) as (n0 & ->).
  cbn [bind].
  destruct (fold_duplicates_flags H (second :: rest)
              (CampaignXSupporter.supporter_endorsement first) n0
              (CampaignXSupporter.visible_to_public first)
              (CampaignXSupporter.visibility_blocked_by_we_vote first) Htext)
    as (keep' & keep_length' & ->).
  assert (Hvisible :
    CampaignXSupporter.visible_to_public first
    || existsb CampaignXSupporter.visible_to_public (second :: rest)
    = existsb CampaignXSupporter.visible_to_public (duplicates st c v)).
  { now rewrite <- (existsb_permutation _ Hperm). }
  assert (Hblocked :
    CampaignXSupporter.visibility_blocked_by_we_vote first
    || existsb CampaignXSupporter.visibility_blocked_by_we_vote (second :: rest)
    = existsb CampaignXSupporter.visibility_blocked_by_we_vote (duplicates st c v)).
  { now rewrite <- (existsb_permutation _ Hperm). }
  rewrite Hvisible, Hblocked. fold kept.
  rewrite (db_run_ok _ _ Hst).
  assert (Hsave :
    save_row CampaignXSupporter.id kept (supporter_rows st)
    = map (saved_over kept) (supporter_rows st)).
  { unfold save_row.
    assert (Hexists :
      existsb (fun r => Nat.eqb (CampaignXSupporter.id r) (CampaignXSupporter.id kept))
              (supporter_rows st) = true).
    { apply existsb_exists. exists first. split.
      - unfold duplicates in Hfirst. now apply filter_In in Hfirst.
      - apply Nat.eqb_eq. symmetry.
        apply (repaired_first_supporter_fields H first v). }
    now rewrite Hexists. }
  rewrite Hsave, (delete_duplicates_answers _ _ _ Hst).
  reflexivity.
Qed.

(** C2 (amended).  On a store that answers and whose supporter rows have
    distinct primary keys, for a (campaign, voter) pair with N duplicate
    rows, 2 <= N <= 25, of which every row but the oldest carries an
    endorsement text: the repair succeeds; after it exactly one row of the
    pair remains, with the least primary key of the originals (the first by
    creation order); its [visible_to_public] and
    [visibility_blocked_by_we_vote] flags are the disjunction of those flags
    over all the originals; and a second repair leaves the store as it
    is. *)
Theorem C2_repair_merges_duplicates :
  forall (H : Helpers) (DB : Database) (st : Store) (c v : string),
    db_error st = None ->
    positive_value_exists (PStr c) = true ->
    positive_value_exists (PStr v) = true ->
    NoDup (map CampaignXSupporter.id (supporter_rows st)) ->
    (2 <= List.length (duplicates st c v) <= 25)%nat ->
    (forall d d',
       In d (duplicates st c v) -> In d' (duplicates st c v) ->
       (CampaignXSupporter.id d' < CampaignXSupporter.id d)%nat ->
       CampaignXSupporter.supporter_endorsement d <> None) ->
    let st' := snd (repair_campaignx_supporter st c v) in
    dict_get (fst (repair_campaignx_supporter st c v)) "success" = Ok (PBool true)
    /\ exists kept,
         duplicates st' c v = [kept]
         /\ (exists d, In d (duplicates st c v)
                       /\ CampaignXSupporter.id d = CampaignXSupporter.id kept)
         /\ (forall d, In d (duplicates st c v) ->
                       (CampaignXSupporter.id kept <= CampaignXSupporter.id d)%nat)
         /\ CampaignXSupporter.visible_to_public kept
            = existsb CampaignXSupporter.visible_to_public (duplicates st c v)
         /\ CampaignXSupporter.visibility_blocked_by_we_vote kept
            = existsb CampaignXSupporter.visibility_blocked_by_we_vote
                      (duplicates st c v)
         /\ snd (repair_campaignx_supporter st' c v) = st'.
Proof.
  intros H DB st c v Hst Hc Hv Hnodup Hlen Htext.
  set (key := fun s => Z.of_nat (CampaignXSupporter.id s)).
  destruct (sort_rows [key] (duplicates st c v)) as [| first temps] eqn:Hsort.
  { pose proof (sort_rows_length DB [key] (duplicates st c v)) as Hl.
    rewrite Hsort in Hl. cbn in Hl. lia. }
  assert (Htemps : (1 <= List.length temps <= 24)%nat).
  { pose proof (sort_rows_length DB [key] (duplicates st c v)) as Hl.
    rewrite Hsort in Hl. cbn [List.length] in Hl. lia. }
  destruct (ordered_duplicates DB st c v Hnodup Hsort)
    as (Hfirst & Hleast & Hcover & Hyounger & Hnot_among).
  assert (Htemps_text : forall t, In t temps ->
            CampaignXSupporter.supporter_endorsement t <> None).
  { intros t Ht. destruct (Hyounger t Ht) as [Hd Hlt].
    exact (Htext t first Hd Hfirst Hlt). }
  pose proof (repair_campaignx_supporter_answers H DB st c v Hst Hc Hv Hnodup Hsort
                Htemps Htemps_text) as Hrepair.
  cbv zeta in Hrepair.
  set (kept :=
         repaired_first_supporter first v
           (existsb CampaignXSupporter.visible_to_public (duplicates st c v))
           (existsb CampaignXSupporter.visibility_blocked_by_we_vote
                    (duplicates st c v))) in *.
  destruct (repaired_first_supporter_fields H first v
              (existsb CampaignXSupporter.visible_to_public (duplicates st c v))
              (existsb CampaignXSupporter.visibility_blocked_by_we_vote
                       (duplicates st c v)))
    as (Hid & Hcampaign & Hvoter & _ & Hvisible & Hblocked).
  fold kept in Hid, Hcampaign, Hvoter, Hvisible, Hblocked.
  cbv zeta. rewrite Hrepair. cbn [fst snd].
  split; [reflexivity |].
  exists kept.
  set (matches := fun s =>
         String.eqb (CampaignXSupporter.campaignx_we_vote_id s) c
         && String.eqb (CampaignXSupporter.voter_we_vote_id s) v).
  assert (Hfirst_rows : In first (supporter_rows st) /\ matches first = true).
  { unfold duplicates in Hfirst. now apply filter_In in Hfirst. }
  destruct Hfirst_rows as [Hfirst_in Hfirst_matches].
  assert (Hkept_matches : matches kept = true).
  { unfold matches. rewrite Hcampaign, Hvoter. exact Hfirst_matches. }
  assert (Hremaining :
    duplicates
      (set_supporter_rows st
         (filter (not_among temps) (map (saved_over kept) (supporter_rows st))))
      c v = [kept]).
  { unfold duplicates. cbn [supporter_rows set_supporter_rows].
    apply (@kept_row_alone matches first kept temps Hid Hkept_matches Hnot_among
             (supporter_rows st) Hnodup Hfirst_in).
    intros r Hr Hm.
    assert (Hd : In r (duplicates st c v)).
    { unfold duplicates. apply filter_In. now split. }
    destruct (Hcover r Hd) as [-> | Ht]; [now left |].
    right. apply not_among_spec. now exists r. }
  split; [exact Hremaining |].
  split; [exists first; split; [exact Hfirst | now symmetry] |].
  split; [intros d Hd; rewrite Hid; now apply Hleast |].
  split; [exact Hvisible |]. split; [exact Hblocked |].
  unfold repair_campaignx_supporter. rewrite Hc, Hv. cbn [andb].
  rewrite repair_query_answers by exact Hst.
  rewrite Hremaining, sort_rows_singleton.
  reflexivity.
Qed.

Lemma C2_repair_merges_duplicates_witness :
  let st' :=
    snd (repair_campaignx_supporter (H := model_helpers) (DB := model_database)
        duplicate_store
           "wv02camp1" "wv02voter1") in
  dict_get (fst (repair_campaignx_supporter (H := model_helpers) (DB := model_database)
      duplicate_store
                   "wv02camp1" "wv02voter1")) "success" = Ok (PBool true)
  /\ exists kept,
       duplicates st' "wv02camp1" "wv02voter1" = [kept]
       /\ (exists d, In d (duplicates duplicate_store "wv02camp1" "wv02voter1")
                     /\ CampaignXSupporter.id d = CampaignXSupporter.id kept)
       /\ (forall d, In d (duplicates duplicate_store "wv02camp1" "wv02voter1") ->
                     (CampaignXSupporter.id kept <= CampaignXSupporter.id d)%nat)
       /\ CampaignXSupporter.visible_to_public kept
          = existsb CampaignXSupporter.visible_to_public
              (duplicates duplicate_store "wv02camp1" "wv02voter1")
       /\ CampaignXSupporter.visibility_blocked_by_we_vote kept
          = existsb CampaignXSupporter.visibility_blocked_by_we_vote
              (duplicates duplicate_store "wv02camp1" "wv02voter1")
       /\ snd (repair_campaignx_supporter (H := model_helpers) (DB := model_database)
           st'
                 "wv02camp1" "wv02voter1") = st'.
Proof.
  apply (@C2_repair_merges_duplicates model_helpers model_database duplicate_store
           "wv02camp1" "wv02voter1").
  - reflexivity.
  - reflexivity.
  - reflexivity.
  - simpl. repeat constructor; simpl; intuition discriminate.
  - simpl. lia.
  - simpl. intros d d' [<- | [<- | []]] _ _; discriminate.
Defined.

(** C2, as stated, fails three times.  With endorsements "a" and "bbb" the
    row that remains keeps "a", the endorsement of the first row: line 1545
    stores the longest text in an attribute that is no column.  With 26
    duplicates, 2 rows remain: the safety valve stops at the first 25.  With
    a second row that has no endorsement, [len(None)] raises, the repair
    reports failure and both rows remain. *)
Lemma C2_counterexample_endorsement_valve_and_null :
  map CampaignXSupporter.supporter_endorsement
      (duplicates
         (snd (repair_campaignx_supporter (H := model_helpers) (DB := model_database)
             duplicate_store
                 "wv02camp1" "wv02voter1"))
         "wv02camp1" "wv02voter1")
  = [Some "a"]
  /\ List.length
       (duplicates
          (snd (repair_campaignx_supporter (H := model_helpers) (DB := model_database)
                  many_duplicates_store "wv02camp1" "wv02voter1"))
          "wv02camp1" "wv02voter1")
     = 2%nat
  /\ List.length
       (duplicates
          (snd (repair_campaignx_supporter (H := model_helpers) (DB := model_database)
                  unendorsed_duplicates_store "wv02camp1" "wv02voter1"))
          "wv02camp1" "wv02voter1")
     = 2%nat
  /\ dict_get
       (fst (repair_campaignx_supporter (H := model_helpers) (DB := model_database)
               unendorsed_duplicates_store "wv02camp1" "wv02voter1"))
       "success"
     = Ok (PBool false).
Proof. vm_compute. auto. Qed.

(** * Properties of the rest of the manager *)

(** ** Goal levels *)

Lemma fetch_next_goal_level_int : forall (C : Conversions) (n t : Z),
  t <> 0%Z ->
  fetch_next_goal_level (PInt n) (PInt t) =
  Computed (if (n mod t =? 0)%Z then n else n + t - n mod t)%Z.
Proof.
  intros C n t Ht. unfold fetch_next_goal_level, py_mod.
  rewrite !convert_to_int_int. cbn [try_catch].
  destruct (Z.eqb_spec t 0) as [->|_]; [contradiction|].
  now destruct (n mod t =? 0)%Z.
Qed.

(** X1.  [fetch_next_goal_level] (lines 151-164), on an integer count and a
    positive integer tier size, returns the least multiple of the tier size
    that is not below the count; on its own result it returns that result
    again. *)
Theorem fetch_next_goal_level_is_least_multiple :
  forall (C : Conversions) (supporters_count tier_size : Z),
    (0 < tier_size)%Z ->
    exists level,
      fetch_next_goal_level (PInt supporters_count) (PInt tier_size) = Computed level
      /\ (tier_size | level)%Z
      /\ (supporters_count <= level < supporters_count + tier_size)%Z
      /\ fetch_next_goal_level (PInt level) (PInt tier_size) = Computed level.
Proof.
  intros C n t Ht.
  assert (Hne : t <> 0%Z) by lia.
  pose proof (Z.mod_pos_bound n t Ht) as Hb.
  pose proof (Z.div_mod n t Hne) as Hd.
  exists (if (n mod t =? 0)%Z then n else n + t - n mod t)%Z.
  split; [now apply fetch_next_goal_level_int|].
  destruct (Z.eqb_spec (n mod t) 0) as [Hz|Hz].
  - repeat split; try lia.
    + exists (n / t)%Z. lia.
    + rewrite fetch_next_goal_level_int by assumption.
      now rewrite Hz.
  - assert (Hdiv : (t | n + t - n mod t)%Z).
    { exists (n / t + 1)%Z. lia. }
    repeat split; try lia; try assumption.
    rewrite fetch_next_goal_level_int by assumption.
    apply Z.mod_divide in Hdiv; [|assumption].
    now rewrite Hdiv.
Qed.

Lemma fetch_next_goal_level_is_least_multiple_witness :
  exists level,
    fetch_next_goal_level (C := model_conversions) (PInt 1001) (PInt 1000) = Computed level
    /\ (1000 | level)%Z
    /\ (1001 <= level < 1001 + 1000)%Z
    /\ fetch_next_goal_level (C := model_conversions) (PInt level) (PInt 1000) = Computed level.
Proof.
  apply (@fetch_next_goal_level_is_least_multiple model_conversions 1001 1000).
  reflexivity.
Defined.

Lemma next_goal_level_or_zero_bounds : forall (C : Conversions) (n t : Z),
  (0 < t)%Z ->
  exists q m, n = (t * q + m)%Z /\ (0 <= m < t)%Z
    /\ next_goal_level_or_zero n t = (if (m =? 0)%Z then n else n + t - m)%Z.
Proof.
  intros C n t Ht. unfold next_goal_level_or_zero.
  rewrite fetch_next_goal_level_int by lia.
  exists (n / t)%Z, (n mod t)%Z. repeat split.
  - apply Z.div_mod. lia.
  - apply Z.mod_pos_bound; lia.
  - apply Z.mod_pos_bound; lia.
Qed.

(** X2.  [fetch_supporters_count_next_goal] (lines 174-212), on integers, never
    returns less than the count.  When the victory goal is not below the
    count it returns the count itself; otherwise it returns at least 50,
    exactly 50 for a count under 50, and less than twice the count from 50
    on. *)
Theorem fetch_supporters_count_next_goal_bounds :
  forall (C : Conversions) (supporters_count supporters_count_victory_goal : Z),
    let goal :=
      fetch_supporters_count_next_goal (PInt supporters_count)
        (PInt supporters_count_victory_goal) in
    (supporters_count <= goal)%Z
    /\ ((supporters_count <= supporters_count_victory_goal)%Z ->
        goal = supporters_count)
    /\ ((supporters_count_victory_goal < supporters_count)%Z ->
        (50 <= goal)%Z
        /\ ((supporters_count < 50)%Z -> goal = 50%Z)
        /\ ((50 <= supporters_count)%Z -> (goal < 2 * supporters_count)%Z)).
Proof.
  intros C n g. cbv zeta. unfold fetch_supporters_count_next_goal.
  rewrite !convert_to_int_int. cbn [try_catch].
  destruct (Z.geb_spec g n) as [Hg|Hg].
  - repeat split; intros; lia.
  - repeat
      match goal with
      | |- context [(n >=? ?k)%Z] => destruct (Z.geb_spec n k)
      end;
    try match goal with
        | |- context [next_goal_level_or_zero n ?t] =>
            destruct (@next_goal_level_or_zero_bounds C n t ltac:(lia))
              as (q & m & Hn & Hm & ->);
            destruct (Z.eqb_spec m 0)
        end;
    repeat split; intros; lia.
Qed.

(** ** Recommended campaigns *)

Lemma qs_list_ok : forall (DB : Database) R (st : Store) (qs : QuerySet R),
  db_error st = None -> qs_list st qs = Ok (qs_result qs).
Proof. intros. unfold qs_list. now apply db_run_ok. Qed.

Lemma qs_list_failing : forall (DB : Database) R (st : Store) (qs : QuerySet R) msg,
  db_error st = Some msg -> qs_list st qs = Raise (DatabaseError msg).
Proof. intros. unfold qs_list. now apply db_run_failing. Qed.

Lemma NoDup_firstn_rows : forall A (n : nat) (l : list A),
  NoDup l -> NoDup (firstn n l).
Proof.
  intros A n l Hl. revert n. induction Hl as [|x l Hx Hl IH]; intros [|n];
    cbn [firstn]; try constructor.
  - intros Hin. apply Hx. now apply In_firstn_In in Hin.
  - apply IH.
Qed.

Lemma distinct_NoDup : forall l, NoDup (distinct l).
Proof. intros l. apply NoDup_nodup. Qed.

Lemma is_supporters_count_minimum_exceeded_gate : forall (H : Helpers) c,
  is_supporters_count_minimum_exceeded c =
  ((CampaignX.supporters_count c >=? SUPPORTERS_COUNT_MINIMUM_FOR_LISTING)%Z
   || CampaignX.supporters_count_minimum_ignored c).
Proof.
  intros H c. unfold is_supporters_count_minimum_exceeded.
  rewrite positive_value_exists_bool.
  destruct (CampaignX.supporters_count_minimum_ignored c),
    (CampaignX.supporters_count c >=? SUPPORTERS_COUNT_MINIMUM_FOR_LISTING)%Z;
    reflexivity.
Qed.

(** the rows the filters of the filler query keep *)
Lemma filler_filters_spec : forall (H : Helpers) (DB : Database) today exclude rows c,
  In c
    (qs_result
       ((if (0 <? List.length exclude)%nat
         then qs_filter (fun c => negb (col_in (CampaignX.we_vote_id c) exclude))
         else fun q => q)
          (qs_filter
             (fun c => match CampaignX.final_election_date_as_integer c with
                       | None => true
                       | Some d => (d >? today + FINAL_ELECTION_DATE_COOL_DOWN)%Z
                       end)
             (qs_filter
                (fun c =>
                   (CampaignX.supporters_count c >=? SUPPORTERS_COUNT_MINIMUM_FOR_LISTING)%Z
                   || CampaignX.supporters_count_minimum_ignored c)
                (qs_filter
                   (fun c => negb (CampaignX.in_draft_mode c)
                             && negb (CampaignX.is_blocked_by_we_vote c)
                             && negb (CampaignX.is_not_promoted_by_we_vote c)
                             && CampaignX.is_still_active c)
                   (objects_all rows))))))
  <-> In c rows /\ recommendable today exclude c.
Proof.
  intros H DB today exclude rows c.
  assert (Hex : forall q : QuerySet CampaignX.t,
             qs_ordering q = [] -> qs_stop q = None ->
             (In c (qs_result
                      ((if (0 <? List.length exclude)%nat
                        then qs_filter
                               (fun c => negb (col_in (CampaignX.we_vote_id c) exclude))
                        else fun q => q) q))
              <-> In c (qs_rows q)
                  /\ (forall s, CampaignX.we_vote_id c = Some s -> ~ In (Some s) exclude))).
  { intros q Ho Hs. destruct exclude as [|e exclude'].
    - cbn [List.length Nat.ltb Nat.leb]. unfold qs_result. rewrite Ho, Hs.
      rewrite sort_rows_no_ordering. split; [intros Hin; split; [assumption|]|tauto].
      intros s _ [].
    - cbn [List.length Nat.ltb Nat.leb]. unfold qs_result, qs_filter.
      cbn [qs_rows qs_ordering qs_stop]. rewrite Ho, Hs, sort_rows_no_ordering.
      rewrite filter_In, negb_true_iff.
      split; intros [Hin Hc]; (split; [assumption|]).
      + intros s Hs' Hin'.
        assert (Ht : col_in (CampaignX.we_vote_id c) (e :: exclude') = true).
        { apply col_in_spec. eauto. }
        congruence.
      + destruct (col_in (CampaignX.we_vote_id c) (e :: exclude')) eqn:Ht;
          [|reflexivity].
        apply col_in_spec in Ht as (s & Hs' & Hin'). now apply Hc in Hs'. }
  rewrite Hex by reflexivity.
  unfold qs_filter, objects_all. cbn [qs_rows].
  rewrite !filter_In. unfold recommendable.
  rewrite is_supporters_count_minimum_exceeded_gate.
  rewrite !andb_true_iff, !negb_true_iff.
  split.
  - intros [[[[Hin [[[? ?] ?] ?]] ?] Hd] ?]. repeat split; try assumption.
    intros d Hdate. rewrite Hdate in Hd. lia.
  - intros [Hin (? & ? & ? & ? & ? & Hd & ?)]. repeat split; try assumption.
    destruct (CampaignX.final_election_date_as_integer c) as [d|]; [|reflexivity].
    specialize (Hd d eq_refl). lia.
Qed.

(** X3.  On a store that answers,
    [retrieve_campaignx_we_vote_id_list_filler_options] (lines 1130-1170)
    succeeds and returns identifiers without repetition, at most [limit] of
    them when [limit] is positive, and reports their number; each belongs to
    a campaign that is published, not blocked, promoted, active, for which
    [is_supporters_count_minimum_exceeded] (lines 76-80) holds, whose
    election date is absent or later than today plus the cool-down, and
    that is not in the list to exclude.  Without a positive limit every such
    campaign is returned. *)
Theorem filler_options_are_recommendable :
  forall (H : Helpers) (DB : Database)
      (st : Store) (today : Z) (exclude : list (option string))
         (limit : Z),
    db_error st = None ->
    let results :=
      retrieve_campaignx_we_vote_id_list_filler_options st today exclude limit in
    let ids := WeVoteIdListResults.campaignx_we_vote_id_list results in
    WeVoteIdListResults.success results = true
    /\ WeVoteIdListResults.campaignx_we_vote_id_list_found results
       = PInt (Z.of_nat (List.length ids))
    /\ NoDup ids
    /\ ((0 < limit)%Z -> (Z.of_nat (List.length ids) <= limit)%Z)
    /\ (forall id, In id ids ->
          exists c, In c (campaignx_rows st) /\ CampaignX.we_vote_id c = id
                    /\ recommendable today exclude c)
    /\ ((limit <= 0)%Z ->
        forall c, In c (campaignx_rows st) -> recommendable today exclude c ->
                  In (CampaignX.we_vote_id c) ids).
Proof.
  intros H DB st today exclude limit Hst.
  unfold retrieve_campaignx_we_vote_id_list_filler_options.
  rewrite positive_value_exists_int.
  set (q := (if (0 <? List.length exclude)%nat then _ else _)).
  assert (Hq : forall c, In c (qs_result q)
                         <-> In c (campaignx_rows st) /\ recommendable today exclude c).
  { intros c. subst q. rewrite <- filler_filters_spec.
    destruct (0 <? List.length exclude)%nat; reflexivity. }
  unfold values_list_distinct.
  set (rows := qs_result q) in *. clearbody rows. clear q.
  assert (Hids : forall n : option nat,
             qs_result (mkQuerySet (distinct (map CampaignX.we_vote_id rows)) [] n)
             = match n with
               | Some n => firstn n (distinct (map CampaignX.we_vote_id rows))
               | None => distinct (map CampaignX.we_vote_id rows)
               end).
  { intros n. unfold qs_result. cbn [qs_rows qs_ordering qs_stop].
    now rewrite sort_rows_no_ordering. }
  destruct (Z.ltb_spec 0 limit) as [Hl|Hl].
  - unfold qs_slice, objects_all. destruct (Z.ltb_spec limit 0); [lia|].
    cbn [bind qs_rows qs_ordering qs_stop]. rewrite qs_list_ok by assumption.
    rewrite Hids. cbn [bind try_catch]. cbv zeta.
    cbn [WeVoteIdListResults.success
           WeVoteIdListResults.campaignx_we_vote_id_list_found
           WeVoteIdListResults.campaignx_we_vote_id_list].
    repeat split.
    + apply NoDup_firstn_rows. apply distinct_NoDup.
    + intros _. rewrite length_firstn. lia.
    + intros id Hin. apply In_firstn_In, In_distinct, in_map_iff in Hin
        as (c & Hid & Hin). apply Hq in Hin. exists c. tauto.
    + intros Hle. lia.
  - unfold objects_all. cbn [bind]. rewrite qs_list_ok by assumption.
    rewrite Hids. cbn [bind try_catch]. cbv zeta.
    cbn [WeVoteIdListResults.success
           WeVoteIdListResults.campaignx_we_vote_id_list_found
           WeVoteIdListResults.campaignx_we_vote_id_list].
    repeat split.
    + apply distinct_NoDup.
    + intros Hlt. lia.
    + intros id Hin. apply In_distinct, in_map_iff in Hin as (c & Hid & Hin).
      apply Hq in Hin. exists c. tauto.
    + intros _ c Hin Hrec. apply In_distinct, in_map. apply Hq. tauto.
Qed.

Lemma filler_options_are_recommendable_witness :
  let results :=
    retrieve_campaignx_we_vote_id_list_filler_options (H := model_helpers) (DB := model_database)
      waiver_store 20240101 [Some "wv02camp2"] 0 in
  let ids := WeVoteIdListResults.campaignx_we_vote_id_list results in
  WeVoteIdListResults.success results = true
  /\ WeVoteIdListResults.campaignx_we_vote_id_list_found results
     = PInt (Z.of_nat (List.length ids))
  /\ NoDup ids
  /\ ((0 < 0)%Z -> (Z.of_nat (List.length ids) <= 0)%Z)
  /\ (forall id, In id ids ->
        exists c, In c (campaignx_rows waiver_store) /\ CampaignX.we_vote_id c = id
                  /\ recommendable (H := model_helpers) 20240101
                       [Some "wv02camp2"] c)
  /\ ((0 <= 0)%Z ->
      forall c, In c (campaignx_rows waiver_store) ->
                recommendable (H := model_helpers) 20240101 [Some "wv02camp2"] c ->
                In (CampaignX.we_vote_id c) ids).
Proof.
  apply (@filler_options_are_recommendable model_helpers model_database
      waiver_store 20240101
           [Some "wv02camp2"] 0).
  reflexivity.
Defined.

(** ** Saving and looking up a campaign *)

Lemma save_row_In : forall R (pk : R -> nat) (x : R) rows, In x (save_row pk x rows).
Proof.
  intros R pk x rows. unfold save_row.
  destruct (existsb (fun r => Nat.eqb (pk r) (pk x)) rows) eqn:He.
  - apply existsb_exists in He as (r & Hin & Heq).
    apply in_map_iff. exists r. now rewrite Heq.
  - apply in_or_app. right. now left.
Qed.

Lemma write_campaignx_row_In : forall st c st',
  write_campaignx_row st c = Ok st' ->
  In c (campaignx_rows st')
  /\ we_vote_id_last_campaignx_integer st' = we_vote_id_last_campaignx_integer st
  /\ db_error st = None /\ db_error st' = None.
Proof.
  intros st c st' Hw. unfold write_campaignx_row, db_run in Hw.
  destruct (db_error st) eqn:Hdb; cbn [bind] in Hw; [discriminate|].
  destruct (CampaignX.campaign_title c); [|discriminate].
  destruct (CampaignX.supporters_count c <? 0)%Z; [discriminate|].
  destruct (CampaignX.supporters_count_victory_goal c <? 0)%Z; [discriminate|].
  destruct (match CampaignX.final_election_date_as_integer c with
            | Some d => (d <? 0)%Z
            | None => false
            end); [discriminate|].
  destruct (_ || _); [discriminate|].
  injection Hw as <-. cbn. repeat split; try assumption. apply save_row_In.
Qed.



Lemma we_vote_id_set_same : forall c,
  SetCampaignX.we_vote_id' (CampaignX.we_vote_id c) c = c.
Proof. intros []. reflexivity. Qed.



Lemma filter_saved_row : forall R (pk : R -> nat) (p : R -> bool) (x : R) rows,
  NoDup (map pk rows) ->
  (forall r, In r rows -> pk r <> pk x -> p r = false) ->
  p x = true ->
  filter p (save_row pk x rows) = [x].
Proof.
  intros R pk p x rows Hnd Hothers Hx.
  assert (Hmap : forall rows,
             NoDup (map pk rows) ->
             (forall r, In r rows -> pk r <> pk x -> p r = false) ->
             filter p (map (fun r => if Nat.eqb (pk r) (pk x) then x else r) rows)
             = if existsb (fun r => Nat.eqb (pk r) (pk x)) rows then [x] else []).
  { clear rows Hnd Hothers. induction rows as [|r rows IH]; intros Hnd Hothers.
    - reflexivity.
    - inversion Hnd as [|? ? Hr Hnd']; subst. cbn [map filter existsb].
      destruct (Nat.eqb_spec (pk r) (pk x)) as [He|He].
      + rewrite Hx. cbn [orb]. rewrite IH; [|assumption|intros; apply Hothers; now try right].
        destruct (existsb _ rows) eqn:Hex; [|reflexivity].
        apply existsb_exists in Hex as (r' & Hin & Heq).
        apply Nat.eqb_eq in Heq. exfalso. apply Hr. rewrite He, <- Heq.
        now apply in_map.
      + rewrite (Hothers r) by (now try left). cbn [orb].
        apply IH; [assumption|intros; apply Hothers; now try right]. }
  unfold save_row. destruct (existsb _ rows) eqn:Hex.
  - rewrite Hmap by assumption. now rewrite Hex.
  - rewrite filter_app. cbn [filter]. rewrite Hx.
    rewrite filter_none; [reflexivity|].
    intros r Hin. apply Hothers; [assumption|]. intros Heq.
    assert (Ht : existsb (fun r => Nat.eqb (pk r) (pk x)) rows = true).
    { apply existsb_exists. exists r. split; [assumption|]. now apply Nat.eqb_eq. }
    congruence.
Qed.

Lemma write_campaignx_row_unique : forall st c st' id,
  NoDup (map CampaignX.id (campaignx_rows st)) ->
  write_campaignx_row st c = Ok st' ->
  CampaignX.we_vote_id c = Some id ->
  filter (fun r => col_exact (CampaignX.we_vote_id r) id) (campaignx_rows st') = [c].
Proof.
  intros st c st' id Hnd Hw Hid. unfold write_campaignx_row, db_run in Hw.
  destruct (db_error st) eqn:Hdb; cbn [bind] in Hw; [discriminate|].
  destruct (CampaignX.campaign_title c); [|discriminate].
  destruct (CampaignX.supporters_count c <? 0)%Z; [discriminate|].
  destruct (CampaignX.supporters_count_victory_goal c <? 0)%Z; [discriminate|].
  destruct (match CampaignX.final_election_date_as_integer c with
            | Some d => (d <? 0)%Z
            | None => false
            end); [discriminate|].
  rewrite Hid in Hw.
  match type of Hw with
  | (if ?a || _ then _ else _) = _ => destruct a eqn:Hdup; [discriminate|]
  end.
  cbn [orb] in Hw.
  match type of Hw with
  | (if ?a then _ else _) = _ => destruct a; [discriminate|]
  end.
  injection Hw as <-. cbn [campaignx_rows set_campaignx_rows].
  apply filter_saved_row; [assumption| |].
  - intros r Hin Hpk.
    destruct (col_exact (CampaignX.we_vote_id r) id) eqn:Hc; [|reflexivity].
    assert (Ht : existsb (fun r => col_exact (CampaignX.we_vote_id r) id)
                   (filter (fun r => negb (Nat.eqb (CampaignX.id r) (CampaignX.id c)))
                           (campaignx_rows st)) = true).
    { apply existsb_exists. exists r. split; [|assumption].
      apply filter_In. split; [assumption|].
      apply negb_true_iff. now apply Nat.eqb_neq. }
    congruence.
  - rewrite Hid. cbn. apply String.eqb_refl.
Qed.

Lemma is_voter_campaignx_owner_returns : forall (H : Helpers) (DB : Database) st c u,
  db_error st = None -> exists b, is_voter_campaignx_owner st c u = Ok b.
Proof.
  intros H DB st c u Hst. rewrite (is_voter_campaignx_owner_answers H DB _ _ _ Hst).
  eauto.
Qed.

Lemma retrieve_campaignx_by_identifier_lemma :
  forall (H : Helpers) (DB : Database)
      (st : Store) (campaignx_we_vote_id seo_friendly_path
            voter_we_vote_id : string) (read_only : bool),
    db_error st = None ->
    positive_value_exists (PStr campaignx_we_vote_id) = true ->
    exists results,
      retrieve_campaignx st campaignx_we_vote_id seo_friendly_path voter_we_vote_id
        read_only = Ok results
      /\ AsOwnerResults.campaignx_we_vote_id results = Some campaignx_we_vote_id
      /\ match filter (fun c => col_exact (CampaignX.we_vote_id c) campaignx_we_vote_id)
                      (campaignx_rows st) with
         | [] =>
             AsOwnerResults.success results = true
             /\ AsOwnerResults.campaignx_found results = false
             /\ AsOwnerResults.campaignx results = None
             /\ AsOwnerResults.exception_does_not_exist results = true
             /\ AsOwnerResults.exception_multiple_object_returned results = false
         | [campaignx] =>
             AsOwnerResults.success results = true
             /\ AsOwnerResults.campaignx_found results = true
             /\ AsOwnerResults.campaignx results = Some campaignx
             /\ AsOwnerResults.exception_does_not_exist results = false
             /\ AsOwnerResults.exception_multiple_object_returned results = false
         | _ :: _ :: _ =>
             AsOwnerResults.success results = false
             /\ AsOwnerResults.campaignx_found results = false
             /\ AsOwnerResults.campaignx results = None
             /\ AsOwnerResults.exception_does_not_exist results = false
             /\ AsOwnerResults.exception_multiple_object_returned results = true
         end.
Proof.
  intros H DB st c seo voter ro Hst Hc. unfold retrieve_campaignx.
  rewrite Hc. rewrite db_run_ok by assumption. cbn [bind].
  replace (if positive_value_exists (PBool ro) then campaignx_rows st
           else campaignx_rows st) with (campaignx_rows st)
    by now destruct (positive_value_exists (PBool ro)).
  destruct (filter _ (campaignx_rows st)) as [|campaignx [|second rest]];
    cbn [objects_get bind aov_campaignx_found aov_campaignx aov_success aov_status
           aov_campaignx_we_vote_id aov_viewer_is_owner aov_exception_does_not_exist
           aov_exception_multiple_object_returned];
    rewrite positive_value_exists_bool.
  - eexists. split; [reflexivity|]. cbn. tauto.
  - rewrite Hc.
    destruct (positive_value_exists (PStr voter)); cbn [andb].
    + destruct (is_voter_campaignx_owner_returns H DB st c voter Hst) as [b ->].
      cbn [bind]. eexists. split; [reflexivity|]. cbn. tauto.
    + cbn [bind]. eexists. split; [reflexivity|]. cbn. tauto.
  - eexists. split; [reflexivity|]. cbn. tauto.
Qed.

(** X5.  On a store that answers, [retrieve_campaignx] (lines 718-794) called
    with a campaign identifier returns a dictionary that carries this
    identifier: with no campaign of that identifier it reports success, not
    found and [DoesNotExist]; with exactly one, success, found and that
    campaign; with more than one, failure, not found and
    [MultipleObjectsReturned]. *)
Theorem retrieve_campaignx_by_identifier :
  forall (H : Helpers) (DB : Database)
      (st : Store) (campaignx_we_vote_id seo_friendly_path
            voter_we_vote_id : string) (read_only : bool),
    db_error st = None ->
    positive_value_exists (PStr campaignx_we_vote_id) = true ->
    exists results,
      retrieve_campaignx st campaignx_we_vote_id seo_friendly_path voter_we_vote_id
        read_only = Ok results
      /\ AsOwnerResults.campaignx_we_vote_id results = Some campaignx_we_vote_id
      /\ match filter (fun c => col_exact (CampaignX.we_vote_id c) campaignx_we_vote_id)
                      (campaignx_rows st) with
         | [] =>
             AsOwnerResults.success results = true
             /\ AsOwnerResults.campaignx_found results = false
             /\ AsOwnerResults.campaignx results = None
             /\ AsOwnerResults.exception_does_not_exist results = true
             /\ AsOwnerResults.exception_multiple_object_returned results = false
         | [campaignx] =>
             AsOwnerResults.success results = true
             /\ AsOwnerResults.campaignx_found results = true
             /\ AsOwnerResults.campaignx results = Some campaignx
             /\ AsOwnerResults.exception_does_not_exist results = false
             /\ AsOwnerResults.exception_multiple_object_returned results = false
         | _ :: _ :: _ =>
             AsOwnerResults.success results = false
             /\ AsOwnerResults.campaignx_found results = false
             /\ AsOwnerResults.campaignx results = None
             /\ AsOwnerResults.exception_does_not_exist results = false
             /\ AsOwnerResults.exception_multiple_object_returned results = true
         end.
Proof. exact retrieve_campaignx_by_identifier_lemma. Qed.

Lemma retrieve_campaignx_by_identifier_witness :
  exists results,
    retrieve_campaignx (H := model_helpers) (DB := model_database)
        ordering_store "wv02camp2" "" "" true
    = Ok results
    /\ AsOwnerResults.campaignx_we_vote_id results = Some "wv02camp2"
    /\ AsOwnerResults.success results = true
    /\ AsOwnerResults.campaignx_found results = true
    /\ AsOwnerResults.campaignx results
       = Some (example_campaignx 2 "wv02camp2" "wv02voter2" false 10 false None)
    /\ AsOwnerResults.exception_does_not_exist results = false
    /\ AsOwnerResults.exception_multiple_object_returned results = false.
Proof.
  apply (@retrieve_campaignx_by_identifier model_helpers model_database ordering_store
           "wv02camp2" "" "" true); reflexivity.
Defined.

(** X6.  While the store is failing, [retrieve_campaignx] (lines 718-794) called
    with a campaign identifier or a path returns no dictionary: its two
    [except] clauses name [MultipleObjectsReturned] and [DoesNotExist] only,
    and the error of the store reaches the caller. *)
Theorem retrieve_campaignx_lets_store_failure_escape :
  forall (H : Helpers) (DB : Database)
      (st : Store) (campaignx_we_vote_id seo_friendly_path
            voter_we_vote_id : string) (read_only : bool) (msg : string),
    db_error st = Some msg ->
    positive_value_exists (PStr campaignx_we_vote_id) = true
    \/ positive_value_exists (PStr seo_friendly_path) = true ->
    retrieve_campaignx st campaignx_we_vote_id seo_friendly_path voter_we_vote_id
      read_only = Raise (DatabaseError msg).
Proof.
  intros H DB st c seo voter ro msg Hst Hid. unfold retrieve_campaignx.
  rewrite !(db_run_failing _ _ Hst). cbn [bind].
  destruct (positive_value_exists (PStr c)); [reflexivity|].
  destruct Hid as [Hid|Hid]; [discriminate|]. now rewrite Hid.
Qed.

Lemma retrieve_campaignx_lets_store_failure_escape_witness :
  retrieve_campaignx (H := model_helpers) (DB := model_database)
      failing_store "wv02camp1" "" "" false
  = Raise (DatabaseError "connection refused").
Proof.
  apply (@retrieve_campaignx_lets_store_failure_escape model_helpers model_database
      failing_store
           "wv02camp1" "" "" false "connection refused").
  - reflexivity.
  - left. reflexivity.
Defined.

Lemma save_campaignx_written : forall (H : Helpers) st c c' st',
  save_campaignx st c = (Ok c', st') ->
  exists st0,
    write_campaignx_row st0 c' = Ok st'
    /\ campaignx_rows st0 = campaignx_rows st.
Proof.
  intros H st c c' st' Hsave. unfold save_campaignx in Hsave.
  set (c1 := match CampaignX.we_vote_id c with
             | Some s => if truthy (PStr s)
                         then SetCampaignX.we_vote_id' (Some (lower (strip s))) c
                         else c
             | None => c
             end) in *.
  clearbody c1.
  assert (Hdone : forall c2 st0,
             campaignx_rows st0 = campaignx_rows st ->
             match write_campaignx_row st0 c2 with
             | Raise e => (Raise e, st0)
             | Ok st1 => (Ok c2, st1)
             end = (Ok c', st') ->
             exists st0,
               write_campaignx_row st0 c' = Ok st'
               /\ campaignx_rows st0 = campaignx_rows st).
  { intros c2 st0 Hrows Hrun.
    destruct (write_campaignx_row st0 c2) as [st1|] eqn:Hw; [|discriminate].
    injection Hrun as <- <-. eauto. }
  unfold fetch_next_we_vote_id_campaignx_integer in Hsave.
  destruct (CampaignX.we_vote_id c1) as [s|].
  - destruct (String.eqb s "").
    + destruct (db_run st tt); [|discriminate].
      eapply Hdone; [|exact Hsave]. reflexivity.
    + eapply Hdone; [|exact Hsave]. reflexivity.
  - destruct (db_run st tt); [|discriminate].
    eapply Hdone; [|exact Hsave]. reflexivity.
Qed.

(** X7.  Save, then look up.  In a table whose primary keys are distinct, after
    [CampaignX.save] (lines 83-99) has succeeded, [retrieve_campaignx]
    (lines 718-794) called with the identifier of the saved object finds
    exactly that object. *)
Theorem save_then_retrieve_campaignx :
  forall (H : Helpers) (DB : Database) (st : Store) (c c' : CampaignX.t) (st' : Store)
         (id voter_we_vote_id : string) (read_only : bool),
    NoDup (map CampaignX.id (campaignx_rows st)) ->
    save_campaignx st c = (Ok c', st') ->
    CampaignX.we_vote_id c' = Some id ->
    positive_value_exists (PStr id) = true ->
    exists results,
      retrieve_campaignx st' id "" voter_we_vote_id read_only = Ok results
      /\ AsOwnerResults.success results = true
      /\ AsOwnerResults.campaignx_found results = true
      /\ AsOwnerResults.campaignx results = Some c'.
Proof.
  intros H DB st c c' st' id voter ro Hnd Hsave Hid Hpve.
  pose proof (save_campaignx_written _ _ _ Hsave) as Hw.
  destruct Hw as (st0 & Hw & Hrows).
  pose proof (write_campaignx_row_In _ _ Hw) as (_ & _ & _ & Hst').
  rewrite <- Hrows in Hnd.
  pose proof (write_campaignx_row_unique _ _ Hnd Hw Hid) as Hunique.
  destruct (retrieve_campaignx_by_identifier_lemma H DB st' id "" voter ro Hst' Hpve)
    as (results & Hrun & _ & Hcase).
  rewrite Hunique in Hcase. exists results. tauto.
Qed.

Lemma save_then_retrieve_campaignx_witness :
  exists results,
    retrieve_campaignx (H := model_helpers) (DB := model_database)
      (snd (save_campaignx (H := model_helpers) empty_store unsaved_campaignx))
      "wv02camp1" "" "wv02voter1" true = Ok results
    /\ AsOwnerResults.success results = true
    /\ AsOwnerResults.campaignx_found results = true
    /\ AsOwnerResults.campaignx results
       = Some (SetCampaignX.we_vote_id' (Some "wv02camp1") unsaved_campaignx).
Proof.
  apply (@save_then_retrieve_campaignx model_helpers model_database
      empty_store unsaved_campaignx
           (SetCampaignX.we_vote_id' (Some "wv02camp1") unsaved_campaignx)
           (snd (save_campaignx (H := model_helpers) empty_store unsaved_campaignx))
           "wv02camp1" "wv02voter1" true).
  - constructor.
  - vm_compute. reflexivity.
  - reflexivity.
  - reflexivity.
Defined.

(** ** The rights of a voter *)

Lemma team_organization_we_vote_ids_ok : forall st p,
  db_error st = None ->
  team_organization_we_vote_ids st p
  = Ok (distinct (map OrganizationTeamMember.organization_we_vote_id
                      (filter p (team_member_rows st)))).
Proof. intros. unfold team_organization_we_vote_ids. now apply db_run_ok. Qed.

Lemma owner_campaignx_we_vote_ids_ok : forall st p,
  db_error st = None ->
  owner_campaignx_we_vote_ids st p
  = Ok (distinct (map CampaignXOwner.campaignx_we_vote_id (filter p (owner_rows st)))).
Proof. intros. unfold owner_campaignx_we_vote_ids. now apply db_run_ok. Qed.

Lemma col_in_incl : forall col a b,
  incl a b -> col_in col a = true -> col_in col b = true.
Proof.
  intros col a b Hincl Ha. apply col_in_spec in Ha as (s & -> & Hin).
  apply col_in_spec. eauto.
Qed.

(** X8.  Every campaign identifier that
    [retrieve_voter_can_send_updates_campaignx_we_vote_ids] (lines 1841-1884)
    returns for a voter is among those
    [retrieve_voter_owned_campaignx_we_vote_ids] (lines 1886-1931) returns
    for the same voter. *)
Theorem campaigns_a_voter_can_update_are_owned :
  forall (st : Store) (voter_we_vote_id : string)
         (can_send_updates owned : list (option string)),
    retrieve_voter_can_send_updates_campaignx_we_vote_ids st voter_we_vote_id
    = Ok can_send_updates ->
    retrieve_voter_owned_campaignx_we_vote_ids st voter_we_vote_id = Ok owned ->
    incl can_send_updates owned.
Proof.
  intros st u updates owned Hupdates Howned.
  destruct (db_error st) as [msg|] eqn:Hst.
  { unfold retrieve_voter_owned_campaignx_we_vote_ids, owner_campaignx_we_vote_ids
      in Howned.
    rewrite (db_run_failing _ _ Hst) in Howned. discriminate. }
  unfold retrieve_voter_can_send_updates_campaignx_we_vote_ids in Hupdates.
  unfold retrieve_voter_owned_campaignx_we_vote_ids in Howned.
  rewrite !owner_campaignx_we_vote_ids_ok, !team_organization_we_vote_ids_ok
    in Hupdates, Howned by assumption.
  cbn [try_except_model_class bind] in Hupdates, Howned.
  set (teams_updates :=
         distinct (map OrganizationTeamMember.organization_we_vote_id _)) in Hupdates.
  set (teams_owned :=
         distinct (map OrganizationTeamMember.organization_we_vote_id _)) in Howned.
  assert (Hteams : incl teams_updates teams_owned).
  { intros org Hin. subst teams_updates teams_owned.
    apply In_distinct, in_map_iff in Hin as (m & Horg & Hin).
    apply filter_In in Hin as (Hin & Hm). apply andb_true_iff in Hm as (Hv & Hr).
    apply In_distinct, in_map_iff. exists m. split; [assumption|].
    apply filter_In. split; [assumption|]. rewrite Hv. unfold has_any_campaignx_right.
    rewrite Hr. now rewrite !orb_true_r. }
  assert (Hmembers : forall id,
             In id (if (0 <? List.length teams_updates)%nat
                    then distinct
                           (map CampaignXOwner.campaignx_we_vote_id
                              (filter
                                 (fun o => col_in (CampaignXOwner.organization_we_vote_id o)
                                                  teams_updates)
                                 (owner_rows st)))
                    else []) ->
             In id (if (0 <? List.length teams_owned)%nat
                    then distinct
                           (map CampaignXOwner.campaignx_we_vote_id
                              (filter
                                 (fun o => col_in (CampaignXOwner.organization_we_vote_id o)
                                                  teams_owned)
                                 (owner_rows st)))
                    else [])).
  { intros id Hin.
    destruct (0 <? List.length teams_updates)%nat eqn:Hlen; [|contradiction].
    apply length_positive in Hlen as (org & Horg).
    assert (Hlen' : (0 <? List.length teams_owned)%nat = true)
      by (apply length_positive; eauto).
    rewrite Hlen'.
    apply In_distinct, in_map_iff in Hin as (o & Hid & Hin).
    apply filter_In in Hin as (Hin & Ho).
    apply In_distinct, in_map_iff. exists o. split; [assumption|].
    apply filter_In. split; [assumption|]. eapply col_in_incl; eassumption. }
  destruct (0 <? List.length teams_updates)%nat eqn:Hlu;
    destruct (0 <? List.length teams_owned)%nat eqn:Hlo;
    rewrite ?owner_campaignx_we_vote_ids_ok in Hupdates by assumption;
    rewrite ?owner_campaignx_we_vote_ids_ok in Howned by assumption;
    cbn [try_except_model_class bind] in Hupdates, Howned;
    injection Hupdates as <-; injection Howned as <-;
    intros id Hin; apply In_set_union in Hin; apply In_set_union;
    (destruct Hin as [Hin|Hin]; [now left|right; now apply Hmembers]).
Qed.

Lemma campaigns_a_voter_can_update_are_owned_witness :
  retrieve_voter_can_send_updates_campaignx_we_vote_ids owner_store "wv02voter1"
  = Ok [Some "wv02camp1"]
  /\ retrieve_voter_owned_campaignx_we_vote_ids owner_store "wv02voter1"
     = Ok [Some "wv02camp1"]
  /\ incl [Some "wv02camp1"] [Some "wv02camp1"].
Proof.
  assert (Hupdates :
            retrieve_voter_can_send_updates_campaignx_we_vote_ids owner_store
              "wv02voter1" = Ok [Some "wv02camp1"]) by (vm_compute; reflexivity).
  assert (Howned :
            retrieve_voter_owned_campaignx_we_vote_ids owner_store "wv02voter1"
            = Ok [Some "wv02camp1"]) by (vm_compute; reflexivity).
  split; [assumption|]. split; [assumption|].
  exact (@campaigns_a_voter_can_update_are_owned owner_store "wv02voter1"
           [Some "wv02camp1"] [Some "wv02camp1"] Hupdates Howned).
Defined.

(** ** A change of organization *)

Lemma length_filter_map : forall A (p : A -> bool) (f : A -> A) (l : list A),
  (forall x, p (f x) = p x) ->
  List.length (filter p (map f l)) = List.length (filter p l).
Proof.
  intros A p f l Hp. induction l as [|x l IH]; [reflexivity|].
  cbn [map filter]. rewrite Hp. destruct (p x); cbn [List.length]; now rewrite IH.
Qed.

Lemma map_filter_map : forall A B (g : A -> B) (p : A -> bool) (f : A -> A) (l : list A),
  (forall x, p (f x) = p x) -> (forall x, g (f x) = g x) ->
  map g (filter p (map f l)) = map g (filter p l).
Proof.
  intros A B g p f l Hp Hg. induction l as [|x l IH]; [reflexivity|].
  cbn [map filter]. rewrite Hp. destruct (p x); cbn [map]; now rewrite ?Hg, IH.
Qed.

Lemma qs_count_filter_all : forall (DB : Database) R (st : Store) (p : R -> bool) rows,
  qs_count st (qs_filter p (objects_all rows))
  = db_run st (Z.of_nat (List.length (filter p rows))).
Proof. intros. unfold qs_count. now rewrite qs_result_filter_all. Qed.

Lemma db_run_same : forall A (st st' : Store) (x : A),
  db_error st' = db_error st -> db_run st' x = db_run st x.
Proof. intros A st st' x He. unfold db_run. now rewrite He. Qed.

Section OwnerColumns.
Variable f : CampaignXOwner.t -> CampaignXOwner.t.
Hypothesis f_campaignx :
  forall o, CampaignXOwner.campaignx_we_vote_id (f o) = CampaignXOwner.campaignx_we_vote_id o.
Hypothesis f_voter :
  forall o, CampaignXOwner.voter_we_vote_id (f o) = CampaignXOwner.voter_we_vote_id o.
Hypothesis f_organization :
  forall o, CampaignXOwner.organization_we_vote_id (f o)
            = CampaignXOwner.organization_we_vote_id o.
Variables st st' : Store.
Hypothesis same_owner_rows : owner_rows st' = map f (owner_rows st).
Hypothesis same_team_member_rows : team_member_rows st' = team_member_rows st.
Hypothesis same_db_error : db_error st' = db_error st.

Lemma team_organization_we_vote_ids_same : forall p,
  team_organization_we_vote_ids st' p = team_organization_we_vote_ids st p.
Proof.
  intros p. unfold team_organization_we_vote_ids.
  rewrite same_team_member_rows. now apply db_run_same.
Qed.

Lemma is_voter_campaignx_owner_same : forall (H : Helpers) (DB : Database) c u,
  is_voter_campaignx_owner st' c u = is_voter_campaignx_owner st c u.
Proof.
  intros H DB c u. unfold is_voter_campaignx_owner.
  rewrite !qs_count_filter_all, team_organization_we_vote_ids_same.
  rewrite same_owner_rows.
  rewrite length_filter_map
    by (intros o; now rewrite f_campaignx, f_voter).
  rewrite (db_run_same _ _ _ same_db_error).
  destruct (try_except_model_class _ _) as [[continue_checking owner]|]; [|reflexivity].
  cbn [bind]. destruct (continue_checking && negb owner); [|reflexivity].
  destruct (try_except_model_class _ _) as [teams|]; [|reflexivity].
  cbn [bind]. destruct (0 <? List.length teams)%nat; [|reflexivity].
  rewrite !qs_count_filter_all.
  rewrite length_filter_map
    by (intros o; now rewrite f_campaignx, f_organization).
  now rewrite (db_run_same _ _ _ same_db_error).
Qed.

Lemma owner_campaignx_we_vote_ids_same : forall p,
  (forall o, p (f o) = p o) ->
  owner_campaignx_we_vote_ids st' p = owner_campaignx_we_vote_ids st p.
Proof.
  intros p Hp. unfold owner_campaignx_we_vote_ids.
  rewrite same_owner_rows, (map_filter_map _ _ _ _ Hp f_campaignx).
  now apply db_run_same.
Qed.

Lemma retrieve_voter_owned_same : forall u,
  retrieve_voter_owned_campaignx_we_vote_ids st' u
  = retrieve_voter_owned_campaignx_we_vote_ids st u.
Proof.
  intros u. unfold retrieve_voter_owned_campaignx_we_vote_ids.
  rewrite owner_campaignx_we_vote_ids_same by (intros o; now rewrite f_voter).
  rewrite team_organization_we_vote_ids_same.
  destruct (try_except_model_class _ _) as [owned|]; [|reflexivity].
  cbn [bind].
  destruct (try_except_model_class _ _) as [teams|]; [|reflexivity].
  cbn [bind]. destruct (0 <? List.length teams)%nat; [|reflexivity].
  now rewrite owner_campaignx_we_vote_ids_same
    by (intros o; now rewrite f_organization).
Qed.

End OwnerColumns.

(** what the update makes of a row of the organization *)
Lemma organization_change_rows : forall (H : Helpers) st org name medium tiny,
  exists f,
    (forall o, CampaignXOwner.id (f o) = CampaignXOwner.id o)
    /\ (forall o, CampaignXOwner.campaignx_we_vote_id (f o)
                  = CampaignXOwner.campaignx_we_vote_id o)
    /\ (forall o, CampaignXOwner.voter_we_vote_id (f o) = CampaignXOwner.voter_we_vote_id o)
    /\ (forall o, CampaignXOwner.organization_we_vote_id (f o)
                  = CampaignXOwner.organization_we_vote_id o)
    /\ (forall o, CampaignXOwner.order_in_list (f o) = CampaignXOwner.order_in_list o)
    /\ let st' := snd (update_campaignx_owners_with_organization_change st org name
                         medium tiny) in
       owner_rows st' = map f (owner_rows st)
       /\ team_member_rows st' = team_member_rows st
       /\ db_error st' = db_error st.
Proof.
  intros H st org name medium tiny.
  unfold update_campaignx_owners_with_organization_change, db_run.
  assert (Hid : exists f : CampaignXOwner.t -> CampaignXOwner.t,
             (forall o, CampaignXOwner.id (f o) = CampaignXOwner.id o)
             /\ (forall o, CampaignXOwner.campaignx_we_vote_id (f o)
                           = CampaignXOwner.campaignx_we_vote_id o)
             /\ (forall o, CampaignXOwner.voter_we_vote_id (f o)
                           = CampaignXOwner.voter_we_vote_id o)
             /\ (forall o, CampaignXOwner.organization_we_vote_id (f o)
                           = CampaignXOwner.organization_we_vote_id o)
             /\ (forall o, CampaignXOwner.order_in_list (f o)
                           = CampaignXOwner.order_in_list o)
             /\ owner_rows st = map f (owner_rows st)).
  { exists (fun o => o). repeat split. now rewrite map_id. }
  destruct (db_error st) eqn:Hdb; cbn [bind snd]; [rewrite Hdb |].
  { destruct Hid as (f & ? & ? & ? & ? & ? & ?). exists f. tauto. }
  destruct name as [name|].
  - cbn [snd].
    eexists (fun o =>
               if col_iexact (CampaignXOwner.organization_we_vote_id o) org
               then _ else o).
    repeat split; try (intros o; destruct (col_iexact _ org); reflexivity).
    assumption.
  - destruct (0 <? _)%nat; cbn [snd]; rewrite Hdb;
      destruct Hid as (f & ? & ? & ? & ? & ? & ?); exists f; tauto.
Qed.

(** X9.  [update_campaignx_owners_with_organization_change] (lines 1933-1958)
    never changes who owns what: whatever it is called with and whether or
    not it succeeds, [is_voter_campaignx_owner] and
    [retrieve_voter_owned_campaignx_we_vote_ids] answer afterwards as they
    did before, and the Owner rows keep their keys and their places in the
    list. *)
Theorem organization_change_keeps_ownership :
  forall (H : Helpers) (DB : Database) (st : Store) (organization_we_vote_id : string)
         (organization_name we_vote_hosted_profile_image_url_medium
            we_vote_hosted_profile_image_url_tiny : option string),
    let st' :=
      snd (update_campaignx_owners_with_organization_change st
             organization_we_vote_id organization_name
             we_vote_hosted_profile_image_url_medium
             we_vote_hosted_profile_image_url_tiny) in
    (forall campaignx_we_vote_id voter_we_vote_id,
       is_voter_campaignx_owner st' campaignx_we_vote_id voter_we_vote_id
       = is_voter_campaignx_owner st campaignx_we_vote_id voter_we_vote_id)
    /\ (forall voter_we_vote_id,
          retrieve_voter_owned_campaignx_we_vote_ids st' voter_we_vote_id
          = retrieve_voter_owned_campaignx_we_vote_ids st voter_we_vote_id)
    /\ map CampaignXOwner.id (owner_rows st') = map CampaignXOwner.id (owner_rows st)
    /\ map CampaignXOwner.order_in_list (owner_rows st')
       = map CampaignXOwner.order_in_list (owner_rows st).
Proof.
  intros H DB st org name medium tiny.
  destruct (organization_change_rows H st org name medium tiny)
    as (f & Hid & Hc & Hv & Ho & Hord & Hrows & Hteam & Hdb).
  cbv zeta in *. repeat split.
  - intros c u. now apply (is_voter_campaignx_owner_same f).
  - intros u. now apply (retrieve_voter_owned_same f).
  - rewrite Hrows, map_map. now apply map_ext.
  - rewrite Hrows, map_map. now apply map_ext.
Qed.

Lemma qs_result_In_rows : forall (DB : Database) R (qs : QuerySet R) (x : R),
  In x (qs_result qs) -> In x (qs_rows qs).
Proof.
  intros DB R qs x Hin. unfold qs_result in Hin.
  destruct (qs_stop qs); [apply In_firstn_In in Hin|]; now apply sort_rows_In in Hin.
Qed.

Lemma In_rows_if_filter : forall R (b : bool) (p : R -> bool) (q : QuerySet R) x,
  In x (qs_rows (if b then qs_filter p q else q)) ->
  In x (qs_rows q) /\ (b = true -> p x = true).
Proof.
  intros R b p q x Hin. destruct b.
  - apply filter_In in Hin. tauto.
  - split; [assumption|discriminate].
Qed.

Lemma In_rows_if_ordered : forall R (b : bool) (k : R -> Z) (p : R -> bool)
    (q : QuerySet R) x,
  In x (qs_rows (if b then order_by k (qs_filter p q) else q)) ->
  In x (qs_rows q) /\ (b = true -> p x = true).
Proof.
  intros R b k p q x Hin. destruct b.
  - apply filter_In in Hin. tauto.
  - split; [assumption|discriminate].
Qed.

(** the rows [retrieve_campaignx_owner_list] returns are rows of the table,
    of the organization asked for when one is asked for *)
Lemma retrieve_campaignx_owner_list_members :
  forall (H : Helpers) (DB : Database)
      st ids has_order_in_list org voter viewer_is_owner read_only o,
    In o (retrieve_campaignx_owner_list st ids has_order_in_list org voter
            viewer_is_owner read_only) ->
    In o (owner_rows st)
    /\ (positive_value_exists (PStr org) = true ->
        col_exact (CampaignXOwner.organization_we_vote_id o) org = true)
    /\ (has_order_in_list = true ->
        exists n, CampaignXOwner.order_in_list o = Some n /\ (1 <= n)%Z).
Proof.
  intros H DB st ids has_order org voter viewer ro o Hin.
  unfold retrieve_campaignx_owner_list, qs_list, db_run in Hin.
  destruct (db_error st); cbn [try_catch] in Hin; [contradiction|].
  apply qs_result_In_rows in Hin. cbv zeta in Hin.
  apply In_rows_if_filter in Hin as (Hin & _).
  apply In_rows_if_filter in Hin as (Hin & Horg).
  apply In_rows_if_ordered in Hin as (Hin & Horder).
  apply In_rows_if_filter in Hin as (Hin & _).
  assert (Hrows : In o (owner_rows st))
    by (destruct (positive_value_exists (PBool ro)); exact Hin).
  split; [assumption|]. split; [assumption|].
  intros ->. rewrite positive_value_exists_bool in Horder.
  specialize (Horder eq_refl).
  destruct (CampaignXOwner.order_in_list o) as [n|]; [|discriminate].
  exists n. split; [reflexivity|now apply Z.leb_le].
Qed.

(** X10.  On a store that answers,
    [update_campaignx_owners_with_organization_change] (lines 1933-1958)
    called with a name succeeds and returns the number of Owner rows whose
    organization matches without regard to case.  The table it leaves has
    the rows of before, one for one and in their places: a row whose
    organization matches carries the name and the two image addresses
    given and keeps its other columns, every other row is unchanged.  The
    rows [retrieve_campaignx_owner_list] (lines 1336-1373) returns
    afterwards for the organization all carry the new values. *)
Theorem organization_change_reaches_the_owner_rows :
  forall (H : Helpers) (DB : Database) (st : Store)
         (organization_we_vote_id organization_name : string)
         (we_vote_hosted_profile_image_url_medium
            we_vote_hosted_profile_image_url_tiny : option string),
    db_error st = None ->
    let run :=
      update_campaignx_owners_with_organization_change st organization_we_vote_id
        (Some organization_name) we_vote_hosted_profile_image_url_medium
        we_vote_hosted_profile_image_url_tiny in
    EntriesUpdatedResults.success (fst run) = true
    /\ EntriesUpdatedResults.entries_updated (fst run)
       = Z.of_nat
           (List.length
              (filter
                 (fun o => col_iexact (CampaignXOwner.organization_we_vote_id o)
                                      organization_we_vote_id)
                 (owner_rows st)))
    /\ Forall2
         (fun before after =>
            if col_iexact (CampaignXOwner.organization_we_vote_id before)
                          organization_we_vote_id
            then after
                 = CampaignXOwner.mk
                     (CampaignXOwner.id before)
                     (CampaignXOwner.campaignx_we_vote_id before)
                     (CampaignXOwner.feature_this_profile_image before)
                     (CampaignXOwner.order_in_list before)
                     organization_name
                     (CampaignXOwner.organization_we_vote_id before)
                     (CampaignXOwner.visible_to_public before)
                     (CampaignXOwner.voter_we_vote_id before)
                     we_vote_hosted_profile_image_url_medium
                     we_vote_hosted_profile_image_url_tiny
            else after = before)
         (owner_rows st) (owner_rows (snd run))
    /\ (positive_value_exists (PStr organization_we_vote_id) = true ->
        forall ids has_order_in_list voter viewer_is_owner read_only o,
          In o (retrieve_campaignx_owner_list (snd run) ids has_order_in_list
                  organization_we_vote_id voter viewer_is_owner read_only) ->
          CampaignXOwner.organization_name o = organization_name
          /\ CampaignXOwner.we_vote_hosted_profile_image_url_medium o
             = we_vote_hosted_profile_image_url_medium
          /\ CampaignXOwner.we_vote_hosted_profile_image_url_tiny o
             = we_vote_hosted_profile_image_url_tiny).
Proof.
  intros H DB st org name medium tiny Hst. cbv zeta.
  unfold update_campaignx_owners_with_organization_change.
  rewrite db_run_ok by assumption. cbn [bind fst snd].
  cbn [EntriesUpdatedResults.success EntriesUpdatedResults.entries_updated
         owner_rows set_owner_rows].
  set (changed := fun o =>
         if col_iexact (CampaignXOwner.organization_we_vote_id o) org
         then SetCampaignXOwner.we_vote_hosted_profile_image_url_tiny' tiny
                (SetCampaignXOwner.we_vote_hosted_profile_image_url_medium' medium
                   (SetCampaignXOwner.organization_name' name o))
         else o).
  assert (Hrows : forall o,
             In o (map changed (owner_rows st)) ->
             if col_iexact (CampaignXOwner.organization_we_vote_id o) org
             then CampaignXOwner.organization_name o = name
                  /\ CampaignXOwner.we_vote_hosted_profile_image_url_medium o = medium
                  /\ CampaignXOwner.we_vote_hosted_profile_image_url_tiny o = tiny
             else In o (owner_rows st)).
  { intros o Hin. apply in_map_iff in Hin as (o0 & Ho & Hin). unfold changed in Ho.
    destruct (col_iexact (CampaignXOwner.organization_we_vote_id o0) org) eqn:Hsel.
    - subst o. cbn. rewrite Hsel. repeat split.
    - subst o. now rewrite Hsel. }
  split; [reflexivity|]. split; [reflexivity|]. split.
  - clear Hrows.
    induction (owner_rows st) as [|o rows IH]; cbn [map]; [constructor|].
    constructor; [|exact IH]. unfold changed.
    destruct (col_iexact (CampaignXOwner.organization_we_vote_id o) org);
      reflexivity.
  - intros Horg ids has_order voter viewer ro o Hin.
    apply retrieve_campaignx_owner_list_members in Hin as (Hin & Hexact & _).
    cbn [owner_rows set_owner_rows] in Hin.
    apply Hrows in Hin. rewrite (col_exact_iexact _ _ (Hexact Horg)) in Hin.
    assumption.
Qed.

Lemma organization_change_reaches_the_owner_rows_witness :
  let run :=
    update_campaignx_owners_with_organization_change ordered_owner_store
      "WV02ORG1" (Some "Renamed") None (Some "tiny.png") in
  EntriesUpdatedResults.success (fst run) = true
  /\ EntriesUpdatedResults.entries_updated (fst run) = 3%Z
  /\ Forall2
       (fun before after =>
          if col_iexact (CampaignXOwner.organization_we_vote_id before) "WV02ORG1"
          then after
               = CampaignXOwner.mk
                   (CampaignXOwner.id before)
                   (CampaignXOwner.campaignx_we_vote_id before)
                   (CampaignXOwner.feature_this_profile_image before)
                   (CampaignXOwner.order_in_list before)
                   "Renamed"
                   (CampaignXOwner.organization_we_vote_id before)
                   (CampaignXOwner.visible_to_public before)
                   (CampaignXOwner.voter_we_vote_id before)
                   None (Some "tiny.png")
          else after = before)
       (owner_rows ordered_owner_store) (owner_rows (snd run)).
Proof.
  pose proof (@organization_change_reaches_the_owner_rows model_helpers model_database
                ordered_owner_store "WV02ORG1" "Renamed" None (Some "tiny.png")
                eq_refl) as Hrun.
  cbv zeta in *. destruct Hrun as (Hsuccess & Hcount & Hrows & _).
  repeat split; assumption.
Defined.

(** ** Supporters under a change of organization *)

Section SupporterColumns.
Variable f : CampaignXSupporter.t -> CampaignXSupporter.t.
Hypothesis f_campaignx :
  forall s, CampaignXSupporter.campaignx_we_vote_id (f s)
            = CampaignXSupporter.campaignx_we_vote_id s.
Hypothesis f_voter :
  forall s, CampaignXSupporter.voter_we_vote_id (f s) = CampaignXSupporter.voter_we_vote_id s.
Variables st st' : Store.
Hypothesis same_supporter_rows : supporter_rows st' = map f (supporter_rows st).
Hypothesis same_db_error : db_error st' = db_error st.

Lemma fetch_campaignx_supporter_count_same : forall (DB : Database) c,
  fetch_campaignx_supporter_count st' c = fetch_campaignx_supporter_count st c.
Proof.
  intros DB c. unfold fetch_campaignx_supporter_count.
  rewrite !qs_count_filter_all, same_supporter_rows.
  rewrite length_filter_map by (intros s; now rewrite f_campaignx).
  now rewrite (db_run_same _ _ _ same_db_error).
Qed.

Lemma is_voter_campaignx_supporter_same : forall (H : Helpers) (DB : Database) c v,
  is_voter_campaignx_supporter st' c v = is_voter_campaignx_supporter st c v.
Proof.
  intros H DB c v. unfold is_voter_campaignx_supporter.
  rewrite !qs_count_filter_all, same_supporter_rows.
  rewrite length_filter_map by (intros s; now rewrite f_campaignx, f_voter).
  now rewrite (db_run_same _ _ _ same_db_error).
Qed.

End SupporterColumns.

(** X11.  [update_campaignx_supporters_with_organization_change] (lines 1960-1985)
    never changes who supports what: [fetch_campaignx_supporter_count]
    (lines 127-137) and [is_voter_campaignx_supporter] (lines 522-541)
    answer afterwards as they did before, and the Supporter rows keep their
    keys, their [campaign_supported] flags and their endorsements. *)
Theorem supporters_organization_change_keeps_support :
  forall (H : Helpers) (DB : Database) (st : Store) (organization_we_vote_id : string)
         (supporter_name we_vote_hosted_profile_image_url_medium
            we_vote_hosted_profile_image_url_tiny : option string),
    let st' :=
      snd (update_campaignx_supporters_with_organization_change st
             organization_we_vote_id supporter_name
             we_vote_hosted_profile_image_url_medium
             we_vote_hosted_profile_image_url_tiny) in
    (forall campaignx_we_vote_id,
       fetch_campaignx_supporter_count st' campaignx_we_vote_id
       = fetch_campaignx_supporter_count st campaignx_we_vote_id)
    /\ (forall campaignx_we_vote_id voter_we_vote_id,
          is_voter_campaignx_supporter st' campaignx_we_vote_id voter_we_vote_id
          = is_voter_campaignx_supporter st campaignx_we_vote_id voter_we_vote_id)
    /\ map CampaignXSupporter.id (supporter_rows st')
       = map CampaignXSupporter.id (supporter_rows st)
    /\ map CampaignXSupporter.campaign_supported (supporter_rows st')
       = map CampaignXSupporter.campaign_supported (supporter_rows st)
    /\ map CampaignXSupporter.supporter_endorsement (supporter_rows st')
       = map CampaignXSupporter.supporter_endorsement (supporter_rows st).
Proof.
  intros H DB st org name medium tiny.
  assert (Hf : exists f,
             (forall s, CampaignXSupporter.id (f s) = CampaignXSupporter.id s)
             /\ (forall s, CampaignXSupporter.campaignx_we_vote_id (f s)
                           = CampaignXSupporter.campaignx_we_vote_id s)
             /\ (forall s, CampaignXSupporter.voter_we_vote_id (f s)
                           = CampaignXSupporter.voter_we_vote_id s)
             /\ (forall s, CampaignXSupporter.campaign_supported (f s)
                           = CampaignXSupporter.campaign_supported s)
             /\ (forall s, CampaignXSupporter.supporter_endorsement (f s)
                           = CampaignXSupporter.supporter_endorsement s)
             /\ let st' :=
                  snd (update_campaignx_supporters_with_organization_change st org
                         name medium tiny) in
                supporter_rows st' = map f (supporter_rows st)
                /\ db_error st' = db_error st).
  { unfold update_campaignx_supporters_with_organization_change, db_run.
    destruct (db_error st) eqn:Hdb; cbn [bind snd].
    - exists (fun s => s). rewrite map_id, Hdb. repeat split.
    - eexists (fun s =>
                 if col_iexact (CampaignXSupporter.organization_we_vote_id s) org
                 then _ else s).
      repeat split; try (intros s; destruct (col_iexact _ org); reflexivity).
      assumption. }
  destruct Hf as (f & Hid & Hc & Hv & Hsupported & Hendorsement & Hrows & Hdb).
  cbv zeta in *. repeat split.
  - intros c. now apply (fetch_campaignx_supporter_count_same f).
  - intros c v. now apply (is_voter_campaignx_supporter_same f).
  - rewrite Hrows, map_map. now apply map_ext.
  - rewrite Hrows, map_map. now apply map_ext.
  - rewrite Hrows, map_map. now apply map_ext.
Qed.

(** ** Campaigns of an organization *)

Lemma filter_true : forall A (l : list A), filter (fun _ => true) l = l.
Proof. intros A l. now apply filter_all. Qed.

Lemma retrieve_campaignx_owner_list_of_organization :
  forall (H : Helpers) (DB : Database)
      st org has_order_in_list viewer_is_owner read_only,
    db_error st = None ->
    retrieve_campaignx_owner_list st [] has_order_in_list org "" viewer_is_owner
      read_only
    = let selected :=
        filter
          (fun o => if positive_value_exists (PStr org)
                    then col_exact (CampaignXOwner.organization_we_vote_id o) org
                    else true)
          (if has_order_in_list
           then filter (fun o => match CampaignXOwner.order_in_list o with
                                 | Some n => (1 <=? n)%Z
                                 | None => false
                                 end)
                       (owner_rows st)
           else owner_rows st) in
      if has_order_in_list then sort_rows [order_in_list_key] selected else selected.
Proof.
  intros H DB st org has_order viewer ro Hst. unfold retrieve_campaignx_owner_list.
  rewrite qs_list_ok by assumption. cbn [try_catch].
  rewrite positive_value_exists_empty, !positive_value_exists_bool.
  cbn [List.length Nat.ltb Nat.leb].
  replace (if ro then objects_all (owner_rows st) else objects_all (owner_rows st))
    with (objects_all (owner_rows st)) by now destruct ro.
  cbv zeta.
  destruct has_order, (positive_value_exists (PStr org));
    unfold qs_result, qs_filter, order_by, objects_all;
    cbn [qs_rows qs_ordering qs_stop];
    rewrite ?sort_rows_no_ordering; rewrite ?filter_true; reflexivity.
Qed.

(** X12.  [fetch_campaignx_we_vote_id_list_from_owner_organization_we_vote_id]
    (lines 166-172): on a store that answers, for an organization identifier
    that [positive_value_exists] accepts, the campaigns of the Owner rows of
    exactly that organization, in the order of the table and with
    repetitions; for the empty identifier, the campaigns of all the Owner
    rows; while the store is failing, the empty list. *)
Theorem campaigns_of_an_owner_organization :
  forall (H : Helpers) (DB : Database) (st : Store) (organization_we_vote_id : string),
    (db_error st = None ->
     positive_value_exists (PStr organization_we_vote_id) = true ->
     fetch_campaignx_we_vote_id_list_from_owner_organization_we_vote_id st
       organization_we_vote_id
     = map CampaignXOwner.campaignx_we_vote_id
           (filter
              (fun o => col_exact (CampaignXOwner.organization_we_vote_id o)
                                  organization_we_vote_id)
              (owner_rows st)))
    /\ (db_error st = None ->
        fetch_campaignx_we_vote_id_list_from_owner_organization_we_vote_id st ""
        = map CampaignXOwner.campaignx_we_vote_id (owner_rows st))
    /\ (db_error st <> None ->
        fetch_campaignx_we_vote_id_list_from_owner_organization_we_vote_id st
          organization_we_vote_id = []).
Proof.
  intros H DB st org. repeat split.
  - intros Hst Horg.
    unfold fetch_campaignx_we_vote_id_list_from_owner_organization_we_vote_id.
    rewrite retrieve_campaignx_owner_list_of_organization by assumption.
    cbv zeta. now rewrite Horg.
  - intros Hst.
    unfold fetch_campaignx_we_vote_id_list_from_owner_organization_we_vote_id.
    rewrite retrieve_campaignx_owner_list_of_organization by assumption.
    cbv zeta. rewrite positive_value_exists_empty. now rewrite filter_true.
  - intros Hst.
    unfold fetch_campaignx_we_vote_id_list_from_owner_organization_we_vote_id,
      retrieve_campaignx_owner_list, qs_list, db_run.
    destruct (db_error st); [reflexivity|contradiction].
Qed.

Lemma campaigns_of_an_owner_organization_witness :
  fetch_campaignx_we_vote_id_list_from_owner_organization_we_vote_id
    (H := model_helpers) (DB := model_database)
        owner_store "wv02org1" = [Some "wv02camp1"]
  /\ fetch_campaignx_we_vote_id_list_from_owner_organization_we_vote_id
       (H := model_helpers) (DB := model_database) owner_store "" = [Some "wv02camp1"]
  /\ fetch_campaignx_we_vote_id_list_from_owner_organization_we_vote_id
       (H := model_helpers) (DB := model_database) failing_store "wv02org1" = [].
Proof.
  split; [|split].
  - apply (proj1 (@campaigns_of_an_owner_organization model_helpers model_database
      owner_store
                    "wv02org1")); reflexivity.
  - apply (proj1 (proj2 (@campaigns_of_an_owner_organization model_helpers model_database
      owner_store
                           "wv02org1"))); reflexivity.
  - apply (proj2 (proj2 (@campaigns_of_an_owner_organization model_helpers model_database
                           failing_store "wv02org1"))). discriminate.
Defined.

(** X13.  On a store that answers, [retrieve_campaignx_we_vote_ids_in_order]
    (lines 839-849) returns the campaigns of the Owner rows that have an
    [order_in_list] of 1 or more (and, when an organization is given, belong
    to it), each row once, by ascending [order_in_list]. *)
Theorem campaignx_we_vote_ids_in_order_are_ordered :
  forall (H : Helpers) (DB : Database)
      (st : Store) (site_owner_organization_we_vote_id : string),
    db_error st = None ->
    exists owners,
      retrieve_campaignx_we_vote_ids_in_order st site_owner_organization_we_vote_id
      = map CampaignXOwner.campaignx_we_vote_id owners
      /\ StronglySorted
           (fun a b => (order_in_list_key a <= order_in_list_key b)%Z) owners
      /\ Permutation owners
           (filter
              (fun o =>
                 match CampaignXOwner.order_in_list o with
                 | Some n => (1 <=? n)%Z
                 | None => false
                 end
                 && (if positive_value_exists (PStr site_owner_organization_we_vote_id)
                     then col_exact (CampaignXOwner.organization_we_vote_id o)
                                    site_owner_organization_we_vote_id
                     else true))
              (owner_rows st)).
Proof.
  intros H DB st org Hst. unfold retrieve_campaignx_we_vote_ids_in_order.
  rewrite retrieve_campaignx_owner_list_of_organization by assumption.
  cbv zeta. eexists. split; [reflexivity|]. split.
  - apply sort_rows_sorted.
  - rewrite filter_filter_and. apply sort_rows_permutation.
Qed.

Lemma campaignx_we_vote_ids_in_order_are_ordered_witness :
  exists owners,
    retrieve_campaignx_we_vote_ids_in_order (H := model_helpers) (DB := model_database)
        ordered_owner_store
      "wv02org1"
    = map CampaignXOwner.campaignx_we_vote_id owners
    /\ StronglySorted
         (fun a b => (order_in_list_key a <= order_in_list_key b)%Z) owners
    /\ Permutation owners
         (filter
            (fun o =>
               match CampaignXOwner.order_in_list o with
               | Some n => (1 <=? n)%Z
               | None => false
               end
               && (if positive_value_exists (Helpers := model_helpers) (PStr "wv02org1")
                   then col_exact (CampaignXOwner.organization_we_vote_id o) "wv02org1"
                   else true))
            (owner_rows ordered_owner_store)).
Proof.
  apply (@campaignx_we_vote_ids_in_order_are_ordered model_helpers model_database
      ordered_owner_store
           "wv02org1").
  reflexivity.
Defined.

(** ** Campaigns a voter started *)

Lemma qs_result_objects_all : forall (DB : Database) R (rows : list R),
  qs_result (objects_all rows) = rows.
Proof. reflexivity. Qed.

(** X14.  [retrieve_campaignx_we_vote_id_list_started_by_voter] (lines 1197-1217)
    and [retrieve_campaignx_list_for_voter] (lines 1270-1287) agree, on any
    store: the identifiers the first returns are, without repetition, those
    of the campaigns the second returns, and these are the campaigns of the
    table started by the voter. *)
Theorem started_by_voter_ids_are_those_of_the_voter_list :
  forall (DB : Database) (st : Store) (started_by_voter_we_vote_id : string),
    let results :=
      retrieve_campaignx_we_vote_id_list_started_by_voter st
        started_by_voter_we_vote_id in
    let ids := WeVoteIdListResults.campaignx_we_vote_id_list results in
    NoDup ids
    /\ (forall id,
          In id ids
          <-> In id (map CampaignX.we_vote_id
                         (retrieve_campaignx_list_for_voter st
                            started_by_voter_we_vote_id)))
    /\ (forall c,
          In c (retrieve_campaignx_list_for_voter st started_by_voter_we_vote_id) ->
          In c (campaignx_rows st)
          /\ CampaignX.started_by_voter_we_vote_id c = Some started_by_voter_we_vote_id).
Proof.
  intros DB st v. cbv zeta.
  unfold retrieve_campaignx_we_vote_id_list_started_by_voter,
    retrieve_campaignx_list_for_voter, values_list_distinct, qs_list, db_run.
  destruct (db_error st); cbn [bind try_catch].
  - cbn. repeat split; try constructor; try contradiction.
  - rewrite !qs_result_filter_all.
    set (started := filter _ (campaignx_rows st)).
    assert (Hlist : (let '(found, l) :=
                       if (0 <? List.length started)%nat then (true, started)
                       else (false, started) in
                     if found then l else []) = started).
    { destruct started; reflexivity. }
    rewrite Hlist, !qs_result_objects_all.
    cbn [WeVoteIdListResults.campaignx_we_vote_id_list].
    split; [apply distinct_NoDup|]. split.
    + intros id. apply In_distinct.
    + intros c Hin. subst started. apply filter_In in Hin as (Hin & Hc).
      split; [assumption|]. now apply col_exact_true.
Qed.

(** ** Owners of a campaign *)

Lemma retrieve_campaignx_owner_answers :
  forall (H : Helpers) (DB : Database) st c v read_only,
    db_error st = None ->
    positive_value_exists (PStr c) = true ->
    positive_value_exists (PStr v) = true ->
    let matching :=
      filter (fun o => col_exact (CampaignXOwner.campaignx_we_vote_id o) c
                       && col_exact (CampaignXOwner.voter_we_vote_id o) v)
             (owner_rows st) in
    let results := retrieve_campaignx_owner st c v read_only in
    CampaignXOwnerResults.success results = true
    /\ CampaignXOwnerResults.campaignx_owner results = hd_error matching
    /\ CampaignXOwnerResults.campaignx_owner_found results
       = (0 <? List.length matching)%nat
    /\ CampaignXOwnerResults.exception_does_not_exist results
       = negb (0 <? List.length matching)%nat
    /\ CampaignXOwnerResults.exception_multiple_object_returned results
       = (1 <? List.length matching)%nat.
Proof.
  intros H DB st c v ro Hst Hc Hv. cbv zeta. unfold retrieve_campaignx_owner.
  rewrite Hc, Hv. cbn [andb].
  replace (if positive_value_exists (PBool ro)
           then qs_filter _ (objects_all (owner_rows st))
           else qs_filter _ (objects_all (owner_rows st)))
    with (qs_filter
            (fun o => col_exact (CampaignXOwner.campaignx_we_vote_id o) c
                      && col_exact (CampaignXOwner.voter_we_vote_id o) v)
            (objects_all (owner_rows st)))
    by now destruct (positive_value_exists (PBool ro)).
  rewrite qs_list_ok by assumption. rewrite qs_result_filter_all. cbn [bind].
  destruct (filter _ (owner_rows st)) as [|o [|o' rest]]; cbn; repeat split.
Qed.

(** X15.  [retrieve_campaignx_owner] (lines 1289-1334).  On a store that
    answers, with both identifiers accepted by [positive_value_exists], it
    succeeds and returns the first Owner row, in the order of the table,
    whose campaign and voter are exactly those asked for; it reports
    [DoesNotExist] when there is none and [MultipleObjectsReturned] when
    there are several.  With an identifier missing it fails and reports
    [MultipleObjectsReturned].  While the store is failing it fails with
    neither flag set. *)
Theorem retrieve_campaignx_owner_finds_the_first_row :
  forall (H : Helpers) (DB : Database)
      (st : Store) (campaignx_we_vote_id voter_we_vote_id : string)
         (read_only : bool),
    let matching :=
      filter (fun o => col_exact (CampaignXOwner.campaignx_we_vote_id o)
                                 campaignx_we_vote_id
                       && col_exact (CampaignXOwner.voter_we_vote_id o)
                                    voter_we_vote_id)
             (owner_rows st) in
    let results :=
      retrieve_campaignx_owner st campaignx_we_vote_id voter_we_vote_id read_only in
    (db_error st = None ->
     positive_value_exists (PStr campaignx_we_vote_id) = true ->
     positive_value_exists (PStr voter_we_vote_id) = true ->
     CampaignXOwnerResults.success results = true
     /\ CampaignXOwnerResults.campaignx_owner results = hd_error matching
     /\ CampaignXOwnerResults.campaignx_owner_found results
        = (0 <? List.length matching)%nat
     /\ CampaignXOwnerResults.exception_does_not_exist results
        = negb (0 <? List.length matching)%nat
     /\ CampaignXOwnerResults.exception_multiple_object_returned results
        = (1 <? List.length matching)%nat)
    /\ (positive_value_exists (PStr campaignx_we_vote_id) = false
        \/ positive_value_exists (PStr voter_we_vote_id) = false ->
        CampaignXOwnerResults.success results = false
        /\ CampaignXOwnerResults.campaignx_owner results = None
        /\ CampaignXOwnerResults.campaignx_owner_found results = false
        /\ CampaignXOwnerResults.exception_does_not_exist results = false
        /\ CampaignXOwnerResults.exception_multiple_object_returned results = true)
    /\ (db_error st <> None ->
        positive_value_exists (PStr campaignx_we_vote_id) = true ->
        positive_value_exists (PStr voter_we_vote_id) = true ->
        CampaignXOwnerResults.success results = false
        /\ CampaignXOwnerResults.campaignx_owner results = None
        /\ CampaignXOwnerResults.campaignx_owner_found results = false
        /\ CampaignXOwnerResults.exception_does_not_exist results = false
        /\ CampaignXOwnerResults.exception_multiple_object_returned results = false).
Proof.
  intros H DB st c v ro. cbv zeta. split; [|split].
  - intros Hst Hc Hv. now apply retrieve_campaignx_owner_answers.
  - intros Hmissing. unfold retrieve_campaignx_owner.
    assert (Hand : positive_value_exists (PStr c) && positive_value_exists (PStr v)
                   = false).
    { destruct Hmissing as [-> | ->]; [reflexivity|apply andb_false_r]. }
    rewrite Hand. cbn. repeat split.
  - intros Hst Hc Hv. unfold retrieve_campaignx_owner, qs_list, db_run.
    rewrite Hc, Hv. cbn [andb].
    destruct (db_error st); [|contradiction].
    destruct (positive_value_exists (PBool ro)); cbn; repeat split.
Qed.

Lemma retrieve_campaignx_owner_finds_the_first_row_witness :
  let results :=
    retrieve_campaignx_owner (H := model_helpers) (DB := model_database)
        owner_store "wv02camp1"
      "wv02voter1" true in
  CampaignXOwnerResults.success results = true
  /\ CampaignXOwnerResults.campaignx_owner results
     = Some (CampaignXOwner.mk 1 (Some "wv02camp1") true None "Voter One"
               (Some "wv02org1") true (Some "wv02voter1") None None)
  /\ CampaignXOwnerResults.campaignx_owner_found results = true
  /\ CampaignXOwnerResults.exception_does_not_exist results = false
  /\ CampaignXOwnerResults.exception_multiple_object_returned results = false.
Proof.
  apply (proj1 (@retrieve_campaignx_owner_finds_the_first_row model_helpers model_database
                  owner_store "wv02camp1" "wv02voter1" true)); reflexivity.
Defined.

Lemma next_id_fresh : forall R (pk : R -> nat) rows r,
  In r rows -> (pk r < next_id pk rows)%nat.
Proof.
  intros R pk rows r Hin. unfold next_id.
  induction rows as [|x rows IH]; [contradiction|].
  cbn [fold_right]. destruct Hin as [->|Hin]; [lia|].
  specialize (IH Hin). lia.
Qed.

Lemma save_row_fresh : forall R (pk : R -> nat) (x : R) rows,
  (forall r, In r rows -> pk r <> pk x) ->
  save_row pk x rows = (rows ++ [x])%list.
Proof.
  intros R pk x rows Hfresh. unfold save_row.
  destruct (existsb _ rows) eqn:Hex; [|reflexivity].
  apply existsb_exists in Hex as (r & Hin & Heq). apply Nat.eqb_eq in Heq.
  now apply Hfresh in Hin.
Qed.

Lemma save_row_appended : forall R (pk : R -> nat) (x y : R) rows,
  pk y = pk x ->
  (forall r, In r rows -> pk r <> pk x) ->
  save_row pk y (rows ++ [x])%list = (rows ++ [y])%list.
Proof.
  intros R pk x y rows Hpk Hfresh. unfold save_row.
  rewrite existsb_app. cbn [existsb]. rewrite Hpk, Nat.eqb_refl, orb_true_r.
  cbn [orb]. rewrite map_app. cbn [map]. rewrite Nat.eqb_refl. f_equal.
  rewrite <- (map_id rows) at 2. apply map_ext_in. intros r Hin.
  destruct (Nat.eqb_spec (pk r) (pk x)) as [He|_]; [|reflexivity].
  now apply Hfresh in Hin.
Qed.

Lemma save_row_replaces : forall R (pk : R -> nat) (x y : R) rows,
  In x rows -> pk y = pk x ->
  save_row pk y rows = map (fun r => if Nat.eqb (pk r) (pk y) then y else r) rows.
Proof.
  intros R pk x y rows Hin Hpk. unfold save_row.
  destruct (existsb _ rows) eqn:Hex; [reflexivity|].
  assert (Ht : existsb (fun r => Nat.eqb (pk r) (pk y)) rows = true).
  { apply existsb_exists. exists x. split; [assumption|]. rewrite Hpk.
    apply Nat.eqb_refl. }
  congruence.
Qed.

Lemma length_filter_map_in : forall A (p : A -> bool) (f : A -> A) (l : list A),
  (forall x, In x l -> p (f x) = p x) ->
  List.length (filter p (map f l)) = List.length (filter p l).
Proof.
  intros A p f l Hp. induction l as [|x l IH]; [reflexivity|].
  cbn [map filter]. rewrite Hp by now left.
  destruct (p x); cbn [List.length]; rewrite IH; try reflexivity;
    intros; apply Hp; now right.
Qed.

Lemma assign_owner_columns_keeps :
  forall (H : Helpers) name org visible medium tiny o,
    let o' := assign_owner_columns name org visible medium tiny o in
    CampaignXOwner.id o' = CampaignXOwner.id o
    /\ CampaignXOwner.campaignx_we_vote_id o' = CampaignXOwner.campaignx_we_vote_id o
    /\ CampaignXOwner.voter_we_vote_id o' = CampaignXOwner.voter_we_vote_id o.
Proof.
  intros H name org visible medium tiny o. cbv zeta. unfold assign_owner_columns.
  destruct name, org, visible, medium, tiny; repeat split.
Qed.

(** the identifiers of a campaign and of a voter on an Owner row *)
Lemma owner_upsert_runs :
  forall (H : Helpers) (DB : Database)
      (D : OrganizationDirectory) st c v org name visible medium tiny,
    db_error st = None ->
    positive_value_exists (PStr c) = true ->
    positive_value_exists (PStr v) = true ->
    let matches (o : CampaignXOwner.t) :=
      col_exact (CampaignXOwner.campaignx_we_vote_id o) c
      && col_exact (CampaignXOwner.voter_we_vote_id o) v in
    let run := update_or_create_campaignx_owner st c v org name visible medium tiny in
    exists kept,
      OwnerUpsertResults.success (fst run) = true
      /\ OwnerUpsertResults.campaignx_owner (fst run) = Some kept
      /\ matches kept = true
      /\ db_error (snd run) = None
      /\ team_member_rows (snd run) = team_member_rows st
      /\ OwnerUpsertResults.campaignx_owner_created (fst run)
         = negb (0 <? List.length (filter matches (owner_rows st)))%nat
      /\ OwnerUpsertResults.campaignx_owner_found (fst run)
         = (0 <? List.length (filter matches (owner_rows st)))%nat
      /\ match filter matches (owner_rows st) with
         | [] => owner_rows (snd run) = (owner_rows st ++ [kept])%list
                 /\ forall r, In r (owner_rows st)
                              -> CampaignXOwner.id r <> CampaignXOwner.id kept
         | first :: _ =>
             CampaignXOwner.id kept = CampaignXOwner.id first
             /\ (owner_rows (snd run) = owner_rows st /\ kept = first
                 \/ owner_rows (snd run)
                    = save_row CampaignXOwner.id kept (owner_rows st))
         end.
Proof.
  intros H DB D st c v org name visible medium tiny Hst Hc Hv. cbv zeta.
  unfold update_or_create_campaignx_owner. rewrite Hc, Hv. cbn [negb orb].
  destruct (retrieve_campaignx_owner_answers H DB st c v false Hst Hc Hv)
    as (Hsuccess & Howner & Hfound & _ & _).
  rewrite Hsuccess, Howner, Hfound.
  set (matches := fun o => col_exact (CampaignXOwner.campaignx_we_vote_id o) c
                           && col_exact (CampaignXOwner.voter_we_vote_id o) v) in *.
  set (triple := (match org with Some o => _ | None => _ end
                  : option string * option string * option string)).
  destruct triple as [[name' medium'] tiny'].
  destruct (filter matches (owner_rows st)) as [|first rest] eqn:Hmatching.
  - cbn [List.length Nat.ltb Nat.leb hd_error negb].
    unfold create_campaignx_owner. rewrite db_run_ok by assumption. cbn [bind].
    unfold save_campaignx_owner. rewrite db_run_ok by assumption. cbn [bind].
    cbn [owner_rows set_owner_rows fst snd].
    set (created := new_campaignx_owner _ _ _ _).
    pose proof (assign_owner_columns_keeps H name' org visible medium' tiny' created)
      as (Hid & Hcid & Hvid).
    cbv zeta in Hid, Hcid, Hvid.
    assert (Hfresh : forall r, In r (owner_rows st)
                               -> CampaignXOwner.id r <> CampaignXOwner.id created).
    { intros r Hin. apply (next_id_fresh CampaignXOwner.id) in Hin.
      subst created. cbn. lia. }
    rewrite (@save_row_appended _ CampaignXOwner.id created _ (owner_rows st) Hid
               Hfresh).
    eexists. split; [reflexivity|]. split; [reflexivity|].
    split; [|repeat split; try assumption].
    + unfold matches. rewrite Hcid, Hvid. subst created. cbn.
      now rewrite !String.eqb_refl.
    + intros r Hin. rewrite Hid. now apply Hfresh.
  - cbn [List.length hd_error negb].
    replace (0 <? S (List.length rest))%nat with true by reflexivity.
    cbn [negb].
    assert (Hfirst : In first (owner_rows st) /\ matches first = true).
    { apply filter_In. rewrite Hmatching. now left. }
    destruct Hfirst as (Hin & Hm).
    pose proof (assign_owner_columns_keeps H name' org visible medium' tiny' first)
      as (Hid & Hcid & Hvid).
    cbv zeta in Hid, Hcid, Hvid.
    match goal with
    | |- context [if ?b then _ else _] => destruct b
    end.
    + unfold save_campaignx_owner. rewrite db_run_ok by assumption. cbn [bind].
      cbn [owner_rows set_owner_rows fst snd].
      eexists. split; [reflexivity|]. split; [reflexivity|].
      split; [|repeat split; try assumption; now right].
      unfold matches. rewrite Hcid, Hvid. exact Hm.
    + cbn [fst snd]. exists first.
      repeat split; try assumption. now left.
Qed.

Lemma NoDup_map_eq : forall A B (f : A -> B) (l : list A) x y,
  NoDup (map f l) -> In x l -> In y l -> f x = f y -> x = y.
Proof.
  intros A B f l x y Hnd. induction l as [|a l IH]; [contradiction|].
  inversion Hnd as [|? ? Ha Hnd']; subst. intros [->|Hx] [->|Hy] Hf.
  - reflexivity.
  - exfalso. apply Ha. rewrite Hf. now apply in_map.
  - exfalso. apply Ha. rewrite <- Hf. now apply in_map.
  - now apply IH.
Qed.

Lemma length_positive_existsb : forall A (p : A -> bool) (l : list A),
  (0 <? List.length (filter p l))%nat = existsb p l.
Proof.
  intros A p l. induction l as [|x l IH]; [reflexivity|].
  cbn [filter existsb]. destruct (p x); [reflexivity|exact IH].
Qed.

Lemma NoDup_app_fresh : forall A (l : list A) (x : A),
  NoDup l -> ~ In x l -> NoDup (l ++ [x]).
Proof.
  intros A l x Hl Hx. induction Hl as [|a l Ha Hl IH]; cbn [app].
  - repeat constructor. intros [].
  - constructor.
    + intros Hin. apply in_app_or in Hin as [Hin|[->|[]]]; [now apply Ha|].
      apply Hx. now left.
    + apply IH. intros Hin. apply Hx. now right.
Qed.

(** X16.  [update_or_create_campaignx_owner] (lines 2433-2541) never makes a
    second Owner row for a campaign and a voter.  On a store that answers
    whose Owner rows have distinct keys, with both identifiers accepted by
    [positive_value_exists], it succeeds; it creates a row exactly when no
    row links the campaign and the voter; afterwards the number of rows
    that link them is the number of before, or one when there was none; the
    keys are still distinct and every row that does not link them is a row
    of before. *)
Theorem update_or_create_campaignx_owner_adds_at_most_one_row :
  forall (H : Helpers) (DB : Database) (D : OrganizationDirectory) (st : Store)
         (campaignx_we_vote_id voter_we_vote_id : string)
         (organization_we_vote_id organization_name : option string)
         (visible_to_public : pyval)
         (we_vote_hosted_profile_image_url_medium
            we_vote_hosted_profile_image_url_tiny : option string),
    db_error st = None ->
    positive_value_exists (PStr campaignx_we_vote_id) = true ->
    positive_value_exists (PStr voter_we_vote_id) = true ->
    NoDup (map CampaignXOwner.id (owner_rows st)) ->
    let matches (o : CampaignXOwner.t) :=
      col_exact (CampaignXOwner.campaignx_we_vote_id o) campaignx_we_vote_id
      && col_exact (CampaignXOwner.voter_we_vote_id o) voter_we_vote_id in
    let run :=
      update_or_create_campaignx_owner st campaignx_we_vote_id voter_we_vote_id
        organization_we_vote_id organization_name visible_to_public
        we_vote_hosted_profile_image_url_medium
        we_vote_hosted_profile_image_url_tiny in
    OwnerUpsertResults.success (fst run) = true
    /\ OwnerUpsertResults.campaignx_owner_created (fst run)
       = negb (existsb matches (owner_rows st))
    /\ List.length (filter matches (owner_rows (snd run)))
       = Nat.max 1 (List.length (filter matches (owner_rows st)))
    /\ NoDup (map CampaignXOwner.id (owner_rows (snd run)))
    /\ (forall r, In r (owner_rows (snd run)) -> matches r = false ->
                  In r (owner_rows st)).
Proof.
  intros H DB D st c v org name visible medium tiny Hst Hc Hv Hnd. cbv zeta.
  destruct (owner_upsert_runs H DB D st c v org name visible medium tiny Hst Hc Hv)
    as (kept & Hsuccess & _ & Hkept & _ & _ & Hcreated & _ & Hrows).
  cbv zeta in Hsuccess, Hkept, Hcreated, Hrows.
  set (matches := fun o => col_exact (CampaignXOwner.campaignx_we_vote_id o) c
                           && col_exact (CampaignXOwner.voter_we_vote_id o) v) in *.
  change (matches kept = true) in Hkept.
  split; [assumption|]. split.
  { rewrite Hcreated. now rewrite length_positive_existsb. }
  destruct (filter matches (owner_rows st)) as [|first rest] eqn:Hmatching.
  - destruct Hrows as (-> & Hfresh). rewrite filter_app, Hmatching. cbn [filter].
    rewrite Hkept. split; [reflexivity|]. split.
    + rewrite map_app. cbn [map]. apply NoDup_app_fresh; [assumption|].
      intros Hin. apply in_map_iff in Hin as (r & Hid & Hin).
      now apply Hfresh in Hin.
    + intros r Hin Hr. apply in_app_or in Hin as [Hin|[Heq|[]]]; [assumption|].
      subst r. unfold matches in Hr, Hkept. cbv beta in Hr, Hkept. congruence.
  - assert (Hfirst : In first (owner_rows st) /\ matches first = true).
    { apply filter_In. rewrite Hmatching. now left. }
    destruct Hfirst as (Hin & Hm).
    destruct Hrows as (Hid & [(-> & ->) | ->]).
    + rewrite Hmatching. split; [reflexivity|]. split; [assumption|]. tauto.
    + rewrite (@save_row_replaces _ CampaignXOwner.id first kept (owner_rows st)
                 Hin Hid).
      assert (Hreplace : forall x, In x (owner_rows st) ->
                 matches (if Nat.eqb (CampaignXOwner.id x) (CampaignXOwner.id kept)
                          then kept else x) = matches x).
      { intros x Hx. destruct (Nat.eqb_spec (CampaignXOwner.id x) (CampaignXOwner.id kept))
          as [He|_]; [|reflexivity].
        rewrite Hid in He.
        rewrite (@NoDup_map_eq _ _ CampaignXOwner.id (owner_rows st) x first Hnd Hx
                   Hin He).
        unfold matches in Hm, Hkept |- *. cbv beta in Hm, Hkept |- *. congruence. }
      rewrite length_filter_map_in by assumption. rewrite Hmatching.
      split; [reflexivity|]. split.
      * rewrite map_map.
        replace (map _ (owner_rows st)) with (map CampaignXOwner.id (owner_rows st));
          [assumption|].
        apply map_ext. intros x.
        now destruct (Nat.eqb_spec (CampaignXOwner.id x) (CampaignXOwner.id kept)).
      * intros r Hr Hfalse. apply in_map_iff in Hr as (x & <- & Hx).
        destruct (Nat.eqb (CampaignXOwner.id x) (CampaignXOwner.id kept));
          [|assumption].
        unfold matches in Hfalse, Hkept. cbv beta in Hfalse, Hkept. congruence.
Qed.

Lemma update_or_create_campaignx_owner_adds_at_most_one_row_witness :
  let matches (o : CampaignXOwner.t) :=
    col_exact (CampaignXOwner.campaignx_we_vote_id o) "wv02camp1"
    && col_exact (CampaignXOwner.voter_we_vote_id o) "wv02voter1" in
  let run :=
    update_or_create_campaignx_owner (H := model_helpers) (DB := model_database)
      (D := model_organization_directory) owner_store "wv02camp1" "wv02voter1"
      None (Some "Renamed") PNone None None in
  OwnerUpsertResults.success (fst run) = true
  /\ OwnerUpsertResults.campaignx_owner_created (fst run)
     = negb (existsb matches (owner_rows owner_store))
  /\ List.length (filter matches (owner_rows (snd run)))
     = Nat.max 1 (List.length (filter matches (owner_rows owner_store)))
  /\ NoDup (map CampaignXOwner.id (owner_rows (snd run)))
  /\ (forall r, In r (owner_rows (snd run)) -> matches r = false ->
                In r (owner_rows owner_store)).
Proof.
  apply (@update_or_create_campaignx_owner_adds_at_most_one_row model_helpers model_database
           model_organization_directory owner_store "wv02camp1" "wv02voter1"
           None (Some "Renamed") PNone None None); try reflexivity.
  repeat constructor. intros [].
Defined.

(** X17.  Create or update, then ask.  On a store that answers, with both
    identifiers accepted by [positive_value_exists],
    [update_or_create_campaignx_owner] (lines 2433-2541) succeeds and
    returns an Owner row that the table holds and that names the campaign
    and the voter; afterwards [is_voter_campaignx_owner] (lines 471-520)
    answers [True] for them and [retrieve_campaignx_owner] (lines 1289-1334)
    finds a row. *)
Theorem update_or_create_campaignx_owner_makes_the_voter_an_owner :
  forall (H : Helpers) (DB : Database) (D : OrganizationDirectory) (st : Store)
         (campaignx_we_vote_id voter_we_vote_id : string)
         (organization_we_vote_id organization_name : option string)
         (visible_to_public : pyval)
         (we_vote_hosted_profile_image_url_medium
            we_vote_hosted_profile_image_url_tiny : option string),
    db_error st = None ->
    positive_value_exists (PStr campaignx_we_vote_id) = true ->
    positive_value_exists (PStr voter_we_vote_id) = true ->
    let run :=
      update_or_create_campaignx_owner st campaignx_we_vote_id voter_we_vote_id
        organization_we_vote_id organization_name visible_to_public
        we_vote_hosted_profile_image_url_medium
        we_vote_hosted_profile_image_url_tiny in
    exists campaignx_owner,
      OwnerUpsertResults.success (fst run) = true
      /\ OwnerUpsertResults.campaignx_owner (fst run) = Some campaignx_owner
      /\ In campaignx_owner (owner_rows (snd run))
      /\ CampaignXOwner.campaignx_we_vote_id campaignx_owner = Some campaignx_we_vote_id
      /\ CampaignXOwner.voter_we_vote_id campaignx_owner = Some voter_we_vote_id
      /\ is_voter_campaignx_owner (snd run) campaignx_we_vote_id voter_we_vote_id
         = Ok true
      /\ forall read_only,
           CampaignXOwnerResults.campaignx_owner_found
             (retrieve_campaignx_owner (snd run) campaignx_we_vote_id
                voter_we_vote_id read_only) = true.
Proof.
  intros H DB D st c v org name visible medium tiny Hst Hc Hv. cbv zeta.
  destruct (owner_upsert_runs H DB D st c v org name visible medium tiny Hst Hc Hv)
    as (kept & Hsuccess & Howner & Hkept & Hst' & _ & _ & _ & Hrows).
  cbv zeta in Hsuccess, Howner, Hkept, Hst', Hrows.
  set (run := update_or_create_campaignx_owner st c v org name visible medium tiny)
    in *.
  assert (Hin : In kept (owner_rows (snd run))).
  { destruct (filter _ (owner_rows st)) as [|first rest] eqn:Hmatching.
    - destruct Hrows as (-> & _). apply in_or_app. right. now left.
    - assert (Hfirst : In first (owner_rows st)).
      { eapply proj1. apply filter_In. rewrite Hmatching. now left. }
      destruct Hrows as (_ & [(-> & ->) | ->]); [assumption|apply save_row_In]. }
  apply andb_true_iff in Hkept as (Hcid & Hvid).
  exists kept. split; [assumption|]. split; [assumption|]. split; [assumption|].
  split; [now apply col_exact_true|]. split; [now apply col_exact_true|].
  assert (Hmatching : forall p : CampaignXOwner.t -> bool,
             p kept = true ->
             (0 <? List.length (filter p (owner_rows (snd run))))%nat = true).
  { intros p Hp. apply length_positive. exists kept. apply filter_In. now split. }
  split.
  - rewrite (is_voter_campaignx_owner_answers H DB _ _ _ Hst').
    assert (Hcount :
              (0 <? Z.of_nat
                      (List.length
                         (filter
                            (fun o =>
                               col_iexact (CampaignXOwner.campaignx_we_vote_id o) c
                               && col_iexact (CampaignXOwner.voter_we_vote_id o) v)
                            (owner_rows (snd run)))))%Z = true).
    { apply count_positive. exists kept. split; [assumption|].
      now rewrite !col_exact_iexact. }
    now rewrite Hcount.
  - intros ro.
    destruct (retrieve_campaignx_owner_answers H DB (snd run) c v ro Hst' Hc Hv)
      as (_ & _ & -> & _).
    apply Hmatching. now rewrite Hcid, Hvid.
Qed.

Lemma update_or_create_campaignx_owner_makes_the_voter_an_owner_witness :
  let run :=
    update_or_create_campaignx_owner (H := model_helpers) (DB := model_database)
      (D := model_organization_directory) empty_store "wv02camp1" "wv02voter1"
      (Some "wv02org1") None (PBool true) None None in
  exists campaignx_owner,
    OwnerUpsertResults.success (fst run) = true
    /\ OwnerUpsertResults.campaignx_owner (fst run) = Some campaignx_owner
    /\ In campaignx_owner (owner_rows (snd run))
    /\ CampaignXOwner.campaignx_we_vote_id campaignx_owner = Some "wv02camp1"
    /\ CampaignXOwner.voter_we_vote_id campaignx_owner = Some "wv02voter1"
    /\ is_voter_campaignx_owner (H := model_helpers) (DB := model_database)
        (snd run) "wv02camp1"
         "wv02voter1" = Ok true
    /\ forall read_only,
         CampaignXOwnerResults.campaignx_owner_found
           (retrieve_campaignx_owner (H := model_helpers) (DB := model_database)
               (snd run) "wv02camp1"
              "wv02voter1" read_only) = true.
Proof.
  apply (@update_or_create_campaignx_owner_makes_the_voter_an_owner model_helpers model_database
           model_organization_directory empty_store "wv02camp1" "wv02voter1"
           (Some "wv02org1") None (PBool true) None None); reflexivity.
Defined.

(** ** What the allocator of paths guarantees *)

Lemma same_tables_but_paths_refl : forall st, same_tables_but_paths st st.
Proof. intros st. repeat split. Qed.

Lemma qs_count_Ok : forall (DB : Database) R (st : Store) (qs : QuerySet R) n,
  qs_count st qs = Ok n -> n = Z.of_nat (List.length (qs_result qs)).
Proof.
  intros DB R st qs n Hn. unfold qs_count, db_run in Hn.
  destruct (db_error st); [discriminate|]. now injection Hn as <-.
Qed.

Lemma count_seo_friendly_paths_taken : forall (H : Helpers) (DB : Database) st0 st pathname n,
  seo_friendly_path_rows st = seo_friendly_path_rows st0 ->
  count_seo_friendly_paths st pathname = Ok n ->
  positive_value_exists (PInt n) = path_in_history st0 pathname.
Proof.
  intros H DB st0 st pathname n Hrows Hn. unfold count_seo_friendly_paths in Hn.
  apply qs_count_Ok in Hn. rewrite qs_result_filter_all, Hrows in Hn. subst n.
  rewrite positive_value_exists_int. apply count_positive_existsb.
Qed.

Lemma count_campaignx_with_path_taken : forall (H : Helpers) (DB : Database) st0 st pathname n,
  campaignx_rows st = campaignx_rows st0 ->
  count_campaignx_with_path st pathname = Ok n ->
  positive_value_exists (PInt n) = path_in_campaigns st0 pathname.
Proof.
  intros H DB st0 st pathname n Hrows Hn. unfold count_campaignx_with_path in Hn.
  apply qs_count_Ok in Hn. rewrite qs_result_filter_all, Hrows in Hn. subst n.
  rewrite positive_value_exists_int. apply count_positive_existsb.
Qed.

Lemma drawing_keeps_the_tables : forall st0 st n,
  same_tables_but_paths st0 st ->
  seo_friendly_path_rows st = seo_friendly_path_rows st0 ->
  same_tables_but_paths st0 (set_random_strings_drawn st n)
  /\ seo_friendly_path_rows (set_random_strings_drawn st n) = seo_friendly_path_rows st0
  /\ campaignx_rows (set_random_strings_drawn st n) = campaignx_rows st0.
Proof.
  intros st0 st n (Hc & Ho & Hs & Ht & Hd & Hw) Hp. repeat split; assumption.
Qed.

Lemma modifier_loop_keeps : forall (H : Helpers) (DB : Database) st0 budget base v,
  allocation_invariant st0 v ->
  match modifier_loop budget base v with
  | Return r => allocation_failed st0 r
  | Continue v' => allocation_invariant st0 v'
  end.
Proof.
  intros H DB st0 budget base. induction budget as [|budget IH]; intros v Hinv.
  - cbn [modifier_loop]. destruct (modifier_not_reviewed _ _); [|assumption].
    destruct Hinv as (Htables & Hpaths & _). repeat split; try apply Htables.
    assumption.
  - rewrite modifier_loop_step. destruct (modifier_not_reviewed _ _); [|assumption].
    cbv zeta. destruct Hinv as (Htables & Hpaths & Hfree).
    destruct (drawing_keeps_the_tables
                (S (random_strings_drawn (PathVars.store v))) Htables Hpaths)
      as (Htables1 & Hpaths1 & Hcampaigns1).
    set (st1 := set_random_strings_drawn (PathVars.store v) _) in *.
    set (candidate := base ++ "-" ++ _).
    destruct (count_seo_friendly_paths st1 candidate) as [n|e] eqn:Hn.
    + pose proof (count_seo_friendly_paths_taken H DB st0 _ _ Hpaths1 Hn) as Hhistory.
      destruct (positive_value_exists (PInt n)); cbn [negb].
      * apply IH. repeat split; try apply Htables1; assumption.
      * destruct (count_campaignx_with_path st1 candidate) as [m|e] eqn:Hm.
        -- pose proof (count_campaignx_with_path_taken H DB st0 _ _ Hcampaigns1 Hm)
             as Hcampaigns.
           destruct (positive_value_exists (PInt m)).
           ++ apply IH. repeat split; try apply Htables1; assumption.
           ++ apply IH. repeat split; try apply Htables1; try assumption.
              intros _. cbn [PathVars.final_pathname_string]. unfold path_taken.
              now rewrite <- Hhistory, <- Hcampaigns.
        -- repeat split; try apply Htables1; assumption.
    + repeat split; try apply Htables1; assumption.
Qed.

Lemma retrieving_loop_keeps : forall (H : Helpers) (DB : Database) st0 remaining base v,
  allocation_invariant st0 v ->
  match retrieving_loop remaining base v with
  | Return r => allocation_failed st0 r
  | Continue v' => allocation_invariant st0 v'
  end.
Proof.
  intros H DB st0 remaining base. induction remaining as [|remaining IH]; intros v Hinv.
  - exact Hinv.
  - rewrite retrieving_loop_round. destruct (PathVars.continue_retrieving v);
      [|assumption].
    pose proof (@modifier_loop_keeps H DB st0 51 base v Hinv) as Hinner.
    destruct (modifier_loop 51 base v) as [r|v']; [assumption|now apply IH].
Qed.

Lemma failed_allocation_guarantees : forall st c (run : SeoPathResults.t * Store),
  allocation_failed st run ->
  same_tables_but_paths st (snd run)
  /\ (SeoPathResults.seo_friendly_path_created (fst run) = false ->
      seo_friendly_path_rows (snd run) = seo_friendly_path_rows st)
  /\ (SeoPathResults.seo_friendly_path_created (fst run) = true ->
      SeoPathResults.success (fst run) = true
      /\ SeoPathResults.seo_friendly_path_found (fst run) = true
      /\ path_taken st (SeoPathResults.seo_friendly_path (fst run)) = false
      /\ exists row,
           seo_friendly_path_rows (snd run)
           = (seo_friendly_path_rows st ++ [row])%list
           /\ CampaignXSEOFriendlyPath.final_pathname_string row
              = Some (SeoPathResults.seo_friendly_path (fst run))
           /\ CampaignXSEOFriendlyPath.campaignx_we_vote_id row = Some c)
  /\ (SeoPathResults.success (fst run) = true ->
      SeoPathResults.seo_friendly_path_found (fst run) = true
      /\ path_owned_by (snd run) c (SeoPathResults.seo_friendly_path (fst run)) = true)
  /\ (SeoPathResults.success (fst run) = false ->
      SeoPathResults.seo_friendly_path_created (fst run) = false
      /\ SeoPathResults.seo_friendly_path_found (fst run) = false).
Proof.
  intros st c run (Htables & Hpaths & Hcreated & Hfound & Hsuccess).
  rewrite Hcreated, Hfound, Hsuccess.
  split; [assumption|]. split; [intros _; assumption|].
  split; [discriminate|]. split; [discriminate|].
  intros _. split; reflexivity.
Qed.

Lemma failed_allocation : forall st final status,
  allocation_failed st (seo_path_failed final status, st).
Proof. intros. repeat split. Qed.

(** the statements that follow the loops (lines 413-469) *)
Lemma allocation_finish :
  forall (H : Helpers) st c title base (v : PathVars.t),
    allocation_invariant st v ->
    let run :=
      if PathVars.owned_by_another_campaignx v then
        (seo_path_failed (PathVars.final_pathname_string v)
           (PathVars.status v ++ "FAILED_TO_FIND_UNIQUE_URL "), PathVars.store v)
      else if negb (positive_value_exists (PStr (PathVars.final_pathname_string v)))
              || negb (positive_value_exists (PStr c)) then
        (seo_path_failed (PathVars.final_pathname_string v)
           (PathVars.status v ++ "MISSING_REQUIRED_VARIABLE "), PathVars.store v)
      else
        match create_seo_friendly_path (PathVars.store v) base title c
                (PathVars.final_pathname_string v) (PathVars.pathname_modifier v) with
        | Raise e =>
            (seo_path_failed (PathVars.final_pathname_string v)
               (PathVars.status v ++ "CAMPAIGNX_SEO_FRIENDLY_PATH_NOT_CREATED: "
                                ++ str_exn e ++ " "),
             PathVars.store v)
        | Ok (_, st') =>
            (SeoPathResults.mk (PathVars.final_pathname_string v) true true
               (PathVars.status v ++ "CAMPAIGNX_SEO_FRIENDLY_PATH_CREATED "
                                ++ "FINAL_PATHNAME_STRING_GENERATED ") true, st')
        end in
    same_tables_but_paths st (snd run)
    /\ (SeoPathResults.seo_friendly_path_created (fst run) = false ->
        seo_friendly_path_rows (snd run) = seo_friendly_path_rows st)
    /\ (SeoPathResults.seo_friendly_path_created (fst run) = true ->
        SeoPathResults.success (fst run) = true
        /\ SeoPathResults.seo_friendly_path_found (fst run) = true
        /\ path_taken st (SeoPathResults.seo_friendly_path (fst run)) = false
        /\ exists row,
             seo_friendly_path_rows (snd run)
             = (seo_friendly_path_rows st ++ [row])%list
             /\ CampaignXSEOFriendlyPath.final_pathname_string row
                = Some (SeoPathResults.seo_friendly_path (fst run))
             /\ CampaignXSEOFriendlyPath.campaignx_we_vote_id row = Some c)
    /\ (SeoPathResults.success (fst run) = true ->
        SeoPathResults.seo_friendly_path_found (fst run) = true
        /\ path_owned_by (snd run) c (SeoPathResults.seo_friendly_path (fst run))
           = true)
    /\ (SeoPathResults.success (fst run) = false ->
        SeoPathResults.seo_friendly_path_created (fst run) = false
        /\ SeoPathResults.seo_friendly_path_found (fst run) = false).
Proof.
  intros H st c title base v (Htables & Hpaths & Hfree). cbv zeta.
  assert (Hfailed : forall status,
             allocation_failed st
               (seo_path_failed (PathVars.final_pathname_string v) status,
                PathVars.store v)).
  { intros status. repeat split; try apply Htables. assumption. }
  destruct (PathVars.owned_by_another_campaignx v);
    [apply failed_allocation_guarantees, Hfailed|].
  destruct (negb _ || negb _); [apply failed_allocation_guarantees, Hfailed|].
  unfold create_seo_friendly_path, db_run.
  destruct Htables as (Hc & Ho & Hs & Ht & Hd & Hw).
  destruct (db_error (PathVars.store v)) eqn:Hdb; cbn [bind];
    [apply failed_allocation_guarantees, Hfailed|].
  destruct (existsb _ _); [apply failed_allocation_guarantees, Hfailed|].
  cbn [fst snd SeoPathResults.seo_friendly_path_created SeoPathResults.success
         SeoPathResults.seo_friendly_path_found SeoPathResults.seo_friendly_path
         seo_friendly_path_rows set_seo_friendly_path_rows].
  split; [repeat split; cbn; congruence|]. split; [discriminate|]. split.
  - intros _. split; [reflexivity|]. split; [reflexivity|].
    split; [now apply Hfree|]. rewrite Hpaths. eexists. split; [reflexivity|].
    split; reflexivity.
  - split; [|discriminate]. intros _. split; [reflexivity|].
    unfold path_owned_by. cbn [seo_friendly_path_rows set_seo_friendly_path_rows].
    rewrite existsb_app. cbn [existsb CampaignXSEOFriendlyPath.campaignx_we_vote_id
                                CampaignXSEOFriendlyPath.final_pathname_string
                                col_exact col_iexact].
    rewrite String.eqb_refl, upper_eqb_refl. cbn [andb orb]. apply orb_true_r.
Qed.

Lemma own_path_count_taken : forall (H : Helpers) (DB : Database) st c pathname n,
  qs_count st
    (qs_filter
       (fun p => col_iexact (CampaignXSEOFriendlyPath.final_pathname_string p) pathname)
       (qs_filter
          (fun p => col_exact (CampaignXSEOFriendlyPath.campaignx_we_vote_id p) c)
          (objects_all (seo_friendly_path_rows st)))) = Ok n ->
  positive_value_exists (PInt n) = path_owned_by st c pathname.
Proof.
  intros H DB st c pathname n Hn. apply qs_count_Ok in Hn.
  unfold qs_result, qs_filter, objects_all in Hn.
  cbn [qs_rows qs_ordering qs_stop] in Hn. rewrite sort_rows_no_ordering in Hn.
  subst n. rewrite positive_value_exists_int, count_positive_existsb.
  apply existsb_filter.
Qed.

(** X18.  Whatever the store, the identifier and the title,
    [generate_seo_friendly_path] (lines 214-469) leaves the campaign, owner,
    supporter and team tables, the state of the connection and the
    identifier counter as they were.  When it reports a path as created,
    the call has succeeded, no row of the path history and no campaign held
    that path before (compared without regard to case), and the history
    has grown by exactly one row, which gives the path to the campaign
    asked for; otherwise the history is unchanged.  A success always names
    a path that the history then holds for this campaign, and a failure
    reports the path neither as found nor as created. *)
Theorem generate_seo_friendly_path_never_hands_out_a_taken_path :
  forall (H : Helpers) (DB : Database) (st : Store) (campaignx_we_vote_id : string)
         (campaignx_title : option string),
    let run := generate_seo_friendly_path st campaignx_we_vote_id campaignx_title in
    same_tables_but_paths st (snd run)
    /\ (SeoPathResults.seo_friendly_path_created (fst run) = false ->
        seo_friendly_path_rows (snd run) = seo_friendly_path_rows st)
    /\ (SeoPathResults.seo_friendly_path_created (fst run) = true ->
        SeoPathResults.success (fst run) = true
        /\ SeoPathResults.seo_friendly_path_found (fst run) = true
        /\ path_taken st (SeoPathResults.seo_friendly_path (fst run)) = false
        /\ exists row,
             seo_friendly_path_rows (snd run)
             = (seo_friendly_path_rows st ++ [row])%list
             /\ CampaignXSEOFriendlyPath.final_pathname_string row
                = Some (SeoPathResults.seo_friendly_path (fst run))
             /\ CampaignXSEOFriendlyPath.campaignx_we_vote_id row
                = Some campaignx_we_vote_id)
    /\ (SeoPathResults.success (fst run) = true ->
        SeoPathResults.seo_friendly_path_found (fst run) = true
        /\ path_owned_by (snd run) campaignx_we_vote_id
             (SeoPathResults.seo_friendly_path (fst run)) = true)
    /\ (SeoPathResults.success (fst run) = false ->
        SeoPathResults.seo_friendly_path_created (fst run) = false
        /\ SeoPathResults.seo_friendly_path_found (fst run) = false).
Proof.
  intros H DB st c title. cbv zeta. unfold generate_seo_friendly_path.
  destruct (negb (positive_value_exists (PStr c))) eqn:Hc;
    [apply failed_allocation_guarantees, failed_allocation|].
  destruct (negb (truthy (py_opt_str title)));
    [apply failed_allocation_guarantees, failed_allocation|].
  destruct (slugify _) as [base|e];
    [|apply failed_allocation_guarantees, failed_allocation].
  destruct (negb (truthy (PStr base)) || _);
    [apply failed_allocation_guarantees, failed_allocation|].
  destruct (qs_count st _) as [own|e] eqn:Hown;
    [|apply failed_allocation_guarantees, failed_allocation].
  pose proof (own_path_count_taken H DB _ _ _ Hown) as Howned.
  destruct (positive_value_exists (PInt own)).
  { cbn [fst snd SeoPathResults.seo_friendly_path_created SeoPathResults.success
           SeoPathResults.seo_friendly_path_found SeoPathResults.seo_friendly_path].
    split; [apply same_tables_but_paths_refl|]. split; [reflexivity|].
    split; [discriminate|]. split; [|discriminate].
    intros _. split; [reflexivity|]. now symmetry. }
  destruct (count_seo_friendly_paths st base) as [n|e] eqn:Hn;
    [|apply failed_allocation_guarantees, failed_allocation].
  pose proof (count_seo_friendly_paths_taken H DB st _ _ eq_refl Hn) as Hhistory.
  destruct (positive_value_exists (PInt n)); cbv beta iota; cbn [negb].
  - (* the base path is in the history of another campaign *)
    match goal with
    | |- context [retrieving_loop ?k ?b ?v0] =>
        pose proof (@retrieving_loop_keeps H DB st k b v0) as Hloop;
        destruct (retrieving_loop k b v0) as [r|v]
    end.
    + apply failed_allocation_guarantees, Hloop.
      split; [apply same_tables_but_paths_refl|]. split; [reflexivity|discriminate].
    + pose proof (@allocation_finish H st c
                    (match title with Some t => t | None => "" end) base v)
        as Hfinish.
      cbv zeta in Hfinish. rewrite Hc in Hfinish. apply Hfinish, Hloop.
      split; [apply same_tables_but_paths_refl|]. split; [reflexivity|discriminate].
  - destruct (count_campaignx_with_path st base) as [m|e] eqn:Hm;
      [|apply failed_allocation_guarantees, failed_allocation].
    pose proof (count_campaignx_with_path_taken H DB st _ _ eq_refl Hm) as Hcampaigns.
    destruct (positive_value_exists (PInt m)); cbv beta iota; cbn [negb].
    + match goal with
      | |- context [retrieving_loop ?k ?b ?v0] =>
          pose proof (@retrieving_loop_keeps H DB st k b v0) as Hloop;
          destruct (retrieving_loop k b v0) as [r|v]
      end.
      * apply failed_allocation_guarantees, Hloop.
        split; [apply same_tables_but_paths_refl|]. split; [reflexivity|discriminate].
      * pose proof (@allocation_finish H st c
                      (match title with Some t => t | None => "" end) base v)
          as Hfinish.
        cbv zeta in Hfinish. rewrite Hc in Hfinish. apply Hfinish, Hloop.
        split; [apply same_tables_but_paths_refl|]. split; [reflexivity|discriminate].
    + pose proof (@allocation_finish H st c
                    (match title with Some t => t | None => "" end) base
                    (PathVars.mk base None false "" true [] st)) as Hfinish.
      cbv zeta in Hfinish. rewrite Hc in Hfinish. apply Hfinish.
      split; [apply same_tables_but_paths_refl|]. split; [reflexivity|].
      intros _. cbn [PathVars.final_pathname_string]. unfold path_taken.
      now rewrite <- Hhistory, <- Hcampaigns.
Qed.

Lemma generate_seo_friendly_path_never_hands_out_a_taken_path_witness :
  let run :=
    generate_seo_friendly_path (H := model_helpers) (DB := model_database)
      base_taken_store "wv02camp2" (Some "Campaign") in
  SeoPathResults.seo_friendly_path_created (fst run) = true
  /\ SeoPathResults.seo_friendly_path (fst run) <> "campaign"
  /\ path_taken base_taken_store (SeoPathResults.seo_friendly_path (fst run)) = false
  /\ exists row,
       seo_friendly_path_rows (snd run)
       = (seo_friendly_path_rows base_taken_store ++ [row])%list
       /\ CampaignXSEOFriendlyPath.final_pathname_string row
          = Some (SeoPathResults.seo_friendly_path (fst run))
       /\ CampaignXSEOFriendlyPath.campaignx_we_vote_id row = Some "wv02camp2".
Proof.
  pose proof (@generate_seo_friendly_path_never_hands_out_a_taken_path model_helpers
                model_database base_taken_store "wv02camp2" (Some "Campaign"))
    as Hrun.
  cbv zeta in *. destruct Hrun as (_ & _ & Hcreated & _).
  assert (Hc : SeoPathResults.seo_friendly_path_created
                 (fst (generate_seo_friendly_path (H := model_helpers)
                         (DB := model_database) base_taken_store "wv02camp2"
                         (Some "Campaign"))) = true)
    by (vm_compute; reflexivity).
  destruct (Hcreated Hc) as (_ & _ & Hfree & Hrow).
  split; [exact Hc|]. split; [vm_compute; discriminate|].
  split; [exact Hfree|exact Hrow].
Defined.
